(** * Button: the debounced board-button module of ESP32Forge (Button.c, Button.h)

    A shallow embedding of [Button.c].  The C globals, the FreeRTOS software
    timers, the GPIO interrupt-dispatch table and the values the environment
    feeds to the driver are gathered in one [world] record; every C function
    is a computation in a small state monad that can also leave the function
    early ([return] in the middle of a body) or be undefined (an array read
    out of bounds, a NULL timer handle). *)

From stdpp Require Import base tactics option strings numbers list.

Local Open Scope Z_scope.

(** ** Types of Button.h and of the ESP-IDF / FreeRTOS headers *)

(** [Button_return]: the enumeration generated from [BUTTON_RETURNS]. *)
Inductive Button_return : Set :=
| BSP_BUTTON_OK
| BSP_BUTTON_INIT_ERR
| BSP_BUTTON_DE_INIT_ERR
| BSP_BUTTON_INVALID_BUTTONS_CONFIG_ERR
| BSP_BUTTON_MODULE_WAS_NOT_INIT_ERR
| BSP_BUTTON_DOES_NOT_EXIST_ERR
| BSP_BUTTON_WAS_INITIALIZED_ERR
| BSP_BUTTON_WAS_NOT_INITIALIZED_ERR.

Global Instance Button_return_eq_dec : EqDecision Button_return.
Proof. solve_decision. Defined.

(** [Button_ID] is an enumeration whose enumerators are non-negative, hence
    an unsigned type: any natural number can be handed to the API. *)
Abbreviation Button_ID := nat.
(** [Button_state] receives the raw level read by [gpio_get_level]. *)
Abbreviation Button_state := Z.
Abbreviation gpio_num_t := Z.
Abbreviation gpio_pull_mode_t := Z.
Abbreviation gpio_int_type_t := Z.
Abbreviation gpio_mode_t := Z.
Abbreviation esp_err_t := Z.
(** A [TimerHandle_t] is a pointer: [None] is NULL, [Some h] designates the
    [h]-th timer the kernel created. *)
Abbreviation TimerHandle_t := (option nat).

Definition ESP_OK : esp_err_t := 0.
Definition GPIO_PULLUP_ONLY : gpio_pull_mode_t := 0.
Definition GPIO_PULLDOWN_ONLY : gpio_pull_mode_t := 1.
Definition GPIO_PULLUP_PULLDOWN : gpio_pull_mode_t := 2.
Definition GPIO_FLOATING : gpio_pull_mode_t := 3.
Definition GPIO_INTR_DISABLE : gpio_int_type_t := 0.
Definition GPIO_MODE_INPUT : gpio_mode_t := 1.

(** [uint64_t] arithmetic wraps around. *)
Definition UINT64_MODULUS : Z := 2 ^ 64.
Definition uint64_incr (n : Z) : Z := (n + 1) mod UINT64_MODULUS.

(** [TickType_t] is unsigned and 32 bits wide on the ESP32. *)
Definition TICKTYPE_MODULUS : Z := 2 ^ 32.

(** [BOUNCE_TIME/portTICK_PERIOD_MS], the period [xTimerCreate] receives.
    [portTICK_PERIOD_MS] is a [TickType_t], so the division is an unsigned
    one on 32 bits: [BOUNCE_TIME], taken as an [int] constant of the
    configuration line, is converted to [TickType_t] first, and a negative
    one wraps around.  In C a tick period of 0 leaves the division without a defined
    result; a period is stated below only for a tick period that is not 0. *)
Definition ticks_of_BOUNCE_TIME (bounce_time tick_period : Z) : Z :=
  (bounce_time mod TICKTYPE_MODULUS) / (tick_period mod TICKTYPE_MODULUS).

(** ** Button_physical_connection.h

    The header that declares the buttons of a board is not part of the
    sources; what [Button.c] takes from it is a parameter of the model. *)

(** One [BUTTON_CONFIG(BUTTON_ID, BUTTON_GPIO_ID, BUTTON_GPIO_PULL_MODE,
    INT_TYP, BOUNCE_TIME)] line.  [BUTTON_ID_token] is the spelling of the
    first argument (the stringification [#BUTTON_ID] names the timer),
    [BUTTON_ID] its value. *)
Record button_config : Set := BUTTON_CONFIG {
  BUTTON_ID_token : string;
  BUTTON_ID : Button_ID;
  BUTTON_GPIO_ID : gpio_num_t;
  BUTTON_GPIO_PULL_MODE : gpio_pull_mode_t;
  INT_TYP : gpio_int_type_t;
  BOUNCE_TIME : Z
}.

Record Button_physical_connection : Type := {
  (** the [BUTTONS] list: one [BUTTON(name)] per button, in order *)
  BUTTONS : list string;
  (** the [BUTTONS_CONFIGURATIONS] list *)
  BUTTONS_CONFIGURATIONS : list button_config;
  (** the two enumerators of [Button_state] *)
  BUTTON_IS_NOT_PRESSED : Button_state;
  BUTTON_IS_PRESSED : Button_state;
  (** ESP-IDF's [GPIO_IS_VALID_GPIO] and FreeRTOS' [portTICK_PERIOD_MS] *)
  GPIO_IS_VALID_GPIO : gpio_num_t → bool;
  portTICK_PERIOD_MS : Z
}.

(** ** Data of Button.c *)

(** [system_button_info] *)
Record system_button_info : Set := {
  ID : Button_ID;
  was_initialized : bool;
  GPIO : gpio_num_t;
  pull_mode : gpio_pull_mode_t;
  interruption_type : gpio_int_type_t;
  state : Button_state;
  debounce : TimerHandle_t;
  debounce_timer_expired : bool;
  num_of_presses : Z
}.

Definition set_was_initialized (v : bool) (b : system_button_info) : system_button_info :=
  {| ID := ID b; was_initialized := v; GPIO := GPIO b; pull_mode := pull_mode b;
     interruption_type := interruption_type b; state := state b;
     debounce := debounce b; debounce_timer_expired := debounce_timer_expired b;
     num_of_presses := num_of_presses b |}.

Definition set_state (v : Button_state) (b : system_button_info) : system_button_info :=
  {| ID := ID b; was_initialized := was_initialized b; GPIO := GPIO b;
     pull_mode := pull_mode b; interruption_type := interruption_type b; state := v;
     debounce := debounce b; debounce_timer_expired := debounce_timer_expired b;
     num_of_presses := num_of_presses b |}.

Definition set_debounce (v : TimerHandle_t) (b : system_button_info) : system_button_info :=
  {| ID := ID b; was_initialized := was_initialized b; GPIO := GPIO b;
     pull_mode := pull_mode b; interruption_type := interruption_type b;
     state := state b; debounce := v;
     debounce_timer_expired := debounce_timer_expired b;
     num_of_presses := num_of_presses b |}.

Definition set_debounce_timer_expired (v : bool) (b : system_button_info) : system_button_info :=
  {| ID := ID b; was_initialized := was_initialized b; GPIO := GPIO b;
     pull_mode := pull_mode b; interruption_type := interruption_type b;
     state := state b; debounce := debounce b; debounce_timer_expired := v;
     num_of_presses := num_of_presses b |}.

Definition set_num_of_presses (v : Z) (b : system_button_info) : system_button_info :=
  {| ID := ID b; was_initialized := was_initialized b; GPIO := GPIO b;
     pull_mode := pull_mode b; interruption_type := interruption_type b;
     state := state b; debounce := debounce b;
     debounce_timer_expired := debounce_timer_expired b; num_of_presses := v |}.

(** The value of [{0u}]: every member zero, the timer handle NULL. *)
Definition zero_button_info : system_button_info :=
  {| ID := 0%nat; was_initialized := false; GPIO := 0; pull_mode := 0;
     interruption_type := 0; state := 0; debounce := None;
     debounce_timer_expired := false; num_of_presses := 0 |}.

(** ** The collaborators: GPIO driver, interrupt dispatch, FreeRTOS timers *)

(** The driver calls of [Button.c] that program the hardware. *)
Inductive gpio_call : Set :=
| gpio_install_isr_service (intr_alloc_flags : Z)
| gpio_reset_pin (gpio_num : gpio_num_t)
| gpio_set_direction (gpio_num : gpio_num_t) (mode : gpio_mode_t)
| gpio_set_pull_mode (gpio_num : gpio_num_t) (pull : gpio_pull_mode_t)
| gpio_set_intr_type (gpio_num : gpio_num_t) (intr_type : gpio_int_type_t)
| gpio_isr_handler_add (gpio_num : gpio_num_t) (args : nat).

(** A FreeRTOS software timer: its name, its period in ticks, and whether it
    is running. *)
Record sw_timer : Set := {
  pcTimerName : string;
  xTimerPeriodInTicks : Z;
  timer_is_active : bool
}.

(** What the module does to the outside, newest first: driver calls with
    the status they met, timer commands, calls of the weak [button_CB], and
    stores through the pointers [state] and [num_of_presses] a caller hands
    to the two accessors. *)
Inductive effect : Set :=
| Driver (c : gpio_call) (status : esp_err_t)
| TimerCreated (name : string) (handle : TimerHandle_t)
| TimerStarted (handle : nat)
| button_CB (id : Button_ID)
| Stored_state (v : Button_state)
| Stored_num_of_presses (v : Z).

Record world : Type := {
  (** the globals of Button.c *)
  button_module_was_initialized : bool;
  system_buttons_infos : list system_button_info;
  (** the timers the kernel holds; a handle is a position in this list *)
  timers : list sw_timer;
  (** the handlers installed by [gpio_isr_handler_add]: pin and argument;
      the argument [&system_buttons_infos[i].ID] is the position [i] *)
  isr_handlers : list (gpio_num_t * nat);
  effects : list effect;
  (** the environment: the level on each pin, the status each driver call
      meets, and how many timers the kernel heap can still hold *)
  gpio_level : gpio_num_t → Z;
  esp_status : gpio_call → esp_err_t;
  free_timers : nat
}.

Definition with_module_flag (v : bool) (w : world) : world :=
  {| button_module_was_initialized := v;
     system_buttons_infos := system_buttons_infos w; timers := timers w;
     isr_handlers := isr_handlers w; effects := effects w;
     gpio_level := gpio_level w; esp_status := esp_status w;
     free_timers := free_timers w |}.

Definition with_infos (t : list system_button_info) (w : world) : world :=
  {| button_module_was_initialized := button_module_was_initialized w;
     system_buttons_infos := t; timers := timers w;
     isr_handlers := isr_handlers w; effects := effects w;
     gpio_level := gpio_level w; esp_status := esp_status w;
     free_timers := free_timers w |}.

Definition with_timers (ts : list sw_timer) (n : nat) (w : world) : world :=
  {| button_module_was_initialized := button_module_was_initialized w;
     system_buttons_infos := system_buttons_infos w; timers := ts;
     isr_handlers := isr_handlers w; effects := effects w;
     gpio_level := gpio_level w; esp_status := esp_status w;
     free_timers := n |}.

Definition with_isr_handlers (hs : list (gpio_num_t * nat)) (w : world) : world :=
  {| button_module_was_initialized := button_module_was_initialized w;
     system_buttons_infos := system_buttons_infos w; timers := timers w;
     isr_handlers := hs; effects := effects w;
     gpio_level := gpio_level w; esp_status := esp_status w;
     free_timers := free_timers w |}.

Definition with_effect (e : effect) (w : world) : world :=
  {| button_module_was_initialized := button_module_was_initialized w;
     system_buttons_infos := system_buttons_infos w; timers := timers w;
     isr_handlers := isr_handlers w; effects := e :: effects w;
     gpio_level := gpio_level w; esp_status := esp_status w;
     free_timers := free_timers w |}.

(** The part of the world the module does not own. *)
Record environment : Type := {
  env_gpio_level : gpio_num_t → Z;
  env_esp_status : gpio_call → esp_err_t;
  env_free_timers : nat
}.

Definition with_environment (e : environment) (w : world) : world :=
  {| button_module_was_initialized := button_module_was_initialized w;
     system_buttons_infos := system_buttons_infos w; timers := timers w;
     isr_handlers := isr_handlers w; effects := effects w;
     gpio_level := env_gpio_level e; esp_status := env_esp_status e;
     free_timers := env_free_timers e |}.

(** ** The monad of C function bodies *)

(** A statement either goes on with a value, or leaves the function with
    [return r], or has no defined behaviour. *)
Inductive flow (R A : Type) : Type :=
| Next (a : A)
| Return (r : R)
| Undefined.
Arguments Next {R A} a.
Arguments Return {R A} r.
Arguments Undefined {R A}.

Definition M (R A : Type) : Type := world → flow R A * world.

Definition ret {R A} (a : A) : M R A := λ w, (Next a, w).

Definition bind {R A B} (m : M R A) (k : A → M R B) : M R B :=
  λ w, match m w with
       | (Next a, w') => k a w'
       | (Return r, w') => (Return r, w')
       | (Undefined, w') => (Undefined, w')
       end.

Declare Scope C_scope.
Delimit Scope C_scope with C.
Notation "'let*' x ':=' m 'in' k" := (bind m (λ x, k))
  (at level 10, x name, m at level 100, k at level 200) : C_scope.
Notation "m ;' k" := (bind m (λ _, k))
  (at level 100, k at level 200, right associativity) : C_scope.

Definition return_ {R A} (r : R) : M R A := λ w, (Return r, w).
Definition undefined {R A} : M R A := λ w, (Undefined, w).
Definition gets {R A} (f : world → A) : M R A := λ w, (Next (f w), w).
Definition modify {R} (f : world → world) : M R unit := λ w, (Next tt, f w).

(** [if (c) { body }] with no [else]. *)
Definition when {R} (c : bool) (body : M R unit) : M R unit :=
  if c then body else ret tt.

(** Calling a function that returns a value: the callee's [return r] is the
    value of the call; a non-void callee that runs off its end is undefined. *)
Definition call {R R' A} (f : M R' A) : M R R' :=
  λ w, match f w with
       | (Return r, w') => (Next r, w')
       | (Next _, w') => (Undefined, w')
       | (Undefined, w') => (Undefined, w')
       end.

(** Calling a [void] function: it ends at a [return] or at its closing brace. *)
Definition call_void {R A} (f : M unit A) : M R unit :=
  λ w, match f w with
       | (Return _, w') | (Next _, w') => (Next tt, w')
       | (Undefined, w') => (Undefined, w')
       end.

Local Open Scope C_scope.

(** [system_buttons_infos[i].member] read as a value. *)
Definition field {R A} (i : nat) (member : system_button_info → A) : M R A :=
  λ w, match system_buttons_infos w !! i with
       | Some b => (Next (member b), w)
       | None => (Undefined, w)
       end.

(** [system_buttons_infos[i].member = v], as an update [f] of the element. *)
Definition assign {R} (i : nat) (f : system_button_info → system_button_info) : M R unit :=
  λ w, match system_buttons_infos w !! i with
       | Some b => (Next tt, with_infos (<[i := f b]> (system_buttons_infos w)) w)
       | None => (Undefined, w)
       end.

(** A driver call answers with the status the environment holds for it and
    is recorded; [gpio_isr_handler_add] installs the handler when it succeeds. *)
Definition driver_effect (c : gpio_call) (e : esp_err_t) (w : world) : world :=
  match c with
  | gpio_isr_handler_add pin args =>
      if bool_decide (e = ESP_OK)
      then with_isr_handlers ((pin, args) :: isr_handlers w) w
      else w
  | _ => w
  end.

Definition driver {R} (c : gpio_call) : M R esp_err_t :=
  λ w, let e := esp_status w c in
       (Next e, with_effect (Driver c e) (driver_effect c e w)).

(** Modelled from the spec: [ESP_error_check] is declared in Debug.h, which
    is not among the sources; driver failures "propagate" unchanged, so the
    check hands the status back. *)
Definition ESP_error_check (e : esp_err_t) : esp_err_t := e.

Definition gpio_get_level {R} (pin : gpio_num_t) : M R Z :=
  gets (λ w, gpio_level w pin).

(** [xTimerCreate]: NULL when the heap is exhausted, else a fresh dormant timer. *)
Definition xTimerCreate {R} (name : string) (period : Z) : M R TimerHandle_t :=
  λ w, match free_timers w with
       | O => (Next None, with_effect (TimerCreated name None) w)
       | S n =>
           let h := length (timers w) in
           (Next (Some h),
            with_effect (TimerCreated name (Some h))
              (with_timers (timers w ++ [{| pcTimerName := name;
                                            xTimerPeriodInTicks := period;
                                            timer_is_active := false |}]) n w))
       end.

Definition timer_at {R} (h : TimerHandle_t) : M R sw_timer :=
  λ w, match h with
       | Some n => match timers w !! n with
                   | Some t => (Next t, w)
                   | None => (Undefined, w)
                   end
       | None => (Undefined, w)
       end.

Definition xTimerIsTimerActive {R} (h : TimerHandle_t) : M R bool :=
  let* t := timer_at h in ret (timer_is_active t).

Definition pcTimerGetName {R} (h : TimerHandle_t) : M R string :=
  let* t := timer_at h in ret (pcTimerName t).

Definition set_timer_active (v : bool) (t : sw_timer) : sw_timer :=
  {| pcTimerName := pcTimerName t; xTimerPeriodInTicks := xTimerPeriodInTicks t;
     timer_is_active := v |}.

(** [xTimerStartFromISR]: the timer runs from now on. *)
Definition xTimerStartFromISR {R} (h : TimerHandle_t) : M R unit :=
  let* t := timer_at h in
  match h with
  | Some n =>
      modify (λ w, with_effect (TimerStarted n)
                     (with_timers (<[n := set_timer_active true t]> (timers w))
                        (free_timers w) w))
  | None => undefined
  end.

(** [switch (v) { case c: body ... default: dflt }] where every case ends the
    switch. *)
Fixpoint switch_on {A} (v : nat) (cases : list (nat * A)) (dflt : A) : A :=
  match cases with
  | [] => dflt
  | (c, body) :: cases' => if decide (v = c) then body else switch_on v cases' dflt
  end.

(** ** The functions of Button.c *)

Section Button.

Variable hdr : Button_physical_connection.

(** Modelled from the spec: the enumeration [Button_ID] is declared in
    Button_physical_connection.h, which is not among the sources.  The spec
    has the identifiers "unique, dense, drawn from a closed enumeration":
    the enumerators are the names of [BUTTONS] numbered from 0, closed by
    [NUM_OF_BUTTONS], the idiom Button.h uses for [Button_return]. *)
Definition Button_ID_enumerators : list (string * Button_ID) :=
  imap (λ i name, (name, i)) (BUTTONS hdr).

Definition NUM_OF_BUTTONS : nat := length (BUTTONS hdr).

(** The initializer of [system_buttons_infos]: one element per
    [BUTTON_CONFIG] line, the elements left over zeroed. *)
Definition declared_info (c : button_config) : system_button_info :=
  {| ID := BUTTON_ID c; was_initialized := false; GPIO := BUTTON_GPIO_ID c;
     pull_mode := BUTTON_GPIO_PULL_MODE c; interruption_type := INT_TYP c;
     state := BUTTON_IS_NOT_PRESSED hdr; debounce := None;
     debounce_timer_expired := false; num_of_presses := 0 |}.

Definition initial_system_buttons_infos : list system_button_info :=
  take NUM_OF_BUTTONS
    ((declared_info <$> BUTTONS_CONFIGURATIONS hdr)
       ++ replicate NUM_OF_BUTTONS zero_button_info).

(** The world when the program starts. *)
Definition boot (e : environment) : world :=
  {| button_module_was_initialized := false;
     system_buttons_infos := initial_system_buttons_infos;
     timers := []; isr_handlers := []; effects := [];
     gpio_level := env_gpio_level e; esp_status := env_esp_status e;
     free_timers := env_free_timers e |}.

Definition CHECK_IF_MODULE_WAS_INTIALIZED : M Button_return unit :=
  let* initialized := gets button_module_was_initialized in
  when (negb initialized) (return_ BSP_BUTTON_MODULE_WAS_NOT_INIT_ERR).

Definition check_button_ID (id : Button_ID) : bool :=
  switch_on id ((λ e, (e.2, true)) <$> Button_ID_enumerators) false.

(** The [switch] on the pull mode: the four cases [break], the default
    returns false. *)
Definition check_pull_mode (p : gpio_pull_mode_t) : M bool unit :=
  if bool_decide (p = GPIO_PULLUP_ONLY) then ret tt
  else if bool_decide (p = GPIO_PULLDOWN_ONLY) then ret tt
  else if bool_decide (p = GPIO_PULLUP_PULLDOWN) then ret tt
  else if bool_decide (p = GPIO_FLOATING) then ret tt
  else return_ false.

(** First loop of [check_configurations_sort_and_init], over the indices
    [indices]; [buttons_info] is the local array. *)
Fixpoint check_and_sort (indices : list nat) (buttons_info : list system_button_info)
  : M bool (list system_button_info) :=
  match indices with
  | [] => ret buttons_info
  | i :: rest =>
      let* id := field i ID in
      when (negb (check_button_ID id)) (return_ false) ;'
      let* pin := field i GPIO in
      when (negb (GPIO_IS_VALID_GPIO hdr pin)) (return_ false) ;'
      let* pull := field i pull_mode in
      check_pull_mode pull ;'
      let* id := field i ID in
      let* b := field i (λ b, b) in
      check_and_sort rest (<[id := b]> buttons_info)
  end.

(** One case of the [switch (i)] of the second loop. *)
Definition create_debounce_timer (i : nat) (c : button_config) : M bool unit :=
  let* h := xTimerCreate (BUTTON_ID_token c)
              (ticks_of_BOUNCE_TIME (BOUNCE_TIME c) (portTICK_PERIOD_MS hdr)) in
  assign i (set_debounce h) ;'
  let* d := field i debounce in
  when (bool_decide (d = None)) (return_ false).

(** Second loop of [check_configurations_sort_and_init]. *)
Fixpoint copy_and_init (indices : list nat) (buttons_info : list system_button_info)
  : M bool unit :=
  match indices with
  | [] => ret tt
  | i :: rest =>
      match buttons_info !! i with
      | Some b => assign i (λ _, b)
      | None => undefined
      end ;'
      switch_on i
        ((λ c, (BUTTON_ID c, create_debounce_timer i c)) <$> BUTTONS_CONFIGURATIONS hdr)
        (return_ false) ;'
      copy_and_init rest buttons_info
  end.

Definition check_configurations_sort_and_init : M bool unit :=
  let* buttons_info :=
    check_and_sort (seq 0 NUM_OF_BUTTONS) (replicate NUM_OF_BUTTONS zero_button_info) in
  copy_and_init (seq 0 NUM_OF_BUTTONS) buttons_info ;'
  return_ true.

Definition init_BSP_button_module : M Button_return unit :=
  let* initialized := gets button_module_was_initialized in
  when (negb initialized)
    (let* ok := call check_configurations_sort_and_init in
     when (negb ok) (return_ BSP_BUTTON_INVALID_BUTTONS_CONFIG_ERR) ;'
     let* e := driver (gpio_install_isr_service 0) in
     when (negb (bool_decide (ESP_error_check e = ESP_OK))) (return_ BSP_BUTTON_INIT_ERR) ;'
     modify (with_module_flag true)) ;'
  return_ BSP_BUTTON_OK.

Definition init_button (id : Button_ID) : M Button_return unit :=
  CHECK_IF_MODULE_WAS_INTIALIZED ;'
  when (negb (check_button_ID id)) (return_ BSP_BUTTON_DOES_NOT_EXIST_ERR) ;'
  let* initialized := field id was_initialized in
  when initialized (return_ BSP_BUTTON_WAS_INITIALIZED_ERR) ;'
  let* pin := field id GPIO in
  let* e := driver (gpio_reset_pin pin) in
  when (negb (bool_decide (ESP_error_check e = ESP_OK))) (return_ BSP_BUTTON_INIT_ERR) ;'
  let* pin := field id GPIO in
  let* e := driver (gpio_set_direction pin GPIO_MODE_INPUT) in
  when (negb (bool_decide (ESP_error_check e = ESP_OK))) (return_ BSP_BUTTON_INIT_ERR) ;'
  let* pin := field id GPIO in
  let* pull := field id pull_mode in
  let* e := driver (gpio_set_pull_mode pin pull) in
  when (negb (bool_decide (ESP_error_check e = ESP_OK))) (return_ BSP_BUTTON_INIT_ERR) ;'
  let* pin := field id GPIO in
  let* intr := field id interruption_type in
  let* e := driver (gpio_set_intr_type pin intr) in
  let* failed :=
    (if negb (bool_decide (ESP_error_check e = ESP_OK)) then ret true
     else
       let* pin := field id GPIO in
       let* e := driver (gpio_isr_handler_add pin id) in
       ret (negb (bool_decide (ESP_error_check e = ESP_OK)))) in
  when failed (return_ BSP_BUTTON_INIT_ERR) ;'
  assign id (set_was_initialized true) ;'
  assign id (set_debounce_timer_expired true) ;'
  return_ BSP_BUTTON_OK.

Definition de_init_button (id : Button_ID) : M Button_return unit :=
  CHECK_IF_MODULE_WAS_INTIALIZED ;'
  when (negb (check_button_ID id)) (return_ BSP_BUTTON_DOES_NOT_EXIST_ERR) ;'
  let* initialized := field id was_initialized in
  when (negb initialized) (return_ BSP_BUTTON_WAS_NOT_INITIALIZED_ERR) ;'
  let* pin := field id GPIO in
  let* e := driver (gpio_reset_pin pin) in
  when (negb (bool_decide (ESP_error_check e = ESP_OK))) (return_ BSP_BUTTON_DE_INIT_ERR) ;'
  let* pin := field id GPIO in
  let* e := driver (gpio_set_intr_type pin GPIO_INTR_DISABLE) in
  when (negb (bool_decide (ESP_error_check e = ESP_OK))) (return_ BSP_BUTTON_DE_INIT_ERR) ;'
  return_ BSP_BUTTON_OK.

Definition read_button_state (id : Button_ID) : M Button_return unit :=
  CHECK_IF_MODULE_WAS_INTIALIZED ;'
  when (negb (check_button_ID id)) (return_ BSP_BUTTON_DOES_NOT_EXIST_ERR) ;'
  let* initialized := field id was_initialized in
  when (negb initialized) (return_ BSP_BUTTON_WAS_NOT_INITIALIZED_ERR) ;'
  let* s := field id state in
  modify (with_effect (Stored_state s)) ;'
  return_ BSP_BUTTON_OK.

Definition get_num_of_presses (id : Button_ID) : M Button_return unit :=
  CHECK_IF_MODULE_WAS_INTIALIZED ;'
  when (negb (check_button_ID id)) (return_ BSP_BUTTON_DOES_NOT_EXIST_ERR) ;'
  let* n := field id num_of_presses in
  modify (with_effect (Stored_num_of_presses n)) ;'
  return_ BSP_BUTTON_OK.

(** [args] is the position [i] of the element whose member [ID] the handler
    was given the address of. *)
Definition generic_button_CB (args : nat) : M unit unit :=
  let* id := field args ID in
  let* d := field id debounce in
  let* active := xTimerIsTimerActive d in
  let* accepted :=
    (if negb active then field id debounce_timer_expired else ret false) in
  when accepted
    (assign id (set_debounce_timer_expired false) ;'
     let* pin := field id GPIO in
     let* level := gpio_get_level pin in
     assign id (set_state level) ;'
     let* n := field id num_of_presses in
     assign id (set_num_of_presses (uint64_incr n)) ;'
     modify (with_effect (button_CB id)) ;'
     let* d := field id debounce in
     xTimerStartFromISR d).

(** The chain of [if (strcmp(timer_name, #enumerate) == 0) ID = enumerate;]. *)
Definition ID_of_timer_name (timer_name : string) : Button_ID :=
  foldl (λ id e, if bool_decide (timer_name = e.1) then e.2 else id) 0%nat
    Button_ID_enumerators.

Definition timer_CB (timer_handler : TimerHandle_t) : M unit unit :=
  let* timer_name := pcTimerGetName timer_handler in
  let id := ID_of_timer_name timer_name in
  let* pin := field id GPIO in
  let* level := gpio_get_level pin in
  if bool_decide (level = BUTTON_IS_PRESSED hdr) then
    let* d := field id debounce in
    xTimerStartFromISR d
  else
    assign id (set_debounce_timer_expired true).

End Button.

(** ** The module in its surroundings

    The interrupt-dispatch service runs the handler installed for a pin, the
    timer daemon runs the callback of a timer that expires, the application
    calls the API, and the environment changes under the module's feet. *)

Section Surroundings.

Variable hdr : Button_physical_connection.

(** The handler the service holds for [pin]: the one installed last. *)
Fixpoint handler_args (pin : gpio_num_t) (handlers : list (gpio_num_t * nat)) : option nat :=
  match handlers with
  | [] => None
  | (p, args) :: handlers' =>
      if bool_decide (p = pin) then Some args else handler_args pin handlers'
  end.

(** An edge on [pin]: the service calls the handler installed for it. *)
Definition gpio_isr_dispatch (pin : gpio_num_t) : M unit unit :=
  let* handlers := gets isr_handlers in
  match handler_args pin handlers with
  | Some args => call_void (generic_button_CB args)
  | None => ret tt
  end.

(** A one-shot timer that expires becomes dormant, then its callback runs;
    a dormant timer does not expire. *)
Definition timer_expires (h : nat) : M unit unit :=
  let* t := timer_at (Some h) in
  when (timer_is_active t)
    (modify (λ w, with_timers (<[h := set_timer_active false t]> (timers w))
                    (free_timers w) w) ;'
     call_void (timer_CB hdr (Some h))).

Inductive event : Type :=
| Call_init_BSP_button_module
| Call_init_button (id : Button_ID)
| Call_de_init_button (id : Button_ID)
| Call_read_button_state (id : Button_ID)
| Call_get_num_of_presses (id : Button_ID)
| Edge_interrupt (pin : gpio_num_t)
| Timer_expiry (h : nat)
| Environment_change (e : environment).

Definition api (f : M Button_return unit) (w : world) : option (option Button_return * world) :=
  match f w with
  | (Return r, w') => Some (Some r, w')
  | _ => None
  end.

Definition handler (f : M unit unit) (w : world) : option (option Button_return * world) :=
  match f w with
  | (Undefined, _) => None
  | (_, w') => Some (None, w')
  end.

(** One event; [None] when the behaviour is undefined. *)
Definition step (ev : event) (w : world) : option (option Button_return * world) :=
  match ev with
  | Call_init_BSP_button_module => api (init_BSP_button_module hdr) w
  | Call_init_button id => api (init_button hdr id) w
  | Call_de_init_button id => api (de_init_button hdr id) w
  | Call_read_button_state id => api (read_button_state hdr id) w
  | Call_get_num_of_presses id => api (get_num_of_presses hdr id) w
  | Edge_interrupt pin => handler (gpio_isr_dispatch pin) w
  | Timer_expiry h => handler (timer_expires h) w
  | Environment_change e => Some (None, with_environment e w)
  end.

(** A run: the history pairs each event with what the call returned. *)
Fixpoint exec (evs : list event) (w : world)
  : option (list (event * option Button_return) * world) :=
  match evs with
  | [] => Some ([], w)
  | ev :: evs' =>
      match step ev w with
      | Some (r, w') =>
          match exec evs' w' with
          | Some (h, w'') => Some ((ev, r) :: h, w'')
          | None => None
          end
      | None => None
      end
  end.

End Surroundings.

(** ** A board with two buttons, declared out of order *)

Definition demo_board : Button_physical_connection :=
  {| BUTTONS := ["BUTTON_A"; "BUTTON_B"]%string;
     BUTTONS_CONFIGURATIONS :=
       [BUTTON_CONFIG "BUTTON_B" 1%nat 5 GPIO_PULLUP_ONLY 2 50;
        BUTTON_CONFIG "BUTTON_A" 0%nat 4 GPIO_PULLUP_ONLY 2 50];
     BUTTON_IS_NOT_PRESSED := 1;
     BUTTON_IS_PRESSED := 0;
     GPIO_IS_VALID_GPIO := λ pin, bool_decide (0 ≤ pin < 40);
     portTICK_PERIOD_MS := 10 |}.

(** Every driver call succeeds, every pin reads [level]. *)
Definition calm (level : Z) : environment :=
  {| env_gpio_level := λ _, level; env_esp_status := λ _, ESP_OK;
     env_free_timers := 8 |}.

(** The same, with room for only [n] more timers in the kernel heap. *)
Definition short_of_timers (n : nat) : environment :=
  {| env_gpio_level := λ _, 1; env_esp_status := λ _, ESP_OK;
     env_free_timers := n |}.

(** The world and the history a run of the demo board ends with. *)
Definition demo_run (evs : list event) : world :=
  match exec demo_board evs (boot demo_board (calm 1)) with
  | Some (_, w) => w
  | None => boot demo_board (calm 1)
  end.

Definition demo_history (evs : list event) : list (event * option Button_return) :=
  match exec demo_board evs (boot demo_board (calm 1)) with
  | Some (hist, _) => hist
  | None => []
  end.

Definition demo_initialized : world := demo_run [Call_init_BSP_button_module].

Definition demo_registered : world :=
  demo_run [Call_init_BSP_button_module; Call_init_button 0%nat].

(** Button A has been pressed: its debounce window is open. *)
Definition demo_pressed : world :=
  demo_run [Call_init_BSP_button_module; Call_init_button 0%nat;
            Environment_change (calm 0); Edge_interrupt 4].

(** Button A has been pressed and released, the window is over. *)
Definition demo_released : world :=
  demo_run [Call_init_BSP_button_module; Call_init_button 0%nat;
            Environment_change (calm 0); Edge_interrupt 4;
            Environment_change (calm 1); Timer_expiry 0%nat].

(** Button A of the demo board, as declared and as found in the worlds above. *)
Definition demo_button_A (registered : bool) (level : Button_state)
    (expired : bool) (presses : Z) : system_button_info :=
  {| ID := 0%nat; was_initialized := registered; GPIO := 4;
     pull_mode := GPIO_PULLUP_ONLY; interruption_type := 2; state := level;
     debounce := Some 0%nat; debounce_timer_expired := expired;
     num_of_presses := presses |}.

Definition demo_timer_A (active : bool) : sw_timer :=
  {| pcTimerName := "BUTTON_A"; xTimerPeriodInTicks := 5; timer_is_active := active |}.

(** A board whose configuration lines spell the identifiers as numbers: the
    timers are then named "0" and "1", the name of no enumerator. *)
Definition numbered_board : Button_physical_connection :=
  {| BUTTONS := ["BUTTON_A"; "BUTTON_B"]%string;
     BUTTONS_CONFIGURATIONS :=
       [BUTTON_CONFIG "0" 0%nat 4 GPIO_PULLUP_ONLY 2 50;
        BUTTON_CONFIG "1" 1%nat 5 GPIO_PULLUP_ONLY 2 50];
     BUTTON_IS_NOT_PRESSED := 1;
     BUTTON_IS_PRESSED := 0;
     GPIO_IS_VALID_GPIO := λ pin, bool_decide (0 ≤ pin < 40);
     portTICK_PERIOD_MS := 10 |}.

Definition numbered_initialized : world :=
  match exec numbered_board [Call_init_BSP_button_module]
          (boot numbered_board (calm 1)) with
  | Some (_, w) => w
  | None => boot numbered_board (calm 1)
  end.

(** ** Notions of the specification *)

Section Notions.

Variable hdr : Button_physical_connection.

(** The two phases of a button, read off the guard of [generic_button_CB]:
    an edge is accepted when the debounce timer is dormant and the flag
    [debounce_timer_expired] is set. *)
Inductive debounce_phase : Set := Quiescent | Debouncing.

Definition phase_of (id : Button_ID) (w : world) : option debounce_phase :=
  b ← system_buttons_infos w !! id;
  h ← debounce b;
  t ← timers w !! h;
  Some (if negb (timer_is_active t) && debounce_timer_expired b
        then Quiescent else Debouncing).

(** Edges on one pin, the environment moving before each of them. *)
Fixpoint edges (pin : gpio_num_t) (envs : list environment) : list event :=
  match envs with
  | [] => []
  | e :: envs' => Environment_change e :: Edge_interrupt pin :: edges pin envs'
  end.

(** The world when only the environment has moved. *)
Fixpoint drift (envs : list environment) (w : world) : world :=
  match envs with
  | [] => w
  | e :: envs' => drift envs' (with_environment e w)
  end.

(** C2 as the spec words it: a successful de-registration puts the members
    of the button that change at run time back to the values they were
    created with, and keeps the descriptor. *)
Definition de_init_button_resets_runtime_state (id : Button_ID) (w : world) : Prop :=
  ∀ w', de_init_button hdr id w = (Return BSP_BUTTON_OK, w') →
    ∃ b b', system_buttons_infos w !! id = Some b ∧
            system_buttons_infos w' !! id = Some b' ∧
            was_initialized b' = false ∧
            state b' = BUTTON_IS_NOT_PRESSED hdr ∧
            debounce_timer_expired b' = false ∧
            ID b' = ID b ∧ GPIO b' = GPIO b ∧ pull_mode b' = pull_mode b ∧
            interruption_type b' = interruption_type b.

(** What the first loop of [check_configurations_sort_and_init] accepts. *)
Definition pull_mode_is_recognized (p : gpio_pull_mode_t) : bool :=
  bool_decide (p = GPIO_PULLUP_ONLY ∨ p = GPIO_PULLDOWN_ONLY ∨
               p = GPIO_PULLUP_PULLDOWN ∨ p = GPIO_FLOATING).

Definition info_is_valid (b : system_button_info) : bool :=
  check_button_ID hdr (ID b) && GPIO_IS_VALID_GPIO hdr (GPIO b)
  && pull_mode_is_recognized (pull_mode b).

(** The local array [buttons_info] once [entries] have been put at the index
    their identifier gives. *)
Definition sorted_by_ID (entries buttons_info : list system_button_info)
  : list system_button_info :=
  foldl (λ acc b, <[ID b := b]> acc) buttons_info entries.

(** The case of the second [switch] that an index selects. *)
Definition config_of (i : nat) : option button_config :=
  switch_on i ((λ c, (BUTTON_ID c, Some c)) <$> BUTTONS_CONFIGURATIONS hdr) None.

(** A [BUTTON_CONFIG] line that passes the three checks of the first loop. *)
Definition config_passes_checks (c : button_config) : Prop :=
  BUTTON_ID c ∈ (Button_ID_enumerators hdr).*2 ∧
  GPIO_IS_VALID_GPIO hdr (BUTTON_GPIO_ID c) = true ∧
  pull_mode_is_recognized (BUTTON_GPIO_PULL_MODE c) = true.

(** A configuration the module can start with: every declared identifier is
    an enumerator and is declared once, every pin is a pin of the chip, every
    pull mode is one of the four. *)
Definition configuration_is_valid : Prop :=
  NoDup (BUTTON_ID <$> BUTTONS_CONFIGURATIONS hdr) ∧
  ∀ c, c ∈ BUTTONS_CONFIGURATIONS hdr → config_passes_checks c.

(** The driver calls among the effects. *)
Definition is_driver_call (e : effect) : bool :=
  match e with Driver _ _ => true | _ => false end.

Definition driver_calls (es : list effect) : list effect :=
  filter (λ e, is_driver_call e = true) es.

(** The table position of every element is its identifier. *)
Definition indexed_by_ID (t : list system_button_info) : Prop :=
  ∀ i b, t !! i = Some b → ID b = i.

(** A button nobody has registered or pressed. *)
Definition untouched (b : system_button_info) : Prop :=
  was_initialized b = false ∧ num_of_presses b = 0.

(** [w'] differs from [w] in the buttons at most by members that change at
    run time; the press counter may change only at the positions [touched]. *)
Definition same_buttons_except (touched : nat → Prop) (w w' : world) : Prop :=
  length (system_buttons_infos w') = length (system_buttons_infos w) ∧
  ∀ j b', system_buttons_infos w' !! j = Some b' →
    ∃ b, system_buttons_infos w !! j = Some b ∧
         ID b' = ID b ∧ was_initialized b' = was_initialized b ∧
         (¬ touched j → num_of_presses b' = num_of_presses b).

(** What holds of the world as long as the module is not initialized. *)
Definition uninitialized_inv (w : world) : Prop :=
  button_module_was_initialized w = false ∧
  isr_handlers w = [] ∧
  length (system_buttons_infos w) = NUM_OF_BUTTONS hdr ∧
  Forall untouched (system_buttons_infos w) ∧
  Forall (λ t, timer_is_active t = false) (timers w) ∧
  (system_buttons_infos w = initial_system_buttons_infos hdr ∨
   indexed_by_ID (system_buttons_infos w)).

(** What holds of the initialized module as long as [id] is not registered. *)
Definition unregistered_inv (id : Button_ID) (w : world) : Prop :=
  button_module_was_initialized w = true ∧
  length (system_buttons_infos w) = NUM_OF_BUTTONS hdr ∧
  indexed_by_ID (system_buttons_infos w) ∧
  (∀ b, system_buttons_infos w !! id = Some b → untouched b) ∧
  Forall (λ h, h.2 ≠ id) (isr_handlers w).

(** *** Notions for the further properties *)

(** The driver calls of a sequence that are made: each one up to and
    including the first that does not answer [ESP_OK]. *)
Fixpoint until_failure (status : gpio_call → esp_err_t) (cs : list gpio_call)
  : list gpio_call :=
  match cs with
  | [] => []
  | c :: cs' =>
      c :: (if bool_decide (status c = ESP_OK) then until_failure status cs' else [])
  end.

(** Their record among the effects, newest first. *)
Definition driver_record (status : gpio_call → esp_err_t) (cs : list gpio_call)
  : list effect :=
  reverse ((λ c, Driver c (status c)) <$> until_failure status cs).

Definition all_succeed (status : gpio_call → esp_err_t) (cs : list gpio_call) : bool :=
  forallb (λ c, bool_decide (status c = ESP_OK)) cs.

(** The driver calls of [init_button] and of [de_init_button], in order. *)
Definition init_button_calls (id : Button_ID) (b : system_button_info) : list gpio_call :=
  [gpio_reset_pin (GPIO b);
   gpio_set_direction (GPIO b) GPIO_MODE_INPUT;
   gpio_set_pull_mode (GPIO b) (pull_mode b);
   gpio_set_intr_type (GPIO b) (interruption_type b);
   gpio_isr_handler_add (GPIO b) id].

Definition de_init_button_calls (b : system_button_info) : list gpio_call :=
  [gpio_reset_pin (GPIO b); gpio_set_intr_type (GPIO b) GPIO_INTR_DISABLE].

(** Presses of one button, each followed by the expiry of its debounce
    timer: the environment moves before the edge and before the expiry. *)
Fixpoint press_release_cycles (pin : gpio_num_t) (h : nat)
    (cycles : list (environment * environment)) : list event :=
  match cycles with
  | [] => []
  | (at_edge, at_expiry) :: cycles' =>
      Environment_change at_edge :: Edge_interrupt pin
        :: Environment_change at_expiry :: Timer_expiry h
        :: press_release_cycles pin h cycles'
  end.

(** Expiries of the debounce timer of a button that is held down, each
    followed by one more edge on its pin. *)
Fixpoint held_rounds (pin : gpio_num_t) (h : nat)
    (rounds : list (environment * environment)) : list event :=
  match rounds with
  | [] => []
  | (at_expiry, at_edge) :: rounds' =>
      Environment_change at_expiry :: Timer_expiry h
        :: Environment_change at_edge :: Edge_interrupt pin
        :: held_rounds pin h rounds'
  end.

(** The timer [xTimerCreate] makes for a [BUTTON_CONFIG] line. *)
Definition debounce_timer_of (c : button_config) : sw_timer :=
  {| pcTimerName := BUTTON_ID_token c;
     xTimerPeriodInTicks :=
       ticks_of_BOUNCE_TIME (BOUNCE_TIME c) (portTICK_PERIOD_MS hdr);
     timer_is_active := false |}.

(** What keeps the handlers within bounds.  Every table has one element for
    each identifier.  Once the module is initialized, every element names an
    identifier of the enumeration and holds the handle of a timer that
    exists, and every handler was installed with such an identifier; before,
    no handler is installed and no timer runs. *)
Definition within_bounds (w : world) : Prop :=
  length (system_buttons_infos w) = NUM_OF_BUTTONS hdr ∧
  ((0 < NUM_OF_BUTTONS hdr)%nat ∨ timers w = []) ∧
  if button_module_was_initialized w then
    (∀ i b, system_buttons_infos w !! i = Some b →
       (ID b < NUM_OF_BUTTONS hdr)%nat ∧
       ∃ h, debounce b = Some h ∧ (h < length (timers w))%nat) ∧
    Forall (λ p, (p.2 < NUM_OF_BUTTONS hdr)%nat) (isr_handlers w)
  else
    isr_handlers w = [] ∧ Forall (λ t, timer_is_active t = false) (timers w).

End Notions.

(** ** Properties *)

Section Properties.

Variable hdr : Button_physical_connection.

Lemma switch_on_true (id : nat) (cases : list nat) :
  switch_on id ((λ c, (c, true)) <$> cases) false = true ↔ id ∈ cases.
Proof.
  induction cases as [|c cases IH]; simpl.
  - split; [discriminate | intros H; inversion H].
  - destruct (decide (id = c)) as [->|Hne].
    + split; [intros _; left | reflexivity].
    + rewrite IH. split; [intros H; by right | intros H].
      apply elem_of_cons in H as [?|?]; [contradiction | done].
Qed.

Lemma enumerator_values_from (k : nat) (names : list string) :
  (λ e : string * nat, e.2) <$> imap (λ i name, (name, k + i)%nat) names
  = seq k (length names).
Proof.
  revert k. induction names as [|n names IH]; intros k; simpl; [done|].
  f_equal; [lia|].
  rewrite <- (IH (S k)). f_equal. apply imap_ext. intros i x _. simpl.
  f_equal. lia.
Qed.

Lemma enumerator_values :
  (Button_ID_enumerators hdr).*2 = seq 0 (NUM_OF_BUTTONS hdr).
Proof. apply (enumerator_values_from 0). Qed.

Lemma check_button_ID_enumerator (id : Button_ID) :
  check_button_ID hdr id = true ↔ id ∈ (Button_ID_enumerators hdr).*2.
Proof.
  unfold check_button_ID. rewrite <- switch_on_true.
  rewrite <- list_fmap_compose. reflexivity.
Qed.

Lemma check_button_ID_lt (id : Button_ID) :
  check_button_ID hdr id = true ↔ (id < NUM_OF_BUTTONS hdr)%nat.
Proof.
  rewrite check_button_ID_enumerator, enumerator_values, elem_of_seq. lia.
Qed.

Lemma check_button_ID_outside (id : Button_ID) :
  id ∉ (Button_ID_enumerators hdr).*2 → check_button_ID hdr id = false.
Proof.
  intros H. destruct (check_button_ID hdr id) eqn:E; [|done].
  apply check_button_ID_enumerator in E. contradiction.
Qed.

(** *** Unfolding the monad *)

Ltac unfold_monad :=
  unfold CHECK_IF_MODULE_WAS_INTIALIZED, xTimerIsTimerActive, pcTimerGetName,
    xTimerStartFromISR, gpio_get_level, timer_at, driver, field, assign,
    call, call_void, when, bind, ret, return_, undefined, gets, modify in *.

Lemma init_button_OK_inv (id : Button_ID) (w w' : world) :
  init_button hdr id w = (Return BSP_BUTTON_OK, w') →
  button_module_was_initialized w = true ∧
  check_button_ID hdr id = true ∧
  ∃ b, system_buttons_infos w !! id = Some b ∧
       was_initialized b = false ∧
       button_module_was_initialized w' = true ∧
       system_buttons_infos w'
       = <[id := set_debounce_timer_expired true (set_was_initialized true b)]>
           (system_buttons_infos w) ∧
       timers w' = timers w ∧
       isr_handlers w' = (GPIO b, id) :: isr_handlers w.
Proof.
  unfold init_button, ESP_error_check. unfold_monad. intros H.
  destruct (button_module_was_initialized w) eqn:Hm; simpl in H; [|discriminate].
  destruct (check_button_ID hdr id) eqn:Hc; simpl in H; [|discriminate].
  destruct (system_buttons_infos w !! id) as [b|] eqn:Hb; simpl in H; [|discriminate].
  destruct (was_initialized b) eqn:Hi; simpl in H; [discriminate|].
  repeat (case_match; simplify_eq/=).
  rewrite list_lookup_insert_eq in H by (by eapply lookup_lt_Some).
  simplify_eq. rewrite list_insert_insert_eq.
  split_and!; try done. by eexists.
Qed.

Lemma de_init_button_OK_inv (id : Button_ID) (w w' : world) :
  de_init_button hdr id w = (Return BSP_BUTTON_OK, w') →
  button_module_was_initialized w = true ∧
  check_button_ID hdr id = true ∧
  ∃ b, system_buttons_infos w !! id = Some b ∧
       was_initialized b = true ∧
       w' = with_effect (Driver (gpio_set_intr_type (GPIO b) GPIO_INTR_DISABLE) ESP_OK)
              (with_effect (Driver (gpio_reset_pin (GPIO b)) ESP_OK) w).
Proof.
  unfold de_init_button, ESP_error_check. unfold_monad. intros H.
  destruct (button_module_was_initialized w) eqn:Hm; simpl in H; [|discriminate].
  destruct (check_button_ID hdr id) eqn:Hc; simpl in H; [|discriminate].
  destruct (system_buttons_infos w !! id) as [b|] eqn:Hb; simpl in H; [|discriminate].
  destruct (was_initialized b) eqn:Hi; simpl in H; [|discriminate].
  repeat (case_match; simplify_eq/=).
  repeat match goal with
         | H : negb (bool_decide _) = false |- _ =>
             apply negb_false_iff, bool_decide_eq_true in H; rewrite H
         end.
  split_and!; try done. by eexists.
Qed.

(** The flag is the only thing the rejection of a second registration reads. *)
Lemma init_button_rejected (id : Button_ID) (w : world) (b : system_button_info) :
  button_module_was_initialized w = true →
  check_button_ID hdr id = true →
  system_buttons_infos w !! id = Some b →
  was_initialized b = true →
  init_button hdr id w = (Return BSP_BUTTON_WAS_INITIALIZED_ERR, w).
Proof.
  intros Hm Hc Hb Hi. unfold init_button. unfold_monad.
  rewrite Hm; simpl. rewrite Hc; simpl. rewrite Hb; simpl. by rewrite Hi.
Qed.

(** *** Registration and de-registration *)

(** C6: when [init_button] has registered a button, calling it again at once
    on the same identifier returns BSP_BUTTON_WAS_INITIALIZED_ERR and leaves
    the world, hence every member of every button, as it was. *)
Theorem init_button_twice (id : Button_ID) (w w' : world) :
  init_button hdr id w = (Return BSP_BUTTON_OK, w') →
  init_button hdr id w' = (Return BSP_BUTTON_WAS_INITIALIZED_ERR, w').
Proof.
  intros H. apply init_button_OK_inv in H as (Hm & Hc & b & Hb & Hi & Hm' & Ht & _).
  eapply init_button_rejected; [done | done | | ].
  - rewrite Ht. apply list_lookup_insert_eq. by eapply lookup_lt_Some.
  - done.
Qed.

(** C7: once the module is initialized, an identifier that is the value of no
    enumerator makes each of the four operations that take an identifier
    return BSP_BUTTON_DOES_NOT_EXIST_ERR and change nothing. *)
Theorem outside_enumeration_does_not_exist (id : Button_ID) (w : world) :
  button_module_was_initialized w = true →
  id ∉ (Button_ID_enumerators hdr).*2 →
  init_button hdr id w = (Return BSP_BUTTON_DOES_NOT_EXIST_ERR, w) ∧
  de_init_button hdr id w = (Return BSP_BUTTON_DOES_NOT_EXIST_ERR, w) ∧
  read_button_state hdr id w = (Return BSP_BUTTON_DOES_NOT_EXIST_ERR, w) ∧
  get_num_of_presses hdr id w = (Return BSP_BUTTON_DOES_NOT_EXIST_ERR, w).
Proof.
  intros Hm Hid. apply check_button_ID_outside in Hid.
  unfold init_button, de_init_button, read_button_state, get_num_of_presses.
  unfold_monad. rewrite Hm; simpl. by rewrite Hid.
Qed.

(** C1 (what the code does): [de_init_button] never clears [was_initialized],
    so the registration that follows a successful de-registration is turned
    down with BSP_BUTTON_WAS_INITIALIZED_ERR. *)
Theorem init_button_after_de_init_button (id : Button_ID) (w w' : world) :
  de_init_button hdr id w = (Return BSP_BUTTON_OK, w') →
  init_button hdr id w' = (Return BSP_BUTTON_WAS_INITIALIZED_ERR, w').
Proof.
  intros H. apply de_init_button_OK_inv in H as (Hm & Hc & b & Hb & Hi & ->).
  by eapply init_button_rejected.
Qed.

(** C2 (amended): a successful [de_init_button] makes two driver calls, the
    reset of the pin and the disabling of its interrupt, and writes to no
    button: descriptor, sampled level, debounce flag, timer handle and press
    counter of every button are what they were. *)
Theorem de_init_button_keeps_buttons (id : Button_ID) (w w' : world) :
  de_init_button hdr id w = (Return BSP_BUTTON_OK, w') →
  (∃ b, system_buttons_infos w !! id = Some b ∧
        effects w' = Driver (gpio_set_intr_type (GPIO b) GPIO_INTR_DISABLE) ESP_OK
                       :: Driver (gpio_reset_pin (GPIO b)) ESP_OK :: effects w) ∧
  length (system_buttons_infos w') = length (system_buttons_infos w) ∧
  ∀ i b, system_buttons_infos w !! i = Some b →
    ∃ b', system_buttons_infos w' !! i = Some b' ∧
          ID b' = ID b ∧ GPIO b' = GPIO b ∧ pull_mode b' = pull_mode b ∧
          interruption_type b' = interruption_type b ∧
          debounce b' = debounce b ∧
          state b' = state b ∧
          debounce_timer_expired b' = debounce_timer_expired b ∧
          num_of_presses b' = num_of_presses b.
Proof.
  intros H. apply de_init_button_OK_inv in H as (Hm & Hc & b & Hb & Hi & ->).
  simpl. split_and!; [by exists b | done |].
  intros i b0 Hb0. by exists b0.
Qed.

(** *** The edge detector *)

Lemma generic_button_CB_accepts (id : Button_ID) (w : world)
    (b : system_button_info) (h : nat) (t : sw_timer) :
  system_buttons_infos w !! id = Some b →
  ID b = id →
  debounce b = Some h →
  timers w !! h = Some t →
  timer_is_active t = false →
  debounce_timer_expired b = true →
  generic_button_CB id w
  = (Next tt,
     with_effect (TimerStarted h)
       (with_timers (<[h := set_timer_active true t]> (timers w)) (free_timers w)
          (with_effect (button_CB id)
             (with_infos
                (<[id := set_num_of_presses (uint64_incr (num_of_presses b))
                           (set_state (gpio_level w (GPIO b))
                              (set_debounce_timer_expired false b))]>
                   (system_buttons_infos w)) w)))).
Proof.
  intros Hb Hid Hd Ht Ha He.
  assert (Hlt : (id < length (system_buttons_infos w))%nat) by (by eapply lookup_lt_Some).
  unfold generic_button_CB. unfold_monad.
  rewrite Hb; simpl. rewrite Hid, Hb; simpl. rewrite Hd, Ht; simpl.
  rewrite Ha; simpl. rewrite Hb; simpl. rewrite He; simpl.
  rewrite Hb; simpl.
  repeat (rewrite list_lookup_insert_eq by (rewrite ?length_insert; done); simpl).
  rewrite Hd, Ht. simpl. rewrite !list_insert_insert_eq. reflexivity.
Qed.

Lemma generic_button_CB_ignores (args id : nat) (w : world)
    (b0 b : system_button_info) (h : nat) (t : sw_timer) :
  system_buttons_infos w !! args = Some b0 →
  ID b0 = id →
  system_buttons_infos w !! id = Some b →
  debounce b = Some h →
  timers w !! h = Some t →
  timer_is_active t = true ∨ debounce_timer_expired b = false →
  generic_button_CB args w = (Next tt, w).
Proof.
  intros Hb0 Hid Hb Hd Ht Hblocked.
  unfold generic_button_CB. unfold_monad.
  rewrite Hb0; simpl. rewrite Hid, Hb; simpl. rewrite Hd, Ht; simpl.
  destruct (timer_is_active t); simpl; [done|].
  rewrite Hb; simpl. destruct Hblocked as [?| ->]; done.
Qed.

Lemma drift_keeps (envs : list environment) (w : world) :
  button_module_was_initialized (drift envs w) = button_module_was_initialized w ∧
  system_buttons_infos (drift envs w) = system_buttons_infos w ∧
  timers (drift envs w) = timers w ∧
  isr_handlers (drift envs w) = isr_handlers w ∧
  effects (drift envs w) = effects w.
Proof.
  revert w. induction envs as [|e envs IH]; intros w; simpl; [done|].
  destruct (IH (with_environment e w)) as (-> & -> & -> & -> & ->). done.
Qed.

Lemma edges_ignored (pin : gpio_num_t) (id : Button_ID) (envs : list environment)
    (w : world) (b : system_button_info) (h : nat) (t : sw_timer) :
  handler_args pin (isr_handlers w) = Some id →
  system_buttons_infos w !! id = Some b →
  ID b = id →
  debounce b = Some h →
  timers w !! h = Some t →
  timer_is_active t = true ∨ debounce_timer_expired b = false →
  ∃ hist, exec hdr (edges pin envs) w = Some (hist, drift envs w).
Proof.
  intros Hh Hb Hid Hd Ht Hblocked. revert w Hh Hb Ht.
  induction envs as [|e envs IH]; intros w Hh Hb Ht; simpl; [by eexists|].
  unfold handler, gpio_isr_dispatch. unfold_monad. simpl. rewrite Hh.
  rewrite (generic_button_CB_ignores id id (with_environment e w) b b h t)
    by done.
  destruct (IH (with_environment e w)) as [hist ->]; [done..|].
  by eexists.
Qed.

(** C3: a registered button in its quiescent phase receives N >= 1 edges on
    its pin with no timer expiry in between, whatever the environment does
    before each of them.  The first edge is accepted: the press counter is
    incremented (as a [uint64_t]), [button_CB] is called once and the timer
    is started; the following edges change nothing, the world at the end is
    the world after the first edge with only the environment moved.  So the
    counter grows by exactly 1 and the callback runs exactly once. *)
Theorem one_press_per_debounce_window (pin : gpio_num_t) (id : Button_ID)
    (w : world) (b : system_button_info) (e : environment)
    (envs : list environment) :
  handler_args pin (isr_handlers w) = Some id →
  system_buttons_infos w !! id = Some b →
  ID b = id →
  phase_of id w = Some Quiescent →
  ∃ h hist1 w1 hist w' b',
    exec hdr (edges pin [e]) w = Some (hist1, w1) ∧
    exec hdr (edges pin (e :: envs)) w = Some (hist, w') ∧
    w' = drift envs w1 ∧
    debounce b = Some h ∧
    effects w' = TimerStarted h :: button_CB id :: effects w ∧
    system_buttons_infos w' !! id = Some b' ∧
    num_of_presses b' = uint64_incr (num_of_presses b) ∧
    (0 ≤ num_of_presses b < UINT64_MODULUS - 1 →
     num_of_presses b' = num_of_presses b + 1) ∧
    phase_of id w' = Some Debouncing.
Proof.
  intros Hh Hb Hid Hq.
  unfold phase_of in Hq. rewrite Hb in Hq. simpl in Hq.
  destruct (debounce b) as [h|] eqn:Hd; [|done]. simpl in Hq.
  destruct (timers w !! h) as [t|] eqn:Ht; [|done]. simpl in Hq.
  destruct (timer_is_active t) eqn:Ha; [done|].
  destruct (debounce_timer_expired b) eqn:He; [|done]. clear Hq.
  assert (Hlt : (id < length (system_buttons_infos w))%nat) by (by eapply lookup_lt_Some).
  assert (Hlt' : (h < length (timers w))%nat) by (by eapply lookup_lt_Some).
  pose proof (generic_button_CB_accepts id (with_environment e w) b h t
                Hb Hid Hd Ht Ha He) as Hfirst.
  simpl in Hfirst.
  set (b1 := set_num_of_presses (uint64_incr (num_of_presses b))
               (set_state (env_gpio_level e (GPIO b))
                  (set_debounce_timer_expired false b))) in *.
  set (w1 := with_effect (TimerStarted h) _) in Hfirst.
  assert (Hstep : exec hdr (edges pin [e]) w
                  = Some ([(Environment_change e, None); (Edge_interrupt pin, None)], w1)).
  { simpl. unfold handler, gpio_isr_dispatch. unfold_monad. simpl.
    rewrite Hh, Hfirst. done. }
  destruct (edges_ignored pin id envs w1 b1 h (set_timer_active true t))
    as [hist Hrest]; [done | | done | done | | by left |].
  { subst w1; simpl. by apply list_lookup_insert_eq. }
  { subst w1; simpl. by apply list_lookup_insert_eq. }
  destruct (drift_keeps envs w1) as (_ & Hi & Hts & _ & Hes).
  exists h, [(Environment_change e, None); (Edge_interrupt pin, None)], w1,
    ((Environment_change e, None) :: (Edge_interrupt pin, None) :: hist),
    (drift envs w1), b1.
  split_and!; try done.
  - simpl in Hstep |- *.
    destruct (handler (gpio_isr_dispatch pin) (with_environment e w))
      as [[r w2]|]; [|done].
    simplify_eq. by rewrite Hrest.
  - rewrite Hi. subst w1; simpl. by apply list_lookup_insert_eq.
  - intros Hrange. subst b1; simpl. unfold uint64_incr.
    apply Z.mod_small. unfold UINT64_MODULUS in *. lia.
  - unfold phase_of. rewrite Hi, Hts. subst w1; simpl.
    rewrite list_lookup_insert_eq by done. simpl. rewrite Hd. simpl.
    rewrite list_lookup_insert_eq by done. done.
Qed.

(** *** The settle checker *)

Lemma ID_of_timer_name_from_unknown (name : string) (names : list string) (k acc : nat) :
  name ∉ names →
  foldl (λ id (e : string * nat), if bool_decide (name = e.1) then e.2 else id) acc
    (imap (λ i n, (n, k + i)%nat) names) = acc.
Proof.
  revert k acc. induction names as [|n names IH]; intros k acc Hnot; simpl; [done|].
  apply not_elem_of_cons in Hnot as [Hne Hnot].
  rewrite bool_decide_eq_false_2 by done.
  rewrite <- (IH (S k) acc Hnot) at 2. f_equal.
  apply imap_ext. intros i x _. simpl. f_equal. lia.
Qed.

Lemma ID_of_timer_name_from_known (name : string) (names : list string) (k acc i : nat) :
  NoDup names →
  names !! i = Some name →
  foldl (λ id (e : string * nat), if bool_decide (name = e.1) then e.2 else id) acc
    (imap (λ i n, (n, k + i)%nat) names) = (k + i)%nat.
Proof.
  revert k acc i. induction names as [|n names IH]; intros k acc i Hnd Hi; [done|].
  apply NoDup_cons in Hnd as [Hnot Hnd]. simpl.
  assert (Hext : imap ((λ i n, (n, k + i)%nat) ∘ S) names
                 = imap (λ i n, (n, S k + i)%nat) names).
  { apply imap_ext. intros j x _. simpl. f_equal. lia. }
  rewrite Hext. destruct i as [|i]; simpl in Hi.
  - simplify_eq. rewrite bool_decide_eq_true_2 by done.
    by rewrite ID_of_timer_name_from_unknown.
  - rewrite (IH (S k) _ i Hnd Hi). lia.
Qed.

Lemma ID_of_timer_name_unknown (name : string) :
  name ∉ BUTTONS hdr → ID_of_timer_name hdr name = 0%nat.
Proof. apply (ID_of_timer_name_from_unknown name (BUTTONS hdr) 0 0). Qed.

Lemma ID_of_timer_name_known (name : string) (id : Button_ID) :
  NoDup (BUTTONS hdr) → BUTTONS hdr !! id = Some name →
  ID_of_timer_name hdr name = id.
Proof. apply (ID_of_timer_name_from_known name (BUTTONS hdr) 0 0). Qed.

Lemma set_timer_active_again (t : sw_timer) :
  timer_is_active t = true →
  set_timer_active true (set_timer_active false t) = t.
Proof. destruct t; simpl; by intros ->. Qed.

(** [timer_CB] when the name of the timer designates the button [id]. *)
Lemma timer_CB_for (id : Button_ID) (h : nat) (w : world)
    (b : system_button_info) (t : sw_timer) :
  timers w !! h = Some t →
  ID_of_timer_name hdr (pcTimerName t) = id →
  system_buttons_infos w !! id = Some b →
  timer_CB hdr (Some h) w
  = if bool_decide (gpio_level w (GPIO b) = BUTTON_IS_PRESSED hdr)
    then xTimerStartFromISR (debounce b) w
    else (Next tt,
          with_infos (<[id := set_debounce_timer_expired true b]>
                        (system_buttons_infos w)) w).
Proof.
  intros Ht Hid Hb. unfold timer_CB. unfold_monad.
  rewrite Ht; simpl. rewrite Hid, Hb; simpl.
  case_bool_decide; simpl; by rewrite Hb.
Qed.

(** C10: a timer whose name is the name of no button makes [timer_CB] go on
    with identifier 0: it samples the pin of button 0 and either starts the
    debounce timer of button 0 again or sets the [debounce_timer_expired]
    flag of button 0; it neither fails nor returns early. *)
Theorem timer_CB_unknown_name (h : nat) (w : world) (t : sw_timer)
    (b0 : system_button_info) :
  timers w !! h = Some t →
  pcTimerName t ∉ BUTTONS hdr →
  system_buttons_infos w !! 0%nat = Some b0 →
  (gpio_level w (GPIO b0) = BUTTON_IS_PRESSED hdr →
   ∀ h0 t0, debounce b0 = Some h0 → timers w !! h0 = Some t0 →
     timer_CB hdr (Some h) w
     = (Next tt,
        with_effect (TimerStarted h0)
          (with_timers (<[h0 := set_timer_active true t0]> (timers w))
             (free_timers w) w))) ∧
  (gpio_level w (GPIO b0) ≠ BUTTON_IS_PRESSED hdr →
   timer_CB hdr (Some h) w
   = (Next tt,
      with_infos (<[0%nat := set_debounce_timer_expired true b0]>
                    (system_buttons_infos w)) w)).
Proof.
  intros Ht Hname Hb0.
  rewrite (timer_CB_for 0 h w b0 t Ht (ID_of_timer_name_unknown _ Hname) Hb0).
  split.
  - intros Hp h0 t0 Hd Ht0. rewrite bool_decide_eq_true_2 by done.
    rewrite Hd. unfold_monad. by rewrite Ht0.
  - intros Hp. by rewrite bool_decide_eq_false_2.
Qed.

(** C4: the debounce timer [h] of button [id] expires while it runs.  If the
    pin still reads the pressed level, [timer_CB] starts the same timer
    again and touches nothing else: the button stays debouncing, counter and
    all members as they were.  Otherwise the only write to the buttons is
    the flag [debounce_timer_expired] of that button, and the button is
    quiescent. *)
Theorem settle_check_at_expiry (id : Button_ID) (h : nat) (w : world)
    (b : system_button_info) (t : sw_timer) :
  NoDup (BUTTONS hdr) →
  BUTTONS hdr !! id = Some (pcTimerName t) →
  system_buttons_infos w !! id = Some b →
  debounce b = Some h →
  timers w !! h = Some t →
  timer_is_active t = true →
  ∃ w', timer_expires hdr h w = (Next tt, w') ∧
    (gpio_level w (GPIO b) = BUTTON_IS_PRESSED hdr →
     w' = with_effect (TimerStarted h) w ∧
     phase_of id w' = Some Debouncing) ∧
    (gpio_level w (GPIO b) ≠ BUTTON_IS_PRESSED hdr →
     w' = with_infos (<[id := set_debounce_timer_expired true b]>
                        (system_buttons_infos w))
            (with_timers (<[h := set_timer_active false t]> (timers w))
               (free_timers w) w) ∧
     phase_of id w' = Some Quiescent).
Proof.
  intros Hnd Hname Hb Hd Ht Ha.
  assert (Hlt : (id < length (system_buttons_infos w))%nat) by (by eapply lookup_lt_Some).
  assert (Hlt' : (h < length (timers w))%nat) by (by eapply lookup_lt_Some).
  pose proof (ID_of_timer_name_known _ _ Hnd Hname) as Hid.
  unfold timer_expires.
  unfold bind at 1. unfold timer_at. rewrite Ht. unfold when. rewrite Ha.
  unfold bind at 1. unfold modify at 1. unfold call_void.
  set (w0 := with_timers _ _ w).
  assert (Ht0 : timers w0 !! h = Some (set_timer_active false t)).
  { subst w0; simpl. by apply list_lookup_insert_eq. }
  rewrite (timer_CB_for id h w0 b (set_timer_active false t) Ht0 Hid Hb).
  subst w0. simpl. case_bool_decide as Hp; simpl.
  - rewrite Hd. unfold_monad. simpl. rewrite list_lookup_insert_eq by done. simpl.
    eexists; split; [done|]. split; [intros _ | done].
    rewrite list_insert_insert_eq, set_timer_active_again by done.
    rewrite list_insert_id by done. split.
    + by destruct w.
    + unfold phase_of; simpl. rewrite Hb; simpl. rewrite Hd; simpl.
      rewrite Ht; simpl. by rewrite Ha.
  - eexists; split; [done|]. split; [done | intros _]. split; [done|].
    unfold phase_of; simpl. rewrite list_lookup_insert_eq by done. simpl.
    rewrite Hd; simpl. rewrite list_lookup_insert_eq by done. done.
Qed.

(** *** Validation and construction of the table *)

Lemma check_pull_mode_eq (p : gpio_pull_mode_t) (w : world) :
  check_pull_mode p w
  = if pull_mode_is_recognized p then (Next tt, w) else (Return false, w).
Proof.
  unfold check_pull_mode, pull_mode_is_recognized, ret, return_.
  repeat case_bool_decide; try done; tauto.
Qed.

(** The first loop reads the table and writes only its local array. *)
Lemma check_and_sort_eq (entries : list system_button_info) (k : nat)
    (buttons_info : list system_button_info) (w : world) :
  (∀ j b, entries !! j = Some b → system_buttons_infos w !! (k + j)%nat = Some b) →
  check_and_sort hdr (seq k (length entries)) buttons_info w
  = if forallb (info_is_valid hdr) entries
    then (Next (sorted_by_ID entries buttons_info), w)
    else (Return false, w).
Proof.
  revert k buttons_info.
  induction entries as [|b entries IH]; intros k buttons_info Hin; simpl; [done|].
  pose proof (Hin 0%nat b eq_refl) as Hb. rewrite Nat.add_0_r in Hb.
  unfold info_is_valid at 1. unfold_monad. rewrite Hb; simpl.
  destruct (check_button_ID hdr (ID b)); simpl; [|done].
  rewrite Hb; simpl.
  destruct (GPIO_IS_VALID_GPIO hdr (GPIO b)); simpl; [|done].
  rewrite Hb; simpl. rewrite check_pull_mode_eq.
  destruct (pull_mode_is_recognized (pull_mode b)); simpl; [|done].
  rewrite Hb; simpl. rewrite Hb; simpl.
  apply IH. intros j b' Hj. replace (S k + j)%nat with (k + S j)%nat by lia.
  by apply Hin.
Qed.

Lemma switch_on_config {A} (i : nat) (f : button_config → A) (d : A) :
  switch_on i ((λ c, (BUTTON_ID c, f c)) <$> BUTTONS_CONFIGURATIONS hdr) d
  = from_option f d (config_of hdr i).
Proof.
  unfold config_of. induction (BUTTONS_CONFIGURATIONS hdr) as [|c cs IH]; simpl; [done|].
  by destruct (decide (i = BUTTON_ID c)).
Qed.

Lemma config_of_Some (i : nat) (c : button_config) :
  config_of hdr i = Some c → c ∈ BUTTONS_CONFIGURATIONS hdr ∧ BUTTON_ID c = i.
Proof.
  unfold config_of. induction (BUTTONS_CONFIGURATIONS hdr) as [|c' cs IH]; simpl; [done|].
  destruct (decide (i = BUTTON_ID c')) as [->|Hne].
  - intros [= ->]. split; [left | done].
  - intros H. destruct (IH H) as [Hin Hid]. split; [by right | done].
Qed.

Lemma config_of_is_Some (i : nat) :
  i ∈ BUTTON_ID <$> BUTTONS_CONFIGURATIONS hdr → is_Some (config_of hdr i).
Proof.
  unfold config_of. induction (BUTTONS_CONFIGURATIONS hdr) as [|c' cs IH]; simpl.
  - intros H. inversion H.
  - intros H. destruct (decide (i = BUTTON_ID c')); [by eexists|].
    apply elem_of_cons in H as [?|?]; [done | by apply IH].
Qed.

(** One turn of the second loop. *)
Lemma copy_and_init_turn (i : nat) (b : system_button_info) (w : world) :
  (i < length (system_buttons_infos w))%nat →
  bind (assign i (λ _, b))
    (λ _, switch_on i
            ((λ c, (BUTTON_ID c, create_debounce_timer hdr i c))
               <$> BUTTONS_CONFIGURATIONS hdr)
            (return_ false)) w
  = match config_of hdr i with
    | None => (Return false, with_infos (<[i := b]> (system_buttons_infos w)) w)
    | Some c =>
        match free_timers w with
        | O =>
            (Return false,
             with_infos (<[i := set_debounce None b]> (system_buttons_infos w))
               (with_effect (TimerCreated (BUTTON_ID_token c) None) w))
        | S n =>
            (Next tt,
             with_infos
               (<[i := set_debounce (Some (length (timers w))) b]>
                  (system_buttons_infos w))
               (with_effect
                  (TimerCreated (BUTTON_ID_token c) (Some (length (timers w))))
                  (with_timers
                     (timers w
                        ++ [{| pcTimerName := BUTTON_ID_token c;
                               xTimerPeriodInTicks :=
                                 ticks_of_BOUNCE_TIME (BOUNCE_TIME c)
                                   (portTICK_PERIOD_MS hdr);
                               timer_is_active := false |}]) n w)))
        end
    end.
Proof.
  intros Hlt. destruct (lookup_lt_is_Some_2 _ _ Hlt) as [b0 Hb0].
  rewrite switch_on_config. unfold bind at 1. unfold assign at 1. rewrite Hb0.
  destruct (config_of hdr i) as [c|]; simpl; [|done].
  unfold create_debounce_timer, xTimerCreate. unfold_monad. simpl.
  destruct (free_timers w) as [|n]; simpl.
  - repeat (rewrite list_lookup_insert_eq by (rewrite ?length_insert; done); simpl).
    by rewrite list_insert_insert_eq.
  - repeat (rewrite list_lookup_insert_eq by (rewrite ?length_insert; done); simpl).
    by rewrite list_insert_insert_eq.
Qed.

Lemma bind_assoc {R A B C} (m : M R A) (k : A → M R B) (k' : B → M R C) (w : world) :
  bind m (λ a, bind (k a) k') w = bind (bind m k) k' w.
Proof. unfold bind. destruct (m w) as [[a|r|] w1]; done. Qed.

Lemma driver_calls_cons_other (e : effect) (es : list effect) :
  is_driver_call e = false → driver_calls (e :: es) = driver_calls es.
Proof. intros H. unfold driver_calls. rewrite filter_cons_False; [done|]. by rewrite H. Qed.

(** What the second loop leaves, whether it ends or gives up. *)
Lemma copy_and_init_spec (indices : list nat) (buttons_info : list system_button_info) :
  NoDup indices →
  ∀ (w : world) (f : flow bool unit) (w' : world),
    (∀ i, i ∈ indices →
       (i < length buttons_info)%nat ∧ (i < length (system_buttons_infos w))%nat) →
    copy_and_init hdr indices buttons_info w = (f, w') →
    (f = Next tt ∨ f = Return false) ∧
    button_module_was_initialized w' = button_module_was_initialized w ∧
    isr_handlers w' = isr_handlers w ∧
    length (system_buttons_infos w') = length (system_buttons_infos w) ∧
    driver_calls (effects w') = driver_calls (effects w) ∧
    esp_status w' = esp_status w ∧
    (∃ new, timers w' = timers w ++ new ∧
            Forall (λ t, timer_is_active t = false) new) ∧
    (∀ j, j ∉ indices → system_buttons_infos w' !! j = system_buttons_infos w !! j) ∧
    (∀ j b', system_buttons_infos w' !! j = Some b' →
       system_buttons_infos w !! j = Some b' ∨
       ∃ b h, buttons_info !! j = Some b ∧ b' = set_debounce h b) ∧
    (f = Next tt →
     ∀ i, i ∈ indices →
       is_Some (config_of hdr i) ∧
       ∃ b h, buttons_info !! i = Some b ∧
              system_buttons_infos w' !! i = Some (set_debounce (Some h) b)).
Proof.
  induction indices as [|i rest IH]; intros Hnd w f w' Hin Hrun.
  - simpl in Hrun. unfold ret in Hrun. simplify_eq.
    split_and!; try done; [by left | exists []; by rewrite app_nil_r | by left |].
    intros _ i Hi. inversion Hi.
  - apply NoDup_cons in Hnd as [Hi Hnd].
    destruct (Hin i) as [Hlt1 Hlt2]; [left|].
    destruct (lookup_lt_is_Some_2 _ _ Hlt1) as [b Hb].
    simpl in Hrun. rewrite Hb in Hrun. rewrite bind_assoc in Hrun.
    unfold bind at 1 in Hrun. rewrite copy_and_init_turn in Hrun by done.
    destruct (config_of hdr i) as [c|] eqn:Hc.
    2:{ simplify_eq. simpl. split_and!; try done.
        - by right.
        - by rewrite length_insert.
        - exists []. by rewrite app_nil_r.
        - intros j Hj. apply not_elem_of_cons in Hj as [Hj _].
          by rewrite list_lookup_insert_ne.
        - intros j b' Hj. destruct (decide (i = j)) as [<-|Hne].
          + rewrite list_lookup_insert_eq in Hj by done. simplify_eq.
            right. exists b', (debounce b'). split; [done|]. by destruct b'.
          + rewrite list_lookup_insert_ne in Hj by done. by left. }
    destruct (free_timers w) as [|n] eqn:Hn.
    { simplify_eq. simpl. split_and!; try done.
      - by right.
      - by rewrite length_insert.
      - exists []. by rewrite app_nil_r.
      - intros j Hj. apply not_elem_of_cons in Hj as [Hj _].
        by rewrite list_lookup_insert_ne.
      - intros j b' Hj. destruct (decide (i = j)) as [<-|Hne].
        + rewrite list_lookup_insert_eq in Hj by done. simplify_eq.
          right. by exists b, None.
        + rewrite list_lookup_insert_ne in Hj by done. by left. }
    match type of Hrun with
    | copy_and_init _ _ _ ?w0 = _ => set (w1 := w0) in *
    end.
    destruct (IH Hnd w1 f w') as
      (Hf & Hm & Hh & Hlen & Hdrv & Hst & (new & Hts & Hnew) & Hout & Hfrom & Hok).
    { intros j Hj. destruct (Hin j) as [? ?]; [by right|].
      split; [done|]. subst w1; simpl. by rewrite length_insert. }
    { done. }
    subst w1; simpl in *. rewrite length_insert in Hlen.
    split_and!; try done.
    + eexists (_ :: new). rewrite Hts, <- app_assoc. split; [done|].
      by constructor.
    + intros j Hj. apply not_elem_of_cons in Hj as [Hj1 Hj2].
      rewrite (Hout j Hj2). by rewrite list_lookup_insert_ne.
    + intros j b' Hj. destruct (Hfrom j b' Hj) as [Hold|Hnew']; [|by right].
      destruct (decide (i = j)) as [<-|Hne].
      * rewrite list_lookup_insert_eq in Hold by done. simplify_eq.
        right. by eexists _, _.
      * rewrite list_lookup_insert_ne in Hold by done. by left.
    + intros Hnext j Hj. apply elem_of_cons in Hj as [->|Hj]; [|by apply Hok].
      split; [by eexists|]. exists b, (length (timers w)). split; [done|].
      rewrite (Hout i Hi). by apply list_lookup_insert_eq.
Qed.

Lemma sorted_by_ID_length (entries acc : list system_button_info) :
  length (sorted_by_ID entries acc) = length acc.
Proof.
  revert acc. induction entries as [|b entries IH]; intros acc; [done|].
  change (sorted_by_ID (b :: entries) acc)
    with (sorted_by_ID entries (<[ID b := b]> acc)).
  by rewrite IH, length_insert.
Qed.

Lemma sorted_by_ID_other (entries acc : list system_button_info) (i : nat) :
  i ∉ ID <$> entries → sorted_by_ID entries acc !! i = acc !! i.
Proof.
  revert acc. induction entries as [|b entries IH]; intros acc Hi; [done|].
  rewrite fmap_cons in Hi. apply not_elem_of_cons in Hi as [Hne Hi].
  change (sorted_by_ID (b :: entries) acc)
    with (sorted_by_ID entries (<[ID b := b]> acc)).
  rewrite IH by done. by rewrite list_lookup_insert_ne.
Qed.

Lemma sorted_by_ID_lookup (entries acc : list system_button_info)
    (b : system_button_info) :
  NoDup (ID <$> entries) → b ∈ entries → (ID b < length acc)%nat →
  sorted_by_ID entries acc !! ID b = Some b.
Proof.
  revert acc. induction entries as [|b0 entries IH]; intros acc Hnd Hb Hlt.
  - inversion Hb.
  - rewrite fmap_cons in Hnd. apply NoDup_cons in Hnd as [Hnot Hnd].
    change (sorted_by_ID (b0 :: entries) acc)
      with (sorted_by_ID entries (<[ID b0 := b0]> acc)).
    apply elem_of_cons in Hb as [->|Hb].
    + rewrite sorted_by_ID_other by done. by apply list_lookup_insert_eq.
    + apply IH; [done | done | by rewrite length_insert].
Qed.

Lemma sorted_by_ID_from (entries acc : list system_button_info) (i : nat)
    (b : system_button_info) :
  sorted_by_ID entries acc !! i = Some b → acc !! i = Some b ∨ b ∈ entries.
Proof.
  revert acc. induction entries as [|b0 entries IH]; intros acc Hb; [by left|].
  change (sorted_by_ID (b0 :: entries) acc)
    with (sorted_by_ID entries (<[ID b0 := b0]> acc)) in Hb.
  destruct (IH _ Hb) as [Hacc|Hin]; [|right; by right].
  destruct (decide (ID b0 = i)) as [<-|Hne].
  - destruct (decide (ID b0 < length acc)%nat) as [Hlt|Hge].
    + rewrite list_lookup_insert_eq in Hacc by done. simplify_eq. right; left.
    + rewrite list_insert_ge in Hacc by lia. by left.
  - rewrite list_lookup_insert_ne in Hacc by done. by left.
Qed.

(** [check_configurations_sort_and_init] on a table of [NUM_OF_BUTTONS]
    elements: it answers, and what it leaves. *)
Lemma check_configurations_sort_and_init_spec (w : world) (f : flow bool unit)
    (w' : world) :
  length (system_buttons_infos w) = NUM_OF_BUTTONS hdr →
  check_configurations_sort_and_init hdr w = (f, w') →
  (forallb (info_is_valid hdr) (system_buttons_infos w) = false →
   f = Return false ∧ w' = w) ∧
  (forallb (info_is_valid hdr) (system_buttons_infos w) = true →
   (f = Return true ∨ f = Return false) ∧
   button_module_was_initialized w' = button_module_was_initialized w ∧
   isr_handlers w' = isr_handlers w ∧
   length (system_buttons_infos w') = length (system_buttons_infos w) ∧
   driver_calls (effects w') = driver_calls (effects w) ∧
   esp_status w' = esp_status w ∧
   (∃ new, timers w' = timers w ++ new ∧
           Forall (λ t, timer_is_active t = false) new) ∧
   (∀ j b', system_buttons_infos w' !! j = Some b' →
      system_buttons_infos w !! j = Some b' ∨
      ∃ b h, sorted_by_ID (system_buttons_infos w)
               (replicate (NUM_OF_BUTTONS hdr) zero_button_info) !! j = Some b ∧
             b' = set_debounce h b) ∧
   (f = Return true →
    ∀ i, (i < NUM_OF_BUTTONS hdr)%nat →
      is_Some (config_of hdr i) ∧
      ∃ b h, sorted_by_ID (system_buttons_infos w)
               (replicate (NUM_OF_BUTTONS hdr) zero_button_info) !! i = Some b ∧
             system_buttons_infos w' !! i = Some (set_debounce (Some h) b))).
Proof.
  intros Hlen Hrun. unfold check_configurations_sort_and_init in Hrun.
  unfold bind at 1 in Hrun.
  rewrite <- Hlen in Hrun at 1.
  rewrite (check_and_sort_eq (system_buttons_infos w) 0) in Hrun by done.
  destruct (forallb (info_is_valid hdr) (system_buttons_infos w)) eqn:Hvalid.
  2:{ simplify_eq. split; [done | discriminate]. }
  split; [discriminate | intros _].
  unfold bind at 1 in Hrun.
  destruct (copy_and_init hdr (seq 0 (NUM_OF_BUTTONS hdr))
              (sorted_by_ID (system_buttons_infos w)
                 (replicate (NUM_OF_BUTTONS hdr) zero_button_info)) w)
    as [f1 w1] eqn:Hloop.
  apply copy_and_init_spec in Hloop as
    (Hf & Hm & Hh & Hl & Hdrv & Hst & Hts & _ & Hfrom & Hok).
  - destruct Hf as [-> | ->]; unfold return_ in Hrun; simplify_eq.
    + split_and!; try done; [by left|].
      intros _ i Hi. apply Hok; [done|]. apply elem_of_seq. lia.
    + split_and!; try done. by right.
  - apply NoDup_seq.
  - intros i Hi. apply elem_of_seq in Hi.
    rewrite sorted_by_ID_length, length_replicate. lia.
Qed.

Lemma cover_Permutation (l : list nat) (n : nat) :
  (∀ i, (i < n)%nat → i ∈ l) → (length l ≤ n)%nat → seq 0 n ≡ₚ l.
Proof.
  intros Hcover Hlen. apply submseteq_length_Permutation.
  - apply NoDup_submseteq; [apply NoDup_seq|].
    intros x Hx. apply elem_of_seq in Hx. apply Hcover. lia.
  - by rewrite length_seq.
Qed.

Lemma NoDup_below_Permutation (l : list nat) (n : nat) :
  NoDup l → (∀ i, i ∈ l → (i < n)%nat) → length l = n → seq 0 n ≡ₚ l.
Proof.
  intros Hnd Hlt Hlen. symmetry. apply submseteq_length_Permutation.
  - apply NoDup_submseteq; [done|].
    intros x Hx. apply elem_of_seq. specialize (Hlt x Hx). lia.
  - rewrite length_seq. lia.
Qed.

Lemma indexed_by_ID_seq (t : list system_button_info) :
  indexed_by_ID t → ID <$> t = seq 0 (length t).
Proof.
  intros Hidx. apply list_eq. intros i. rewrite list_lookup_fmap.
  destruct (t !! i) as [b|] eqn:Hb; simpl.
  - rewrite (Hidx i b Hb). symmetry. apply lookup_seq. split; [done|].
    by eapply lookup_lt_Some.
  - symmetry. apply lookup_ge_None. rewrite length_seq.
    by apply lookup_ge_None in Hb.
Qed.

Lemma forallb_info_is_valid (t : list system_button_info) (b : system_button_info) :
  forallb (info_is_valid hdr) t = true → b ∈ t →
  (ID b < NUM_OF_BUTTONS hdr)%nat ∧
  GPIO_IS_VALID_GPIO hdr (GPIO b) = true ∧
  pull_mode_is_recognized (pull_mode b) = true.
Proof.
  intros Hall Hb. apply list_elem_of_In in Hb.
  rewrite forallb_forall in Hall. specialize (Hall b Hb).
  unfold info_is_valid in Hall.
  apply andb_prop in Hall as [Hall Hp]. apply andb_prop in Hall as [Hid Hg].
  by apply check_button_ID_lt in Hid.
Qed.

(** When the check is passed on a table whose identifiers are pairwise
    distinct, every element ends at the position of its identifier. *)
Lemma check_true_indexed (w w' : world) :
  length (system_buttons_infos w) = NUM_OF_BUTTONS hdr →
  NoDup (ID <$> system_buttons_infos w) →
  check_configurations_sort_and_init hdr w = (Return true, w') →
  indexed_by_ID (system_buttons_infos w').
Proof.
  intros Hlen Hnd Hrun.
  destruct (check_configurations_sort_and_init_spec w _ w' Hlen Hrun) as [Hbad Hgood].
  destruct (forallb (info_is_valid hdr) (system_buttons_infos w)) eqn:Hvalid.
  2:{ destruct Hbad as [? _]; done. }
  destruct Hgood as (_ & _ & _ & Hl & _ & _ & _ & _ & Hok); [done|].
  specialize (Hok eq_refl).
  assert (Hperm : seq 0 (NUM_OF_BUTTONS hdr) ≡ₚ ID <$> system_buttons_infos w).
  { apply NoDup_below_Permutation; [done | | by rewrite length_fmap].
    intros i Hi. apply list_elem_of_fmap in Hi as (b & -> & Hb).
    by eapply forallb_info_is_valid. }
  intros i b' Hb'.
  assert (Hi : (i < NUM_OF_BUTTONS hdr)%nat).
  { rewrite <- Hlen, <- Hl. by eapply lookup_lt_Some. }
  destruct (Hok i Hi) as (_ & b & h & Hsorted & Hnew).
  rewrite Hnew in Hb'. simplify_eq. simpl.
  assert (Hin : i ∈ ID <$> system_buttons_infos w).
  { rewrite <- Hperm. apply elem_of_seq. lia. }
  apply list_elem_of_fmap in Hin as (b0 & -> & Hb0).
  rewrite sorted_by_ID_lookup in Hsorted; [by simplify_eq | done | done |].
  by rewrite length_replicate.
Qed.

(** [init_BSP_button_module] before the module is initialized. *)
Lemma init_BSP_button_module_eq (w : world) :
  button_module_was_initialized w = false →
  init_BSP_button_module hdr w
  = match check_configurations_sort_and_init hdr w with
    | (Return true, w1) =>
        let e := esp_status w1 (gpio_install_isr_service 0) in
        let w2 := with_effect (Driver (gpio_install_isr_service 0) e) w1 in
        if bool_decide (e = ESP_OK)
        then (Return BSP_BUTTON_OK, with_module_flag true w2)
        else (Return BSP_BUTTON_INIT_ERR, w2)
    | (Return false, w1) => (Return BSP_BUTTON_INVALID_BUTTONS_CONFIG_ERR, w1)
    | (_, w1) => (Undefined, w1)
    end.
Proof.
  intros Hm. unfold init_BSP_button_module, ESP_error_check. unfold_monad.
  rewrite Hm; simpl.
  destruct (check_configurations_sort_and_init hdr w) as [[[]|[|]|] w1]; simpl; try done.
  by case_bool_decide.
Qed.

Lemma init_BSP_button_module_again (w : world) :
  button_module_was_initialized w = true →
  init_BSP_button_module hdr w = (Return BSP_BUTTON_OK, w).
Proof.
  intros Hm. unfold init_BSP_button_module. unfold_monad. by rewrite Hm.
Qed.

Lemma initial_length :
  length (initial_system_buttons_infos hdr) = NUM_OF_BUTTONS hdr.
Proof.
  unfold initial_system_buttons_infos.
  rewrite length_take, length_app, length_replicate. lia.
Qed.

Lemma initial_declared (c : button_config) :
  (length (BUTTONS_CONFIGURATIONS hdr) ≤ NUM_OF_BUTTONS hdr)%nat →
  c ∈ BUTTONS_CONFIGURATIONS hdr →
  declared_info hdr c ∈ initial_system_buttons_infos hdr.
Proof.
  intros Hlen Hc. unfold initial_system_buttons_infos.
  rewrite take_app, take_ge by (rewrite length_fmap; lia).
  apply elem_of_app. left. by apply list_elem_of_fmap_2.
Qed.

Lemma initial_exact :
  length (BUTTONS_CONFIGURATIONS hdr) = NUM_OF_BUTTONS hdr →
  initial_system_buttons_infos hdr = declared_info hdr <$> BUTTONS_CONFIGURATIONS hdr.
Proof.
  intros Hlen. unfold initial_system_buttons_infos.
  rewrite take_app, take_ge by (rewrite length_fmap; lia).
  rewrite length_fmap, Hlen, Nat.sub_diag. by rewrite take_0, app_nil_r.
Qed.

Lemma initial_untouched :
  Forall untouched (initial_system_buttons_infos hdr).
Proof.
  unfold initial_system_buttons_infos. apply Forall_take, Forall_app. split.
  - apply Forall_fmap, Forall_forall. by intros c _.
  - apply Forall_replicate. done.
Qed.

(** The check never marks a button registered nor counts a press. *)
Lemma check_keeps_untouched (w : world) (f : flow bool unit) (w' : world) :
  length (system_buttons_infos w) = NUM_OF_BUTTONS hdr →
  Forall untouched (system_buttons_infos w) →
  check_configurations_sort_and_init hdr w = (f, w') →
  Forall untouched (system_buttons_infos w').
Proof.
  intros Hlen Hall Hrun.
  destruct (check_configurations_sort_and_init_spec w f w' Hlen Hrun) as [Hbad Hgood].
  destruct (forallb (info_is_valid hdr) (system_buttons_infos w)) eqn:Hvalid.
  2:{ destruct Hbad as [_ ->]; done. }
  destruct Hgood as (_ & _ & _ & _ & _ & _ & _ & Hfrom & _); [done|].
  rewrite Forall_lookup in Hall |- *. intros j b' Hb'.
  destruct (Hfrom j b' Hb') as [Hold | (b & h & Hsorted & ->)]; [by eapply Hall|].
  apply sorted_by_ID_from in Hsorted as [Hzero | Hin].
  - apply lookup_replicate in Hzero as [-> _]. done.
  - apply list_elem_of_lookup in Hin as [i Hi]. by apply (Hall i b).
Qed.

(** Passing the check from the declared table: the configuration is valid
    and every declared button sits at the position of its identifier. *)
Lemma boot_check_true (w w' : world) :
  (length (BUTTONS_CONFIGURATIONS hdr) ≤ NUM_OF_BUTTONS hdr)%nat →
  system_buttons_infos w = initial_system_buttons_infos hdr →
  check_configurations_sort_and_init hdr w = (Return true, w') →
  configuration_is_valid hdr ∧
  NoDup (ID <$> initial_system_buttons_infos hdr) ∧
  length (system_buttons_infos w') = NUM_OF_BUTTONS hdr ∧
  ∀ c, c ∈ BUTTONS_CONFIGURATIONS hdr →
    ∃ h, system_buttons_infos w' !! BUTTON_ID c
         = Some (set_debounce (Some h) (declared_info hdr c)).
Proof.
  intros Hle Hinit Hrun.
  assert (Hlen0 : length (system_buttons_infos w) = NUM_OF_BUTTONS hdr)
    by (rewrite Hinit; apply initial_length).
  destruct (check_configurations_sort_and_init_spec w _ w' Hlen0 Hrun)
    as [Hbad Hgood].
  rewrite Hinit in Hbad, Hgood.
  destruct (forallb (info_is_valid hdr) (initial_system_buttons_infos hdr)) eqn:Hvalid.
  2:{ destruct Hbad as [? _]; done. }
  destruct Hgood as (_ & _ & _ & Hl & _ & _ & _ & _ & Hok); [done|].
  specialize (Hok eq_refl). rewrite initial_length in Hl.
  assert (Hperm : seq 0 (NUM_OF_BUTTONS hdr) ≡ₚ BUTTON_ID <$> BUTTONS_CONFIGURATIONS hdr).
  { apply cover_Permutation; [|by rewrite length_fmap].
    intros i Hi. destruct (Hok i Hi) as [[c Hc] _].
    apply config_of_Some in Hc as [Hc <-]. by apply list_elem_of_fmap_2. }
  assert (Hlen : length (BUTTONS_CONFIGURATIONS hdr) = NUM_OF_BUTTONS hdr).
  { apply Permutation_length in Hperm. by rewrite length_seq, length_fmap in Hperm. }
  assert (Hnd : NoDup (BUTTON_ID <$> BUTTONS_CONFIGURATIONS hdr)).
  { rewrite <- Hperm. apply NoDup_seq. }
  assert (Hids : ID <$> initial_system_buttons_infos hdr
                 = BUTTON_ID <$> BUTTONS_CONFIGURATIONS hdr).
  { rewrite initial_exact by done. by rewrite <- list_fmap_compose. }
  split_and!; [split | by rewrite Hids | done |].
  - done.
  - intros c Hc.
    destruct (forallb_info_is_valid _ (declared_info hdr c) Hvalid) as (Hid & Hg & Hp).
    { by apply initial_declared. }
    split_and!; [|done..]. by apply check_button_ID_enumerator, check_button_ID_lt.
  - intros c Hc.
    assert (Hi : (BUTTON_ID c < NUM_OF_BUTTONS hdr)%nat).
    { assert (BUTTON_ID c ∈ seq 0 (NUM_OF_BUTTONS hdr)) as Hin.
      { rewrite Hperm. by apply list_elem_of_fmap_2. }
      apply elem_of_seq in Hin. lia. }
    destruct (Hok _ Hi) as (_ & b & h & Hsorted & Hnew).
    exists h. rewrite Hnew. do 2 f_equal.
    change (BUTTON_ID c) with (ID (declared_info hdr c)) in Hsorted.
    rewrite sorted_by_ID_lookup in Hsorted; [by simplify_eq | by rewrite Hids | |].
    + by apply initial_declared.
    + by rewrite length_replicate.
Qed.

(** The first call of [init_BSP_button_module], on the table as the
    header declares it (the initializer holds no more lines than the array
    has elements).  The call answers.  A declared button that fails one of
    the three checks (identifier in the enumeration, pin of the chip, pull
    mode among the four) makes it return
    BSP_BUTTON_INVALID_BUTTONS_CONFIG_ERR with nothing at all done.  Any
    invalid configuration, a repeated identifier included, gives that error.
    Whenever that error is returned the module is left uninitialized: no
    driver call was made, no handler is installed, no button is registered.
    When the call succeeds the configuration is valid and every declared
    button is the table element at the position of its identifier. *)
Theorem init_BSP_button_module_validates (e : environment) :
  (length (BUTTONS_CONFIGURATIONS hdr) ≤ NUM_OF_BUTTONS hdr)%nat →
  ∃ r w',
    init_BSP_button_module hdr (boot hdr e) = (Return r, w') ∧
    ((∃ c, c ∈ BUTTONS_CONFIGURATIONS hdr ∧ ¬ config_passes_checks hdr c) →
     r = BSP_BUTTON_INVALID_BUTTONS_CONFIG_ERR ∧ w' = boot hdr e) ∧
    (¬ configuration_is_valid hdr → r = BSP_BUTTON_INVALID_BUTTONS_CONFIG_ERR) ∧
    (r = BSP_BUTTON_INVALID_BUTTONS_CONFIG_ERR →
     button_module_was_initialized w' = false ∧
     driver_calls (effects w') = [] ∧
     isr_handlers w' = [] ∧
     Forall (λ b, was_initialized b = false) (system_buttons_infos w')) ∧
    (r = BSP_BUTTON_OK →
     configuration_is_valid hdr ∧
     button_module_was_initialized w' = true ∧
     length (system_buttons_infos w') = NUM_OF_BUTTONS hdr ∧
     ∀ c, c ∈ BUTTONS_CONFIGURATIONS hdr →
       ∃ h, system_buttons_infos w' !! BUTTON_ID c
            = Some (set_debounce (Some h) (declared_info hdr c))).
Proof.
  intros Hle. rewrite init_BSP_button_module_eq by done.
  destruct (check_configurations_sort_and_init hdr (boot hdr e)) as [f w1] eqn:Hrun.
  pose proof (check_keeps_untouched (boot hdr e) f w1
                initial_length initial_untouched Hrun) as Hfresh.
  assert (Hreg : Forall (λ b, was_initialized b = false) (system_buttons_infos w1)).
  { eapply Forall_impl; [exact Hfresh|]. by intros b [? _]. }
  destruct (check_configurations_sort_and_init_spec (boot hdr e) f w1
              initial_length Hrun) as [Hbad Hgood].
  simpl in Hbad, Hgood.
  destruct (forallb (info_is_valid hdr) (initial_system_buttons_infos hdr)) eqn:Hvalid.
  2:{ destruct Hbad as [-> ->]; [done|].
      eexists _, _. split; [done|]. split_and!; done. }
  assert (Hpass : ∀ c, c ∈ BUTTONS_CONFIGURATIONS hdr → config_passes_checks hdr c).
  { intros c Hc.
    destruct (forallb_info_is_valid _ (declared_info hdr c) Hvalid) as (Hid & Hg & Hp).
    { by apply initial_declared. }
    split_and!; [|done..]. by apply check_button_ID_enumerator, check_button_ID_lt. }
  destruct Hgood as (Hf & Hm & Hh & Hl & Hdrv & _ & _ & _ & _); [done|].
  destruct Hf as [-> | ->].
  - destruct (boot_check_true (boot hdr e) w1 Hle eq_refl Hrun) as (Hcfg & _ & Hlen & Hpos).
    simpl. case_bool_decide; eexists _, _; (split; [done|]); split_and!; try done.
    + intros (c & Hc & Hnot). destruct Hnot. by apply Hpass.
    + intros (c & Hc & Hnot). destruct Hnot. by apply Hpass.
  - eexists _, _. split; [done|]. split_and!; try done.
    intros (c & Hc & Hnot). destruct Hnot. by apply Hpass.
Qed.

(** *** What each operation leaves alone *)

Lemma init_button_frame (id : Button_ID) (w : world) (f : flow Button_return unit)
    (w' : world) :
  length (system_buttons_infos w) = NUM_OF_BUTTONS hdr →
  init_button hdr id w = (f, w') →
  ∃ r, f = Return r ∧
       button_module_was_initialized w' = button_module_was_initialized w ∧
       timers w' = timers w ∧
       (r = BSP_BUTTON_MODULE_WAS_NOT_INIT_ERR ↔ button_module_was_initialized w = false) ∧
       (r ≠ BSP_BUTTON_OK →
        system_buttons_infos w' = system_buttons_infos w ∧
        isr_handlers w' = isr_handlers w).
Proof.
  intros Hlen H. unfold init_button, ESP_error_check in H. unfold_monad.
  destruct (button_module_was_initialized w) eqn:Hm; simpl in H;
    [|simplify_eq; eexists; by split_and!].
  destruct (check_button_ID hdr id) eqn:Hc; simpl in H;
    [|simplify_eq; eexists; by split_and!].
  apply check_button_ID_lt in Hc. rewrite <- Hlen in Hc.
  destruct (lookup_lt_is_Some_2 _ _ Hc) as [b Hb]. rewrite Hb in H; simpl in H.
  destruct (was_initialized b) eqn:Hi; simpl in H;
    [simplify_eq; eexists; by split_and!|].
  repeat (case_match; simplify_eq/=); try (eexists; by split_and!).
  all: try (rewrite list_lookup_insert_eq in * by done; done).
Qed.

Lemma de_init_button_frame (id : Button_ID) (w : world) (f : flow Button_return unit)
    (w' : world) :
  length (system_buttons_infos w) = NUM_OF_BUTTONS hdr →
  de_init_button hdr id w = (f, w') →
  ∃ r, f = Return r ∧
       button_module_was_initialized w' = button_module_was_initialized w ∧
       system_buttons_infos w' = system_buttons_infos w ∧
       timers w' = timers w ∧
       isr_handlers w' = isr_handlers w ∧
       (r = BSP_BUTTON_MODULE_WAS_NOT_INIT_ERR ↔ button_module_was_initialized w = false).
Proof.
  intros Hlen H. unfold de_init_button, ESP_error_check in H. unfold_monad.
  destruct (button_module_was_initialized w) eqn:Hm; simpl in H;
    [|simplify_eq; eexists; by split_and!].
  destruct (check_button_ID hdr id) eqn:Hc; simpl in H;
    [|simplify_eq; eexists; by split_and!].
  apply check_button_ID_lt in Hc. rewrite <- Hlen in Hc.
  destruct (lookup_lt_is_Some_2 _ _ Hc) as [b Hb]. rewrite Hb in H; simpl in H.
  repeat (case_match; simplify_eq/=); eexists; by split_and!.
Qed.

Lemma read_button_state_eq (id : Button_ID) (w : world) (b : system_button_info) :
  button_module_was_initialized w = true →
  check_button_ID hdr id = true →
  system_buttons_infos w !! id = Some b →
  read_button_state hdr id w
  = if was_initialized b
    then (Return BSP_BUTTON_OK, with_effect (Stored_state (state b)) w)
    else (Return BSP_BUTTON_WAS_NOT_INITIALIZED_ERR, w).
Proof.
  intros Hm Hc Hb. unfold read_button_state. unfold_monad.
  rewrite Hm; simpl. rewrite Hc; simpl. rewrite Hb; simpl.
  destruct (was_initialized b); simpl; [|done]. by rewrite Hb.
Qed.

Lemma get_num_of_presses_eq (id : Button_ID) (w : world) (b : system_button_info) :
  button_module_was_initialized w = true →
  check_button_ID hdr id = true →
  system_buttons_infos w !! id = Some b →
  get_num_of_presses hdr id w
  = (Return BSP_BUTTON_OK, with_effect (Stored_num_of_presses (num_of_presses b)) w).
Proof.
  intros Hm Hc Hb. unfold get_num_of_presses. unfold_monad.
  rewrite Hm; simpl. rewrite Hc; simpl. by rewrite Hb.
Qed.

Lemma accessors_frame (id : Button_ID) (w : world) (f : flow Button_return unit)
    (w' : world) :
  length (system_buttons_infos w) = NUM_OF_BUTTONS hdr →
  read_button_state hdr id w = (f, w') ∨ get_num_of_presses hdr id w = (f, w') →
  ∃ r, f = Return r ∧
       button_module_was_initialized w' = button_module_was_initialized w ∧
       system_buttons_infos w' = system_buttons_infos w ∧
       timers w' = timers w ∧
       isr_handlers w' = isr_handlers w ∧
       (r = BSP_BUTTON_MODULE_WAS_NOT_INIT_ERR ↔ button_module_was_initialized w = false).
Proof.
  intros Hlen H.
  destruct (button_module_was_initialized w) eqn:Hm.
  2:{ unfold read_button_state, get_num_of_presses in H. unfold_monad.
      rewrite Hm in H. simpl in H. destruct H; simplify_eq; eexists; by split_and!. }
  destruct (check_button_ID hdr id) eqn:Hc.
  2:{ unfold read_button_state, get_num_of_presses in H. unfold_monad.
      rewrite Hm in H. simpl in H. rewrite Hc in H. simpl in H.
      destruct H; simplify_eq; eexists; by split_and!. }
  pose proof Hc as Hlt. apply check_button_ID_lt in Hlt. rewrite <- Hlen in Hlt.
  destruct (lookup_lt_is_Some_2 _ _ Hlt) as [b Hb].
  rewrite (read_button_state_eq id w b), (get_num_of_presses_eq id w b) in H by done.
  destruct H as [H|H]; [destruct (was_initialized b)|];
    simplify_eq; eexists; by split_and!.
Qed.

Lemma same_buttons_except_insert (touched : nat → Prop) (w w' : world) (i : nat)
    (b b1 : system_button_info) :
  system_buttons_infos w !! i = Some b →
  system_buttons_infos w' = <[i := b1]> (system_buttons_infos w) →
  ID b1 = ID b → was_initialized b1 = was_initialized b →
  (¬ touched i → num_of_presses b1 = num_of_presses b) →
  same_buttons_except touched w w'.
Proof.
  intros Hb Hw' Hid Hwi Hn. unfold same_buttons_except. rewrite Hw'.
  split; [by rewrite length_insert|].
  intros j b' Hj. destruct (decide (i = j)) as [<-|Hne].
  - rewrite list_lookup_insert_eq in Hj by (by eapply lookup_lt_Some).
    simplify_eq. by exists b.
  - rewrite list_lookup_insert_ne in Hj by done. by exists b'.
Qed.

Lemma same_buttons_except_refl (touched : nat → Prop) (w w' : world) :
  system_buttons_infos w' = system_buttons_infos w →
  same_buttons_except touched w w'.
Proof.
  intros Hw'. unfold same_buttons_except. rewrite Hw'.
  split; [done|]. intros j b' Hj. by exists b'.
Qed.

(** The edge detector writes to the button whose identifier its argument
    designates, and to no member that registration owns. *)
Lemma generic_button_CB_frame (args : nat) (w : world) (f : flow unit unit)
    (w' : world) :
  generic_button_CB args w = (f, w') →
  f ≠ Undefined →
  button_module_was_initialized w' = button_module_was_initialized w ∧
  isr_handlers w' = isr_handlers w ∧
  same_buttons_except
    (λ j, ∃ b0, system_buttons_infos w !! args = Some b0 ∧ ID b0 = j) w w'.
Proof.
  intros H Hdef. unfold generic_button_CB in H. unfold_monad.
  destruct (system_buttons_infos w !! args) as [b0|] eqn:Hb0; simpl in H;
    [|by simplify_eq].
  destruct (system_buttons_infos w !! ID b0) as [b|] eqn:Hb; simpl in H;
    [|by simplify_eq].
  assert (Hlt : (ID b0 < length (system_buttons_infos w))%nat)
    by (by eapply lookup_lt_Some).
  destruct (debounce b) as [h|] eqn:Hd; simpl in H; [|by simplify_eq].
  destruct (timers w !! h) as [t|] eqn:Ht; simpl in H; [|by simplify_eq].
  destruct (timer_is_active t) eqn:Ha; simpl in H.
  { simplify_eq. split_and!; try done. by apply same_buttons_except_refl. }
  rewrite Hb in H; simpl in H.
  destruct (debounce_timer_expired b) eqn:He; simpl in H.
  2:{ simplify_eq. split_and!; try done. by apply same_buttons_except_refl. }
  rewrite Hb in H; simpl in H.
  repeat (rewrite list_lookup_insert_eq in H by (rewrite ?length_insert; done);
          simpl in H).
  rewrite Hd, Ht in H. simpl in H. simplify_eq. simpl. split_and!; try done.
  rewrite !list_insert_insert_eq.
  eapply same_buttons_except_insert; [exact Hb | done | done | done |].
  intros Hnot. destruct Hnot. by exists b0.
Qed.

Lemma timer_CB_frame (h : TimerHandle_t) (w : world) (f : flow unit unit) (w' : world) :
  timer_CB hdr h w = (f, w') →
  f ≠ Undefined →
  button_module_was_initialized w' = button_module_was_initialized w ∧
  isr_handlers w' = isr_handlers w ∧
  same_buttons_except (λ _, False) w w'.
Proof.
  intros H Hdef. unfold timer_CB in H. unfold_monad.
  destruct h as [n|]; simpl in H; [|by simplify_eq].
  destruct (timers w !! n) as [t|] eqn:Ht; simpl in H; [|by simplify_eq].
  destruct (system_buttons_infos w !! ID_of_timer_name hdr (pcTimerName t))
    as [b|] eqn:Hb; simpl in H; [|by simplify_eq].
  case_bool_decide; simpl in H.
  - rewrite Hb in H; simpl in H.
    destruct (debounce b) as [h0|]; simpl in H; [|by simplify_eq].
    destruct (timers w !! h0); simpl in H; [|by simplify_eq].
    simplify_eq. split_and!; try done. by apply same_buttons_except_refl.
  - rewrite Hb in H; simpl in H. simplify_eq. split_and!; try done.
    by eapply same_buttons_except_insert.
Qed.

Lemma not_initialized_refuses (id : Button_ID) (w : world) :
  button_module_was_initialized w = false →
  init_button hdr id w = (Return BSP_BUTTON_MODULE_WAS_NOT_INIT_ERR, w) ∧
  de_init_button hdr id w = (Return BSP_BUTTON_MODULE_WAS_NOT_INIT_ERR, w) ∧
  read_button_state hdr id w = (Return BSP_BUTTON_MODULE_WAS_NOT_INIT_ERR, w) ∧
  get_num_of_presses hdr id w = (Return BSP_BUTTON_MODULE_WAS_NOT_INIT_ERR, w).
Proof.
  intros Hm.
  unfold init_button, de_init_button, read_button_state, get_num_of_presses.
  unfold_monad. by rewrite Hm.
Qed.

(** [init_BSP_button_module] before the module is initialized: it answers,
    and sets the flag exactly when it answers BSP_BUTTON_OK. *)
Lemma init_BSP_button_module_frame (w : world) (f : flow Button_return unit)
    (w' : world) :
  length (system_buttons_infos w) = NUM_OF_BUTTONS hdr →
  button_module_was_initialized w = false →
  init_BSP_button_module hdr w = (f, w') →
  ∃ r, f = Return r ∧
       length (system_buttons_infos w') = NUM_OF_BUTTONS hdr ∧
       isr_handlers w' = isr_handlers w ∧
       (button_module_was_initialized w' = true ↔ r = BSP_BUTTON_OK) ∧
       (Forall untouched (system_buttons_infos w) →
        Forall untouched (system_buttons_infos w')) ∧
       (Forall (λ t, timer_is_active t = false) (timers w) →
        Forall (λ t, timer_is_active t = false) (timers w')) ∧
       (r ≠ BSP_BUTTON_INVALID_BUTTONS_CONFIG_ERR →
        ∃ w1, check_configurations_sort_and_init hdr w = (Return true, w1) ∧
              system_buttons_infos w' = system_buttons_infos w1).
Proof.
  intros Hlen Hm H. rewrite init_BSP_button_module_eq in H by done.
  destruct (check_configurations_sort_and_init hdr w) as [f1 w1] eqn:Hrun.
  pose proof (check_keeps_untouched w f1 w1 Hlen) as Hfresh.
  destruct (check_configurations_sort_and_init_spec w f1 w1 Hlen Hrun) as [Hbad Hgood].
  destruct (forallb (info_is_valid hdr) (system_buttons_infos w)) eqn:Hvalid.
  2:{ destruct Hbad as [-> ->]; [done|]. simplify_eq.
      eexists; split_and!; try done. rewrite Hm. by split. }
  destruct Hgood as (Hf & Hm1 & Hh & Hl & _ & _ & (new & Hts & Hnew) & _); [done|].
  assert (Hdormant : Forall (λ t, timer_is_active t = false) (timers w) →
                     Forall (λ t, timer_is_active t = false) (timers w1)).
  { intros Hall. rewrite Hts. by apply Forall_app. }
  destruct Hf as [-> | ->].
  - simpl in H. case_bool_decide; simplify_eq; simpl.
    + eexists; split_and!; try done; [congruence | by auto | by eauto].
    + eexists; split_and!; try done; [congruence | | by auto | by eauto].
      rewrite Hm1, Hm. by split.
  - simplify_eq. eexists; split_and!; try done; [congruence | | by auto].
    rewrite Hm1, Hm. by split.
Qed.

Lemma gpio_isr_dispatch_frame (pin : gpio_num_t) (w : world) (f : flow unit unit)
    (w' : world) :
  gpio_isr_dispatch pin w = (f, w') →
  f ≠ Undefined →
  match handler_args pin (isr_handlers w) with
  | None => w' = w
  | Some args =>
      button_module_was_initialized w' = button_module_was_initialized w ∧
      isr_handlers w' = isr_handlers w ∧
      same_buttons_except
        (λ j, ∃ b0, system_buttons_infos w !! args = Some b0 ∧ ID b0 = j) w w'
  end.
Proof.
  intros H Hdef. unfold gpio_isr_dispatch in H.
  unfold bind, gets, call_void, ret in H.
  destruct (handler_args pin (isr_handlers w)) as [args|]; [|by simplify_eq].
  destruct (generic_button_CB args w) as [f1 w1] eqn:Hcb.
  apply generic_button_CB_frame in Hcb.
  - by destruct f1; simplify_eq.
  - by destruct f1; simplify_eq.
Qed.

Lemma timer_expires_frame (h : nat) (w : world) (f : flow unit unit) (w' : world) :
  timer_expires hdr h w = (f, w') →
  f ≠ Undefined →
  button_module_was_initialized w' = button_module_was_initialized w ∧
  isr_handlers w' = isr_handlers w ∧
  same_buttons_except (λ _, False) w w' ∧
  (Forall (λ t, timer_is_active t = false) (timers w) → w' = w).
Proof.
  intros H Hdef. unfold timer_expires in H.
  unfold bind at 1 in H. unfold timer_at in H.
  destruct (timers w !! h) as [t|] eqn:Ht; [|by simplify_eq].
  unfold when in H. destruct (timer_is_active t) eqn:Ha.
  2:{ unfold ret in H. simplify_eq. split_and!; try done.
      by apply same_buttons_except_refl. }
  unfold bind, modify, call_void in H.
  match type of H with
  | context [timer_CB hdr (Some h) ?w0] =>
      destruct (timer_CB hdr (Some h) w0) as [f1 w1] eqn:Hcb
  end.
  apply timer_CB_frame in Hcb; [|by destruct f1; simplify_eq].
  destruct Hcb as (Hm & Hh & Hsame). simpl in Hm, Hh.
  assert (w' = w1) as -> by (by destruct f1; simplify_eq).
  split_and!; try done.
  intros Hall. rewrite Forall_lookup in Hall. specialize (Hall h t Ht).
  simpl in Hall. congruence.
Qed.

(** *** Runs of the module *)

Lemma step_flag (ev : event) (w : world) (r : option Button_return) (w' : world) :
  length (system_buttons_infos w) = NUM_OF_BUTTONS hdr →
  step hdr ev w = Some (r, w') →
  length (system_buttons_infos w') = NUM_OF_BUTTONS hdr ∧
  (button_module_was_initialized w' = true ↔
   button_module_was_initialized w = true ∨
   (ev = Call_init_BSP_button_module ∧ r = Some BSP_BUTTON_OK)).
Proof.
  intros Hlen H. destruct ev as [|id|id|id|id|pin|h|e]; simpl in H.
  - unfold api in H.
    destruct (init_BSP_button_module hdr w) as [f w1] eqn:Hrun.
    destruct (button_module_was_initialized w) eqn:Hm.
    + rewrite init_BSP_button_module_again in Hrun by done. simplify_eq.
      split; [done|]. rewrite Hm. intuition congruence.
    + apply init_BSP_button_module_frame in Hrun as (r0 & -> & Hl & _ & Hflag & _);
        [|done..].
      simplify_eq. split; [done|]. rewrite Hflag. intuition congruence.
  - unfold api in H. destruct (init_button hdr id w) as [f w1] eqn:Hrun.
    pose proof Hrun as Hrun'.
    apply init_button_frame in Hrun as (r0 & -> & Hm & _ & _ & Hsame); [|done].
    simplify_eq. rewrite Hm.
    destruct (decide (r0 = BSP_BUTTON_OK)) as [->|Hne].
    + apply init_button_OK_inv in Hrun' as (_ & _ & b & _ & _ & _ & Ht & _).
      rewrite Ht, length_insert. split; [done|]. intuition congruence.
    + destruct (Hsame Hne) as [Hi _]. rewrite Hi.
      split; [done|]. intuition congruence.
  - unfold api in H. destruct (de_init_button hdr id w) as [f w1] eqn:Hrun.
    apply de_init_button_frame in Hrun as (r0 & -> & Hm & Hi & _); [|done].
    simplify_eq. rewrite Hi, Hm. split; [done|]. intuition congruence.
  - unfold api in H. destruct (read_button_state hdr id w) as [f w1] eqn:Hrun.
    destruct (accessors_frame id w f w1 Hlen (or_introl Hrun)) as (r0 & -> & Hm & Hi & _).
    simplify_eq. rewrite Hi, Hm. split; [done|].
    intuition congruence.
  - unfold api in H. destruct (get_num_of_presses hdr id w) as [f w1] eqn:Hrun.
    destruct (accessors_frame id w f w1 Hlen (or_intror Hrun)) as (r0 & -> & Hm & Hi & _).
    simplify_eq. rewrite Hi, Hm. split; [done|].
    intuition congruence.
  - unfold handler in H. destruct (gpio_isr_dispatch pin w) as [f w1] eqn:Hrun.
    apply gpio_isr_dispatch_frame in Hrun; [|by destruct f].
    assert (w' = w1) as -> by (by destruct f; simplify_eq).
    destruct (handler_args pin (isr_handlers w)).
    + destruct Hrun as (Hm & _ & Hl & _). rewrite Hl, Hm. split; [done|].
      intuition congruence.
    + subst. split; [done|]. intuition congruence.
  - unfold handler in H. destruct (timer_expires hdr h w) as [f w1] eqn:Hrun.
    apply timer_expires_frame in Hrun as (Hm & _ & [Hl _] & _); [|by destruct f].
    assert (w' = w1) as -> by (by destruct f; simplify_eq).
    rewrite Hl, Hm. split; [done|]. intuition congruence.
  - simplify_eq. simpl. split; [done|]. intuition congruence.
Qed.

Lemma exec_flag (evs : list event) (w0 : world)
    (hist : list (event * option Button_return)) (w : world) :
  length (system_buttons_infos w0) = NUM_OF_BUTTONS hdr →
  exec hdr evs w0 = Some (hist, w) →
  length (system_buttons_infos w) = NUM_OF_BUTTONS hdr ∧
  (button_module_was_initialized w = true ↔
   button_module_was_initialized w0 = true ∨
   (Call_init_BSP_button_module, Some BSP_BUTTON_OK) ∈ hist).
Proof.
  revert w0 hist. induction evs as [|ev evs IH]; intros w0 hist Hlen H; simpl in H.
  - simplify_eq. split; [done|]. split; [by auto|].
    intros [?|Hin]; [done | inversion Hin].
  - destruct (step hdr ev w0) as [[r w1]|] eqn:Hstep; [|done].
    destruct (exec hdr evs w1) as [[hist1 w2]|] eqn:Hexec; [|done].
    simplify_eq.
    destruct (step_flag ev w0 r w1 Hlen Hstep) as [Hl1 Hf1].
    destruct (IH w1 hist1 Hl1 Hexec) as [Hl2 Hf2].
    split; [done|]. rewrite Hf2, Hf1, elem_of_cons. split.
    + intros [[?|[-> ->]]|?]; by auto.
    + intros [?|[Heq|?]]; [by auto | | by auto].
      injection Heq as -> ->. by auto.
Qed.

(** C9: in any run from the start of the program, once a call of
    [init_BSP_button_module] has returned BSP_BUTTON_OK a further call
    returns BSP_BUTTON_OK and changes nothing in the world, so it neither
    checks the table, nor installs the service again, nor writes any state;
    and as long as no call of it has returned BSP_BUTTON_OK, each of the
    other four operations returns BSP_BUTTON_MODULE_WAS_NOT_INIT_ERR. *)
Theorem init_BSP_button_module_idempotent (e0 : environment) (evs : list event)
    (hist : list (event * option Button_return)) (w : world) :
  exec hdr evs (boot hdr e0) = Some (hist, w) →
  ((Call_init_BSP_button_module, Some BSP_BUTTON_OK) ∈ hist →
   init_BSP_button_module hdr w = (Return BSP_BUTTON_OK, w)) ∧
  ((Call_init_BSP_button_module, Some BSP_BUTTON_OK) ∉ hist →
   ∀ id,
     init_button hdr id w = (Return BSP_BUTTON_MODULE_WAS_NOT_INIT_ERR, w) ∧
     de_init_button hdr id w = (Return BSP_BUTTON_MODULE_WAS_NOT_INIT_ERR, w) ∧
     read_button_state hdr id w = (Return BSP_BUTTON_MODULE_WAS_NOT_INIT_ERR, w) ∧
     get_num_of_presses hdr id w = (Return BSP_BUTTON_MODULE_WAS_NOT_INIT_ERR, w)).
Proof.
  intros H. apply exec_flag in H as [_ Hflag]; [|apply initial_length].
  simpl in Hflag. split.
  - intros Hin. apply init_BSP_button_module_again, Hflag. by right.
  - intros Hnot id. apply not_initialized_refuses.
    destruct (button_module_was_initialized w); [|done].
    destruct Hflag as [Hflag _]. destruct (Hflag eq_refl); done.
Qed.

Lemma handler_args_elem (pin : gpio_num_t) (hs : list (gpio_num_t * nat)) (args : nat) :
  handler_args pin hs = Some args → ∃ p, (p, args) ∈ hs.
Proof.
  induction hs as [|[p a] hs IH]; simpl; [done|].
  case_bool_decide.
  - intros [= ->]. exists p. left.
  - intros Hrest. destruct (IH Hrest) as [p' Hp']. exists p'. by right.
Qed.

Lemma unregistered_inv_same_buttons (id : Button_ID) (touched : nat → Prop)
    (w w' : world) :
  unregistered_inv hdr id w →
  button_module_was_initialized w' = button_module_was_initialized w →
  isr_handlers w' = isr_handlers w →
  same_buttons_except touched w w' →
  ¬ touched id →
  unregistered_inv hdr id w'.
Proof.
  intros (Hm & Hlen & Hidx & Hun & Hh) Hm' Hh' [Hl Hsame] Hnot.
  unfold unregistered_inv. rewrite Hm', Hh', Hl. split_and!; try done.
  - intros i b' Hb'. destruct (Hsame i b' Hb') as (b & Hb & -> & _).
    by apply Hidx.
  - intros b' Hb'. destruct (Hsame id b' Hb') as (b & Hb & _ & Hwi & Hn).
    destruct (Hun b Hb) as [? ?]. split; [congruence|]. rewrite Hn; done.
Qed.

Lemma unregistered_inv_same (id : Button_ID) (w w' : world) :
  unregistered_inv hdr id w →
  button_module_was_initialized w' = button_module_was_initialized w →
  isr_handlers w' = isr_handlers w →
  system_buttons_infos w' = system_buttons_infos w →
  unregistered_inv hdr id w'.
Proof.
  intros Hinv Hm Hh Hi.
  eapply (unregistered_inv_same_buttons id (λ _, False)); try done.
  - by apply same_buttons_except_refl.
  - tauto.
Qed.

Lemma step_unregistered (id : Button_ID) (ev : event) (w : world)
    (r : option Button_return) (w' : world) :
  (length (BUTTONS_CONFIGURATIONS hdr) ≤ NUM_OF_BUTTONS hdr)%nat →
  uninitialized_inv hdr w ∨ unregistered_inv hdr id w →
  step hdr ev w = Some (r, w') →
  (ev, r) ≠ (Call_init_BSP_button_module, Some BSP_BUTTON_INVALID_BUTTONS_CONFIG_ERR) →
  (ev, r) ≠ (Call_init_button id, Some BSP_BUTTON_OK) →
  uninitialized_inv hdr w' ∨ unregistered_inv hdr id w'.
Proof.
  intros Hle [Hinv|Hinv] H Hnot1 Hnot2.
  - (* the module is not initialized *)
    destruct Hinv as (Hm & Hh & Hlen & Hun & Hdorm & Htable).
    destruct ev as [|id'|id'|id'|id'|pin|h|e]; simpl in H.
    + unfold api in H.
      destruct (init_BSP_button_module hdr w) as [f w1] eqn:Hrun.
      apply init_BSP_button_module_frame in Hrun
        as (r0 & -> & Hl & Hh' & Hflag & Hun' & Hdorm' & Hchk); [|done..].
      simplify_eq.
      destruct Hchk as (w1 & Hrun & Hi); [congruence|].
      assert (Hidx : indexed_by_ID (system_buttons_infos w')).
      { rewrite Hi. eapply check_true_indexed; [exact Hlen | | exact Hrun].
        destruct Htable as [Hinit|Hidx].
        - by destruct (boot_check_true w w1 Hle Hinit Hrun) as (_ & Hnd & _);
            rewrite Hinit.
        - rewrite (indexed_by_ID_seq _ Hidx). apply NoDup_seq. }
      destruct (button_module_was_initialized w') eqn:Hm'.
      * right. split_and!; try done.
        -- intros b Hb. specialize (Hun' Hun). rewrite Forall_lookup in Hun'.
           by eapply Hun'.
        -- rewrite Hh', Hh. constructor.
      * left. split_and!; try done; [congruence | by auto | by auto | by right].
    + unfold api in H. destruct (not_initialized_refuses id' w Hm) as (Hr & _).
      rewrite Hr in H. simplify_eq. left. by split_and!.
    + unfold api in H. destruct (not_initialized_refuses id' w Hm) as (_ & Hr & _).
      rewrite Hr in H. simplify_eq. left. by split_and!.
    + unfold api in H. destruct (not_initialized_refuses id' w Hm) as (_ & _ & Hr & _).
      rewrite Hr in H. simplify_eq. left. by split_and!.
    + unfold api in H. destruct (not_initialized_refuses id' w Hm) as (_ & _ & _ & Hr).
      rewrite Hr in H. simplify_eq. left. by split_and!.
    + unfold handler in H. destruct (gpio_isr_dispatch pin w) as [f w1] eqn:Hrun.
      apply gpio_isr_dispatch_frame in Hrun; [|by destruct f].
      rewrite Hh in Hrun. simpl in Hrun. subst w1.
      assert (w' = w) as -> by (by destruct f; simplify_eq).
      left. by split_and!.
    + unfold handler in H. destruct (timer_expires hdr h w) as [f w1] eqn:Hrun.
      apply timer_expires_frame in Hrun as (_ & _ & _ & Hsame); [|by destruct f].
      rewrite (Hsame Hdorm) in H.
      assert (w' = w) as -> by (by destruct f; simplify_eq).
      left. by split_and!.
    + simplify_eq. left. by split_and!.
  - (* the module is initialized *)
    pose proof Hinv as (Hm & Hlen & Hidx & Hun & Hh).
    destruct ev as [|id'|id'|id'|id'|pin|h|e]; simpl in H.
    + unfold api in H. rewrite init_BSP_button_module_again in H by done.
      simplify_eq. by right.
    + unfold api in H. destruct (init_button hdr id' w) as [f w1] eqn:Hrun.
      pose proof Hrun as Hrun'.
      apply init_button_frame in Hrun as (r0 & -> & Hm' & _ & _ & Hsame); [|done].
      simplify_eq. right.
      destruct (decide (r0 = BSP_BUTTON_OK)) as [->|Hne].
      * assert (id' ≠ id) as Hid by congruence.
        apply init_button_OK_inv in Hrun'
          as (_ & _ & b & Hb & _ & _ & Ht & _ & Hhs).
        unfold unregistered_inv. rewrite Hm', Ht, Hhs, length_insert.
        split_and!; try done.
        -- intros i b' Hb'. destruct (decide (id' = i)) as [<-|Hne].
           ++ rewrite list_lookup_insert_eq in Hb' by (by eapply lookup_lt_Some).
              simplify_eq. simpl. by apply Hidx.
           ++ rewrite list_lookup_insert_ne in Hb' by done. by apply Hidx.
        -- intros b' Hb'. rewrite list_lookup_insert_ne in Hb' by done.
           by apply Hun.
        -- by constructor.
      * destruct (Hsame Hne) as [Hi Hhs]. by eapply unregistered_inv_same.
    + unfold api in H. destruct (de_init_button hdr id' w) as [f w1] eqn:Hrun.
      apply de_init_button_frame in Hrun as (r0 & -> & Hm' & Hi & _ & Hhs & _); [|done].
      simplify_eq. right. by eapply unregistered_inv_same.
    + unfold api in H. destruct (read_button_state hdr id' w) as [f w1] eqn:Hrun.
      destruct (accessors_frame id' w f w1 Hlen (or_introl Hrun))
        as (r0 & -> & Hm' & Hi & _ & Hhs & _).
      simplify_eq. right. by eapply unregistered_inv_same.
    + unfold api in H. destruct (get_num_of_presses hdr id' w) as [f w1] eqn:Hrun.
      destruct (accessors_frame id' w f w1 Hlen (or_intror Hrun))
        as (r0 & -> & Hm' & Hi & _ & Hhs & _).
      simplify_eq. right. by eapply unregistered_inv_same.
    + unfold handler in H. destruct (gpio_isr_dispatch pin w) as [f w1] eqn:Hrun.
      apply gpio_isr_dispatch_frame in Hrun; [|by destruct f].
      assert (w' = w1) as -> by (by destruct f; simplify_eq).
      right. destruct (handler_args pin (isr_handlers w)) as [args|] eqn:Hargs;
        [|by subst].
      destruct Hrun as (Hm' & Hhs & Hsame).
      eapply unregistered_inv_same_buttons; try done.
      intros (b0 & Hb0 & Hid). simpl in Hid.
      apply Hidx in Hb0. apply handler_args_elem in Hargs as [p Hp].
      rewrite Forall_forall in Hh. specialize (Hh _ Hp). simpl in Hh. congruence.
    + unfold handler in H. destruct (timer_expires hdr h w) as [f w1] eqn:Hrun.
      apply timer_expires_frame in Hrun as (Hm' & Hhs & Hsame & _); [|by destruct f].
      assert (w' = w1) as -> by (by destruct f; simplify_eq).
      right. eapply unregistered_inv_same_buttons; try done. tauto.
    + simplify_eq. right. by eapply unregistered_inv_same.
Qed.

Lemma exec_unregistered (id : Button_ID) (evs : list event) (w0 : world)
    (hist : list (event * option Button_return)) (w : world) :
  (length (BUTTONS_CONFIGURATIONS hdr) ≤ NUM_OF_BUTTONS hdr)%nat →
  uninitialized_inv hdr w0 ∨ unregistered_inv hdr id w0 →
  exec hdr evs w0 = Some (hist, w) →
  (Call_init_BSP_button_module, Some BSP_BUTTON_INVALID_BUTTONS_CONFIG_ERR) ∉ hist →
  (Call_init_button id, Some BSP_BUTTON_OK) ∉ hist →
  uninitialized_inv hdr w ∨ unregistered_inv hdr id w.
Proof.
  intros Hle. revert w0 hist.
  induction evs as [|ev evs IH]; intros w0 hist Hinv H Hnot1 Hnot2; simpl in H.
  - by simplify_eq.
  - destruct (step hdr ev w0) as [[r w1]|] eqn:Hstep; [|done].
    destruct (exec hdr evs w1) as [[hist1 w2]|] eqn:Hexec; [|done].
    simplify_eq.
    apply not_elem_of_cons in Hnot1 as [Hne1 Hnot1].
    apply not_elem_of_cons in Hnot2 as [Hne2 Hnot2].
    eapply IH; [|exact Hexec|done|done].
    eapply step_unregistered; [done | exact Hinv | exact Hstep | done | done].
Qed.

Lemma boot_uninitialized_inv (e0 : environment) : uninitialized_inv hdr (boot hdr e0).
Proof.
  split_and!; simpl; try done.
  - apply initial_length.
  - apply initial_untouched.
  - by left.
Qed.

(** C8: in a run from the start of the program in which the configuration
    was never turned down and no registration of [id] has succeeded, once the
    module is initialized and [id] is an identifier of the enumeration,
    [get_num_of_presses] returns BSP_BUTTON_OK and stores 0, while
    [read_button_state] returns BSP_BUTTON_WAS_NOT_INITIALIZED_ERR and
    stores nothing: the world is unchanged. *)
Theorem accessors_of_unregistered_button (e0 : environment) (evs : list event)
    (hist : list (event * option Button_return)) (w : world) (id : Button_ID) :
  (length (BUTTONS_CONFIGURATIONS hdr) ≤ NUM_OF_BUTTONS hdr)%nat →
  exec hdr evs (boot hdr e0) = Some (hist, w) →
  button_module_was_initialized w = true →
  (Call_init_BSP_button_module, Some BSP_BUTTON_INVALID_BUTTONS_CONFIG_ERR) ∉ hist →
  (Call_init_button id, Some BSP_BUTTON_OK) ∉ hist →
  id ∈ (Button_ID_enumerators hdr).*2 →
  get_num_of_presses hdr id w
  = (Return BSP_BUTTON_OK, with_effect (Stored_num_of_presses 0) w) ∧
  read_button_state hdr id w = (Return BSP_BUTTON_WAS_NOT_INITIALIZED_ERR, w).
Proof.
  intros Hle H Hm Hnot1 Hnot2 Hid.
  destruct (exec_unregistered id evs (boot hdr e0) hist w Hle
              (or_introl (boot_uninitialized_inv e0)) H Hnot1 Hnot2)
    as [(Hm' & _)|(_ & Hlen & _ & Hun & _)]; [congruence|].
  pose proof Hid as Hc. apply check_button_ID_enumerator in Hc.
  pose proof Hc as Hlt. apply check_button_ID_lt in Hlt. rewrite <- Hlen in Hlt.
  destruct (lookup_lt_is_Some_2 _ _ Hlt) as [b Hb].
  destruct (Hun b Hb) as [Hwi Hn].
  rewrite (get_num_of_presses_eq id w b), (read_button_state_eq id w b) by done.
  by rewrite Hwi, Hn.
Qed.

(** *** Further properties: the driver calls of registration *)

(** What [init_button] does once its checks are passed. *)
Lemma init_button_runs_calls (id : Button_ID) (w : world) (b : system_button_info) :
  button_module_was_initialized w = true →
  check_button_ID hdr id = true →
  system_buttons_infos w !! id = Some b →
  was_initialized b = false →
  ∃ w',
    init_button hdr id w
    = (Return (if all_succeed (esp_status w) (init_button_calls id b)
               then BSP_BUTTON_OK else BSP_BUTTON_INIT_ERR), w') ∧
    effects w' = driver_record (esp_status w) (init_button_calls id b) ++ effects w ∧
    timers w' = timers w ∧
    button_module_was_initialized w' = true ∧
    (if all_succeed (esp_status w) (init_button_calls id b)
     then system_buttons_infos w'
          = <[id := set_debounce_timer_expired true (set_was_initialized true b)]>
              (system_buttons_infos w) ∧
          isr_handlers w' = (GPIO b, id) :: isr_handlers w
     else system_buttons_infos w' = system_buttons_infos w ∧
          isr_handlers w' = isr_handlers w).
Proof.
  intros Hm Hc Hb Hi.
  assert (Hlt : (id < length (system_buttons_infos w))%nat) by (by eapply lookup_lt_Some).
  unfold init_button, ESP_error_check, all_succeed, driver_record, init_button_calls.
  unfold_monad. simpl.
  rewrite Hm; simpl. rewrite Hc; simpl. rewrite Hb; simpl. rewrite Hi; simpl.
  repeat (rewrite Hb; simpl).
  case_bool_decide as H1; simpl; [|by eexists].
  repeat (rewrite Hb; simpl).
  case_bool_decide as H2; simpl; [|by eexists].
  repeat (rewrite Hb; simpl).
  case_bool_decide as H3; simpl; [|by eexists].
  repeat (rewrite Hb; simpl).
  case_bool_decide as H4; simpl; [|by eexists].
  repeat (rewrite Hb; simpl).
  case_bool_decide as H5; simpl; [|by eexists].
  repeat (rewrite Hb; simpl).
  rewrite list_lookup_insert_eq by done. simpl.
  rewrite list_insert_insert_eq. by eexists.
Qed.

(** X1: [init_button] on a valid identifier that is not registered yet makes
    its five driver calls in order and stops at the first that fails.  It
    returns BSP_BUTTON_OK when the five succeed, BSP_BUTTON_INIT_ERR
    otherwise; on BSP_BUTTON_INIT_ERR no button is written and no handler is
    installed, on BSP_BUTTON_OK the button is marked registered with its
    debounce flag set and the handler is installed on its pin. *)
Theorem init_button_outcome (id : Button_ID) (w : world) (b : system_button_info) :
  button_module_was_initialized w = true →
  check_button_ID hdr id = true →
  system_buttons_infos w !! id = Some b →
  was_initialized b = false →
  ∃ w',
    init_button hdr id w
    = (Return (if all_succeed (esp_status w) (init_button_calls id b)
               then BSP_BUTTON_OK else BSP_BUTTON_INIT_ERR), w') ∧
    effects w' = driver_record (esp_status w) (init_button_calls id b) ++ effects w ∧
    timers w' = timers w ∧
    button_module_was_initialized w' = true ∧
    (if all_succeed (esp_status w) (init_button_calls id b)
     then system_buttons_infos w'
          = <[id := set_debounce_timer_expired true (set_was_initialized true b)]>
              (system_buttons_infos w) ∧
          isr_handlers w' = (GPIO b, id) :: isr_handlers w
     else system_buttons_infos w' = system_buttons_infos w ∧
          isr_handlers w' = isr_handlers w).
Proof. apply init_button_runs_calls. Qed.

(** X2: [de_init_button] on a valid identifier.  A button that is not
    registered gives BSP_BUTTON_WAS_NOT_INITIALIZED_ERR and nothing happens.
    For a registered button the pin is reset, then its interrupt disabled,
    stopping at the first call that fails: BSP_BUTTON_OK when both succeed,
    BSP_BUTTON_DE_INIT_ERR otherwise.  In every case the call writes to no
    button, starts or stops no timer and removes no handler. *)
Theorem de_init_button_outcome (id : Button_ID) (w : world) (b : system_button_info) :
  button_module_was_initialized w = true →
  check_button_ID hdr id = true →
  system_buttons_infos w !! id = Some b →
  ∃ w',
    de_init_button hdr id w
    = (Return (if was_initialized b
               then if all_succeed (esp_status w) (de_init_button_calls b)
                    then BSP_BUTTON_OK else BSP_BUTTON_DE_INIT_ERR
               else BSP_BUTTON_WAS_NOT_INITIALIZED_ERR), w') ∧
    effects w'
    = (if was_initialized b
       then driver_record (esp_status w) (de_init_button_calls b) else [])
      ++ effects w ∧
    system_buttons_infos w' = system_buttons_infos w ∧
    timers w' = timers w ∧
    isr_handlers w' = isr_handlers w ∧
    button_module_was_initialized w' = true.
Proof.
  intros Hm Hc Hb.
  unfold de_init_button, ESP_error_check, all_succeed, driver_record,
    de_init_button_calls.
  unfold_monad. simpl.
  rewrite Hm; simpl. rewrite Hc; simpl. rewrite Hb; simpl.
  destruct (was_initialized b); simpl; [|by eexists].
  repeat (rewrite Hb; simpl).
  case_bool_decide as H1; simpl; [|by eexists].
  repeat (rewrite Hb; simpl).
  case_bool_decide as H2; simpl; by eexists.
Qed.

(** *** Further properties: presses, releases and holds *)

(** The expiry of the running debounce timer of button [id], the timer
    being the one the button holds. *)
Lemma timer_expires_eq (id : Button_ID) (h : nat) (w : world)
    (b : system_button_info) (t : sw_timer) :
  ID_of_timer_name hdr (pcTimerName t) = id →
  system_buttons_infos w !! id = Some b →
  debounce b = Some h →
  timers w !! h = Some t →
  timer_is_active t = true →
  timer_expires hdr h w
  = (Next tt,
     if bool_decide (gpio_level w (GPIO b) = BUTTON_IS_PRESSED hdr)
     then with_effect (TimerStarted h)
            (with_timers (timers w) (free_timers w) w)
     else with_infos (<[id := set_debounce_timer_expired true b]>
                        (system_buttons_infos w))
            (with_timers (<[h := set_timer_active false t]> (timers w))
               (free_timers w) w)).
Proof.
  intros Hid Hb Hd Ht Ha.
  assert (Hlt' : (h < length (timers w))%nat) by (by eapply lookup_lt_Some).
  unfold timer_expires.
  unfold bind at 1. unfold timer_at. rewrite Ht. unfold when. rewrite Ha.
  unfold bind at 1. unfold modify at 1. unfold call_void.
  set (w0 := with_timers _ _ w).
  assert (Ht0 : timers w0 !! h = Some (set_timer_active false t)).
  { subst w0; simpl. by apply list_lookup_insert_eq. }
  rewrite (timer_CB_for id h w0 b (set_timer_active false t) Ht0 Hid Hb).
  subst w0. simpl. case_bool_decide as Hp; simpl; [|done].
  rewrite Hd. unfold_monad. simpl. rewrite list_lookup_insert_eq by done. simpl.
  rewrite list_insert_insert_eq, set_timer_active_again by done.
  by rewrite list_insert_id.
Qed.

Lemma set_timer_active_back (t : sw_timer) :
  timer_is_active t = false →
  set_timer_active false (set_timer_active true t) = t.
Proof. destruct t; simpl; by intros ->. Qed.

(** One press and its release, from the quiescent phase to the quiescent
    phase: the world after them. *)
Lemma press_release_cycle (pin : gpio_num_t) (id : Button_ID) (h : nat) (w : world)
    (b : system_button_info) (t : sw_timer) (at_edge at_expiry : environment) :
  ID_of_timer_name hdr (pcTimerName t) = id →
  handler_args pin (isr_handlers w) = Some id →
  system_buttons_infos w !! id = Some b →
  ID b = id →
  debounce b = Some h →
  timers w !! h = Some t →
  timer_is_active t = false →
  debounce_timer_expired b = true →
  env_gpio_level at_expiry (GPIO b) ≠ BUTTON_IS_PRESSED hdr →
  exec hdr (press_release_cycles pin h [(at_edge, at_expiry)]) w
  = Some ([(Environment_change at_edge, None); (Edge_interrupt pin, None);
           (Environment_change at_expiry, None); (Timer_expiry h, None)],
          with_environment at_expiry
            (with_effect (TimerStarted h)
               (with_effect (button_CB id)
                  (with_infos
                     (<[id := set_num_of_presses (uint64_incr (num_of_presses b))
                                (set_state (env_gpio_level at_edge (GPIO b)) b)]>
                        (system_buttons_infos w)) w)))).
Proof.
  intros Hname Hh Hb Hid Hd Ht Ha He Hrel.
  assert (Hlt : (id < length (system_buttons_infos w))%nat) by (by eapply lookup_lt_Some).
  assert (Hlt' : (h < length (timers w))%nat) by (by eapply lookup_lt_Some).
  simpl. unfold handler at 1. unfold gpio_isr_dispatch. unfold_monad. simpl.
  rewrite Hh.
  rewrite (generic_button_CB_accepts id (with_environment at_edge w) b h t)
    by done.
  simpl. unfold handler.
  erewrite (timer_expires_eq id h _
              (set_num_of_presses (uint64_incr (num_of_presses b))
                 (set_state (env_gpio_level at_edge (GPIO b))
                    (set_debounce_timer_expired false b)))
              (set_timer_active true t)); simpl;
    [ | done | by apply list_lookup_insert_eq | done
      | by apply list_lookup_insert_eq | done ].
  rewrite bool_decide_eq_false_2 by done.
  rewrite !list_insert_insert_eq, set_timer_active_back by done.
  rewrite (list_insert_id (timers w) h t Ht).
  do 3 f_equal. unfold with_environment, with_infos, with_effect, with_timers; simpl.
  do 2 f_equal. by destruct b; simpl in *; subst.
Qed.

Lemma exec_app (evs1 evs2 : list event) (w : world) :
  exec hdr (evs1 ++ evs2) w
  = match exec hdr evs1 w with
    | Some (hist1, w1) =>
        match exec hdr evs2 w1 with
        | Some (hist2, w2) => Some (hist1 ++ hist2, w2)
        | None => None
        end
    | None => None
    end.
Proof.
  revert w. induction evs1 as [|ev evs1 IH]; intros w; simpl.
  - by destruct (exec hdr evs2 w) as [[hist2 w2]|].
  - destruct (step hdr ev w) as [[r w1]|]; [|done]. rewrite IH.
    destruct (exec hdr evs1 w1) as [[hist1 w1']|]; [|done].
    by destruct (exec hdr evs2 w1') as [[hist2 w2]|].
Qed.

Lemma uint64_incr_iter (k : nat) (n : Z) :
  0 ≤ n → n + Z.of_nat k < UINT64_MODULUS →
  Nat.iter k uint64_incr n = n + Z.of_nat k.
Proof.
  induction k as [|k IH]; intros Hn Hk; simpl; [lia|].
  rewrite IH by lia. unfold uint64_incr. rewrite Z.mod_small; lia.
Qed.

Lemma replicate_join_comm {A} (k : nat) (l : list A) :
  mjoin (replicate k l) ++ l = l ++ mjoin (replicate k l).
Proof.
  induction k as [|k IH]; simpl; [by rewrite app_nil_r|].
  by rewrite <- app_assoc, IH.
Qed.

(** Presses and releases of one button: the run and what it leaves. *)
Lemma press_release_cycles_run (pin : gpio_num_t) (id : Button_ID) (h : nat)
    (cycles : list (environment * environment)) (t : sw_timer) :
  ID_of_timer_name hdr (pcTimerName t) = id →
  timer_is_active t = false →
  ∀ (w : world) (b : system_button_info),
    handler_args pin (isr_handlers w) = Some id →
    system_buttons_infos w !! id = Some b →
    ID b = id →
    debounce b = Some h →
    timers w !! h = Some t →
    debounce_timer_expired b = true →
    Forall (λ c, env_gpio_level c.2 (GPIO b) ≠ BUTTON_IS_PRESSED hdr) cycles →
    ∃ hist w' b',
      exec hdr (press_release_cycles pin h cycles) w = Some (hist, w') ∧
      button_module_was_initialized w' = button_module_was_initialized w ∧
      system_buttons_infos w' !! id = Some b' ∧
      num_of_presses b' = Nat.iter (length cycles) uint64_incr (num_of_presses b) ∧
      effects w'
      = mjoin (replicate (length cycles) [TimerStarted h; button_CB id]) ++ effects w ∧
      phase_of id w' = Some Quiescent.
Proof.
  intros Hname Ha.
  induction cycles as [|[at_edge at_expiry] cycles IH];
    intros w b Hh Hb Hid Hd Ht He Hall.
  - exists [], w, b. simpl. split_and!; try done.
    unfold phase_of. rewrite Hb; simpl. rewrite Hd; simpl. rewrite Ht; simpl.
    by rewrite Ha, He.
  - apply Forall_cons in Hall as [Hrel Hall]. simpl in Hrel.
    assert (Hlt : (id < length (system_buttons_infos w))%nat)
      by (by eapply lookup_lt_Some).
    pose proof (press_release_cycle pin id h w b t at_edge at_expiry
                  Hname Hh Hb Hid Hd Ht Ha He Hrel) as Hone.
    set (b1 := set_num_of_presses (uint64_incr (num_of_presses b))
                 (set_state (env_gpio_level at_edge (GPIO b)) b)) in *.
    set (w1 := with_environment at_expiry _) in Hone.
    destruct (IH w1 b1) as (hist & w' & b' & Hrun & Hm & Hb' & Hn & Hes & Hph);
      try done.
    { subst w1; simpl. by apply list_lookup_insert_eq. }
    change (press_release_cycles pin h ((at_edge, at_expiry) :: cycles))
      with (press_release_cycles pin h [(at_edge, at_expiry)]
              ++ press_release_cycles pin h cycles).
    rewrite exec_app, Hone, Hrun.
    eexists _, w', b'. split_and!; try done.
    + rewrite Hn. change (length ((at_edge, at_expiry) :: cycles))
        with (S (length cycles)). by rewrite Nat.iter_succ_r.
    + rewrite Hes. subst w1; simpl.
      change (TimerStarted h :: button_CB id :: effects w)
        with ([TimerStarted h; button_CB id] ++ effects w).
      rewrite (app_assoc _ [TimerStarted h; button_CB id]), replicate_join_comm.
      by rewrite <- app_assoc.
Qed.

(** X3: a registered button in its quiescent phase is pressed and released
    N times: each press is an edge on its pin that opens a debounce window,
    each release is seen by the expiry of the debounce timer, which reads a
    level other than the pressed one.  The run is defined, every press is
    counted once and reported once by [button_CB], and the button is
    quiescent again at the end: the counter has been incremented N times
    (it is [n + N] as long as that fits a [uint64_t]). *)
Theorem press_release_cycles_count (pin : gpio_num_t) (id : Button_ID) (h : nat)
    (cycles : list (environment * environment)) (w : world)
    (b : system_button_info) (t : sw_timer) :
  ID_of_timer_name hdr (pcTimerName t) = id →
  handler_args pin (isr_handlers w) = Some id →
  system_buttons_infos w !! id = Some b →
  ID b = id →
  debounce b = Some h →
  timers w !! h = Some t →
  timer_is_active t = false →
  debounce_timer_expired b = true →
  Forall (λ c, env_gpio_level c.2 (GPIO b) ≠ BUTTON_IS_PRESSED hdr) cycles →
  ∃ hist w' b',
    exec hdr (press_release_cycles pin h cycles) w = Some (hist, w') ∧
    system_buttons_infos w' !! id = Some b' ∧
    num_of_presses b' = Nat.iter (length cycles) uint64_incr (num_of_presses b) ∧
    (0 ≤ num_of_presses b →
     num_of_presses b + Z.of_nat (length cycles) < UINT64_MODULUS →
     num_of_presses b' = num_of_presses b + Z.of_nat (length cycles)) ∧
    effects w'
    = mjoin (replicate (length cycles) [TimerStarted h; button_CB id]) ++ effects w ∧
    phase_of id w' = Some Quiescent.
Proof.
  intros Hname Hh Hb Hid Hd Ht Ha He Hall.
  destruct (press_release_cycles_run pin id h cycles t Hname Ha w b
              Hh Hb Hid Hd Ht He Hall)
    as (hist & w' & b' & ? & _ & ? & Hn & ? & ?).
  exists hist, w', b'. split_and!; try done.
  intros ? ?. rewrite Hn. by apply uint64_incr_iter.
Qed.

(** X4: [read_button_state] reports the level sampled when the press was
    accepted, not the present one: after a press and its release the value
    stored is still the level the pin had at the edge, and
    [get_num_of_presses] stores the incremented counter. *)
Theorem accessors_after_release (pin : gpio_num_t) (id : Button_ID) (h : nat)
    (w : world) (b : system_button_info) (t : sw_timer)
    (at_edge at_expiry : environment) :
  button_module_was_initialized w = true →
  check_button_ID hdr id = true →
  was_initialized b = true →
  ID_of_timer_name hdr (pcTimerName t) = id →
  handler_args pin (isr_handlers w) = Some id →
  system_buttons_infos w !! id = Some b →
  ID b = id →
  debounce b = Some h →
  timers w !! h = Some t →
  timer_is_active t = false →
  debounce_timer_expired b = true →
  env_gpio_level at_expiry (GPIO b) ≠ BUTTON_IS_PRESSED hdr →
  ∃ hist w',
    exec hdr (press_release_cycles pin h [(at_edge, at_expiry)]) w
    = Some (hist, w') ∧
    read_button_state hdr id w'
    = (Return BSP_BUTTON_OK,
       with_effect (Stored_state (env_gpio_level at_edge (GPIO b))) w') ∧
    get_num_of_presses hdr id w'
    = (Return BSP_BUTTON_OK,
       with_effect (Stored_num_of_presses (uint64_incr (num_of_presses b))) w').
Proof.
  intros Hm Hc Hwi Hname Hh Hb Hid Hd Ht Ha He Hrel.
  assert (Hlt : (id < length (system_buttons_infos w))%nat)
    by (by eapply lookup_lt_Some).
  eexists _, _. split.
  { by apply (press_release_cycle pin id h w b t at_edge at_expiry). }
  set (b1 := set_num_of_presses (uint64_incr (num_of_presses b))
               (set_state (env_gpio_level at_edge (GPIO b)) b)).
  split.
  - rewrite (read_button_state_eq id _ b1); simpl;
      [by rewrite Hwi | done | done | by apply list_lookup_insert_eq].
  - rewrite (get_num_of_presses_eq id _ b1); simpl;
      [done | done | done | by apply list_lookup_insert_eq].
Qed.

(** One expiry that finds the button still pressed, and one more edge. *)
Lemma held_round (pin : gpio_num_t) (id : Button_ID) (h : nat) (w : world)
    (b : system_button_info) (t : sw_timer) (at_expiry at_edge : environment) :
  ID_of_timer_name hdr (pcTimerName t) = id →
  handler_args pin (isr_handlers w) = Some id →
  system_buttons_infos w !! id = Some b →
  ID b = id →
  debounce b = Some h →
  timers w !! h = Some t →
  timer_is_active t = true →
  env_gpio_level at_expiry (GPIO b) = BUTTON_IS_PRESSED hdr →
  exec hdr (held_rounds pin h [(at_expiry, at_edge)]) w
  = Some ([(Environment_change at_expiry, None); (Timer_expiry h, None);
           (Environment_change at_edge, None); (Edge_interrupt pin, None)],
          with_environment at_edge (with_effect (TimerStarted h) w)).
Proof.
  intros Hname Hh Hb Hid Hd Ht Ha Hp.
  simpl. unfold handler at 1.
  rewrite (timer_expires_eq id h (with_environment at_expiry w) b t) by done.
  simpl. rewrite bool_decide_eq_true_2 by done.
  unfold handler, gpio_isr_dispatch. unfold_monad. simpl. rewrite Hh.
  erewrite (generic_button_CB_ignores id id _ b b h t); simpl; try done.
  by left.
Qed.

(** X5: while a button is held down, every expiry of its debounce timer
    reads the pressed level and starts the timer again, and the edges that
    come in between are ignored: over any number of such rounds no button is
    written, [button_CB] is not called, no press is counted, and the timer
    is running at the end. *)
Theorem held_button_is_not_counted_again (pin : gpio_num_t) (id : Button_ID)
    (h : nat) (rounds : list (environment * environment)) (w : world)
    (b : system_button_info) (t : sw_timer) :
  ID_of_timer_name hdr (pcTimerName t) = id →
  handler_args pin (isr_handlers w) = Some id →
  system_buttons_infos w !! id = Some b →
  ID b = id →
  debounce b = Some h →
  timers w !! h = Some t →
  timer_is_active t = true →
  Forall (λ r, env_gpio_level r.1 (GPIO b) = BUTTON_IS_PRESSED hdr) rounds →
  ∃ hist w',
    exec hdr (held_rounds pin h rounds) w = Some (hist, w') ∧
    system_buttons_infos w' = system_buttons_infos w ∧
    timers w' = timers w ∧
    isr_handlers w' = isr_handlers w ∧
    effects w' = replicate (length rounds) (TimerStarted h) ++ effects w.
Proof.
  intros Hname Hh Hb Hid Hd Ht Ha Hall. revert w Hh Hb Ht.
  induction rounds as [|[at_expiry at_edge] rounds IH]; intros w Hh Hb Ht.
  - by exists [], w.
  - apply Forall_cons in Hall as [Hp Hall]. simpl in Hp.
    pose proof (held_round pin id h w b t at_expiry at_edge
                  Hname Hh Hb Hid Hd Ht Ha Hp) as Hone.
    destruct (IH Hall (with_environment at_edge (with_effect (TimerStarted h) w)))
      as (hist & w' & Hrun & Hi & Hts & Hhs & Hes); try done.
    change (held_rounds pin h ((at_expiry, at_edge) :: rounds))
      with (held_rounds pin h [(at_expiry, at_edge)] ++ held_rounds pin h rounds).
    rewrite exec_app, Hone, Hrun. simpl in *.
    eexists _, w'. split_and!; try done.
    rewrite Hes. clear.
    induction (length rounds) as [|k IHk]; simpl; [done | by rewrite IHk].
Qed.

(** *** Further properties: the timers of the table *)

(** The second loop when every index has its case: it ends when the kernel
    can hold one more timer per index and gives up otherwise. *)
Lemma copy_and_init_budget (indices : list nat)
    (buttons_info : list system_button_info) (w : world) :
  (∀ i, i ∈ indices →
     (i < length buttons_info)%nat ∧ (i < length (system_buttons_infos w))%nat) →
  (∀ i, i ∈ indices → is_Some (config_of hdr i)) →
  ∃ w', copy_and_init hdr indices buttons_info w
        = (if decide (length indices ≤ free_timers w)%nat
           then Next tt else Return false, w').
Proof.
  revert w. induction indices as [|i rest IH]; intros w Hin Hcfg.
  - eexists. unfold copy_and_init, ret. case_decide; [done | simpl in *; lia].
  - destruct (Hin i) as [Hlt1 Hlt2]; [left|].
    destruct (lookup_lt_is_Some_2 _ _ Hlt1) as [b Hb].
    destruct (Hcfg i) as [c Hc]; [left|].
    simpl. rewrite Hb. rewrite bind_assoc.
    unfold bind at 1. rewrite copy_and_init_turn by done. rewrite Hc.
    destruct (free_timers w) as [|n] eqn:Hn.
    { eexists. case_decide; [simpl in *; lia | done]. }
    match goal with
    | |- context [copy_and_init hdr rest buttons_info ?w0] =>
        destruct (IH w0) as [w' Hrun]
    end.
    + intros j Hj. destruct (Hin j) as [? ?]; [by right|].
      split; [done|]. simpl. by rewrite length_insert.
    + intros j Hj. apply Hcfg. by right.
    + exists w'. rewrite Hrun. simpl.
      repeat case_decide; simpl in *; try done; lia.
Qed.

(** The second loop when it ends: the [k]-th index it visits receives the
    [k]-th timer created, which is the one its case describes. *)
Lemma copy_and_init_handles (indices : list nat)
    (buttons_info : list system_button_info) :
  NoDup indices →
  ∀ (w w' : world),
    (∀ i, i ∈ indices →
       (i < length buttons_info)%nat ∧ (i < length (system_buttons_infos w))%nat) →
    copy_and_init hdr indices buttons_info w = (Next tt, w') →
    length (timers w') = (length (timers w) + length indices)%nat ∧
    (∀ j t, timers w !! j = Some t → timers w' !! j = Some t) ∧
    ∀ k i, indices !! k = Some i →
      ∃ c b, config_of hdr i = Some c ∧
             buttons_info !! i = Some b ∧
             system_buttons_infos w' !! i
             = Some (set_debounce (Some (length (timers w) + k)%nat) b) ∧
             timers w' !! (length (timers w) + k)%nat = Some (debounce_timer_of hdr c).
Proof.
  induction indices as [|i rest IH]; intros Hnd w w' Hin Hrun.
  - simpl in Hrun. unfold ret in Hrun. simplify_eq. simpl.
    split_and!; [lia | done | intros k i Hk; by rewrite lookup_nil in Hk].
  - apply NoDup_cons in Hnd as [Hi Hnd].
    destruct (Hin i) as [Hlt1 Hlt2]; [left|].
    destruct (lookup_lt_is_Some_2 _ _ Hlt1) as [b Hb].
    simpl in Hrun. rewrite Hb in Hrun. rewrite bind_assoc in Hrun.
    unfold bind at 1 in Hrun. rewrite copy_and_init_turn in Hrun by done.
    destruct (config_of hdr i) as [c|] eqn:Hc; [|by simplify_eq].
    destruct (free_timers w) as [|n] eqn:Hn; [by simplify_eq|].
    match type of Hrun with
    | copy_and_init _ _ _ ?w0 = _ => set (w1 := w0) in *
    end.
    assert (Hin1 : ∀ j, j ∈ rest →
              (j < length buttons_info)%nat
              ∧ (j < length (system_buttons_infos w1))%nat).
    { intros j Hj. destruct (Hin j) as [? ?]; [by right|].
      split; [done|]. subst w1; simpl. by rewrite length_insert. }
    destruct (IH Hnd w1 w' Hin1 Hrun) as (Hlen & Hkeep & Hall).
    destruct (copy_and_init_spec rest buttons_info Hnd w1 _ w' Hin1 Hrun)
      as (_ & _ & _ & _ & _ & _ & _ & Hout & _).
    assert (Hts1 : timers w1 = timers w ++ [debounce_timer_of hdr c]) by done.
    assert (Hl1 : length (timers w1) = S (length (timers w)))
      by (rewrite Hts1, length_app; simpl; lia).
    split_and!.
    + rewrite Hlen, Hl1. simpl. lia.
    + intros j t Hj. apply Hkeep. rewrite Hts1. by apply lookup_app_l_Some.
    + intros k j Hk. destruct k as [|k]; simpl in Hk.
      * simplify_eq. exists c, b. rewrite Nat.add_0_r. split_and!; try done.
        -- rewrite (Hout j Hi). subst w1; simpl. by apply list_lookup_insert_eq.
        -- apply Hkeep. rewrite Hts1. apply list_lookup_middle. done.
      * destruct (Hall k j Hk) as (c' & b' & ? & ? & Hb' & Ht').
        rewrite Hl1 in Hb', Ht'.
        replace (length (timers w) + S k)%nat with (S (length (timers w)) + k)%nat
          by lia.
        by exists c', b'.
Qed.

Lemma check_outcome (w : world) :
  length (system_buttons_infos w) = NUM_OF_BUTTONS hdr →
  forallb (info_is_valid hdr) (system_buttons_infos w) = true →
  (∀ i, (i < NUM_OF_BUTTONS hdr)%nat → is_Some (config_of hdr i)) →
  ∃ w', check_configurations_sort_and_init hdr w
        = (Return (bool_decide (NUM_OF_BUTTONS hdr ≤ free_timers w)%nat), w').
Proof.
  intros Hlen Hvalid Hcover. unfold check_configurations_sort_and_init.
  pose proof (check_and_sort_eq (system_buttons_infos w) 0
                (replicate (NUM_OF_BUTTONS hdr) zero_button_info) w
                (λ j b Hj, Hj)) as Hfirst.
  rewrite Hlen, Hvalid in Hfirst.
  unfold bind at 1. rewrite Hfirst. unfold bind at 1.
  destruct (copy_and_init_budget (seq 0 (NUM_OF_BUTTONS hdr))
              (sorted_by_ID (system_buttons_infos w)
                 (replicate (NUM_OF_BUTTONS hdr) zero_button_info)) w)
    as [w' Hrun].
  - intros i Hi. apply elem_of_seq in Hi.
    rewrite sorted_by_ID_length, length_replicate. lia.
  - intros i Hi. apply elem_of_seq in Hi. apply Hcover. lia.
  - rewrite Hrun, length_seq. exists w'.
    unfold return_. clear Hrun.
    case_decide; [by rewrite bool_decide_eq_true_2 | by rewrite bool_decide_eq_false_2].
Qed.

Lemma check_handles (w w' : world) :
  length (system_buttons_infos w) = NUM_OF_BUTTONS hdr →
  check_configurations_sort_and_init hdr w = (Return true, w') →
  length (timers w') = (length (timers w) + NUM_OF_BUTTONS hdr)%nat ∧
  (∀ j t, timers w !! j = Some t → timers w' !! j = Some t) ∧
  ∀ i, (i < NUM_OF_BUTTONS hdr)%nat →
    ∃ c b, config_of hdr i = Some c ∧
           sorted_by_ID (system_buttons_infos w)
             (replicate (NUM_OF_BUTTONS hdr) zero_button_info) !! i = Some b ∧
           system_buttons_infos w' !! i
           = Some (set_debounce (Some (length (timers w) + i)%nat) b) ∧
           timers w' !! (length (timers w) + i)%nat = Some (debounce_timer_of hdr c).
Proof.
  intros Hlen Hrun. unfold check_configurations_sort_and_init in Hrun.
  unfold bind at 1 in Hrun. rewrite <- Hlen in Hrun at 1.
  rewrite (check_and_sort_eq (system_buttons_infos w) 0) in Hrun by done.
  destruct (forallb (info_is_valid hdr) (system_buttons_infos w)); [|by simplify_eq].
  unfold bind at 1 in Hrun.
  destruct (copy_and_init hdr (seq 0 (NUM_OF_BUTTONS hdr))
              (sorted_by_ID (system_buttons_infos w)
                 (replicate (NUM_OF_BUTTONS hdr) zero_button_info)) w)
    as [f1 w1] eqn:Hloop.
  assert (Hrange : ∀ i, i ∈ seq 0 (NUM_OF_BUTTONS hdr) →
            (i < length (sorted_by_ID (system_buttons_infos w)
                           (replicate (NUM_OF_BUTTONS hdr) zero_button_info)))%nat
            ∧ (i < length (system_buttons_infos w))%nat).
  { intros i Hi. apply elem_of_seq in Hi.
    rewrite sorted_by_ID_length, length_replicate. lia. }
  destruct (copy_and_init_spec _ _ (NoDup_seq 0 (NUM_OF_BUTTONS hdr)) w f1 w1
              Hrange Hloop) as ([-> | ->] & _); unfold return_ in Hrun; simplify_eq.
  apply copy_and_init_handles in Hloop as (Hl & Hkeep & Hall);
    [|apply NoDup_seq | done].
  rewrite length_seq in Hl. split_and!; try done.
  intros i Hi. apply (Hall i i). by apply lookup_seq.
Qed.

Lemma config_of_declared (c : button_config) :
  NoDup (BUTTON_ID <$> BUTTONS_CONFIGURATIONS hdr) →
  c ∈ BUTTONS_CONFIGURATIONS hdr →
  config_of hdr (BUTTON_ID c) = Some c.
Proof.
  unfold config_of. induction (BUTTONS_CONFIGURATIONS hdr) as [|c' cs IH]; simpl.
  - intros _ Hc. inversion Hc.
  - intros Hnd Hc. apply NoDup_cons in Hnd as [Hnot Hnd].
    destruct (decide (BUTTON_ID c = BUTTON_ID c')) as [Heq|Hne].
    + apply elem_of_cons in Hc as [->|Hc]; [done|].
      destruct Hnot. rewrite <- Heq. by apply list_elem_of_fmap_2.
    + apply elem_of_cons in Hc as [->|Hc]; [done | by apply IH].
Qed.

(** A valid configuration with one line per enumerator passes the first
    loop and gives every index of the second loop its case. *)
Lemma valid_configuration_table :
  configuration_is_valid hdr →
  length (BUTTONS_CONFIGURATIONS hdr) = NUM_OF_BUTTONS hdr →
  forallb (info_is_valid hdr) (initial_system_buttons_infos hdr) = true ∧
  ∀ i, (i < NUM_OF_BUTTONS hdr)%nat → is_Some (config_of hdr i).
Proof.
  intros [Hnd Hpass] Hlen. split.
  - rewrite initial_exact by done. apply forallb_forall. intros b Hb.
    apply list_elem_of_In, list_elem_of_fmap in Hb as (c & -> & Hc).
    destruct (Hpass c Hc) as (Hid & Hg & Hp).
    unfold info_is_valid. simpl. rewrite Hg, Hp.
    apply check_button_ID_enumerator in Hid. by rewrite Hid.
  - intros i Hi. apply config_of_is_Some.
    assert (Hperm : seq 0 (NUM_OF_BUTTONS hdr)
                    ≡ₚ BUTTON_ID <$> BUTTONS_CONFIGURATIONS hdr).
    { apply NoDup_below_Permutation; [done | | by rewrite length_fmap].
      intros j Hj. apply list_elem_of_fmap in Hj as (c & -> & Hc).
      destruct (Hpass c Hc) as (Hid & _).
      by apply check_button_ID_lt, check_button_ID_enumerator. }
    rewrite <- Hperm. apply elem_of_seq. lia.
Qed.

(** The world a call of [init_BSP_button_module] starts from matters only
    through its table, its timers and its environment: the facts a first
    call establishes, gathered for the theorems below. *)
Lemma first_call_facts (e : environment) :
  (length (BUTTONS_CONFIGURATIONS hdr) ≤ NUM_OF_BUTTONS hdr)%nat →
  ∃ f w1,
    check_configurations_sort_and_init hdr (boot hdr e) = (Return f, w1) ∧
    esp_status w1 = env_esp_status e ∧
    isr_handlers w1 = [] ∧
    (f = true ↔
     configuration_is_valid hdr ∧
     length (BUTTONS_CONFIGURATIONS hdr) = NUM_OF_BUTTONS hdr ∧
     (NUM_OF_BUTTONS hdr ≤ env_free_timers e)%nat).
Proof.
  intros Hle.
  destruct (check_configurations_sort_and_init hdr (boot hdr e)) as [f w1] eqn:Hrun.
  destruct (check_configurations_sort_and_init_spec (boot hdr e) f w1
              initial_length Hrun) as [Hbad Hgood].
  simpl in Hbad, Hgood.
  assert (Hfwd : configuration_is_valid hdr →
                 length (BUTTONS_CONFIGURATIONS hdr) = NUM_OF_BUTTONS hdr →
                 f = Return (bool_decide (NUM_OF_BUTTONS hdr ≤ env_free_timers e)%nat)).
  { intros Hcfg Hlen.
    destruct (valid_configuration_table Hcfg Hlen) as [Hvalid Hcover].
    destruct (check_outcome (boot hdr e) initial_length Hvalid Hcover) as [w2 Hrun2].
    rewrite Hrun in Hrun2. by simplify_eq. }
  destruct (forallb (info_is_valid hdr) (initial_system_buttons_infos hdr)) eqn:Hvalid.
  2:{ destruct Hbad as [-> ->]; [done|]. exists false, (boot hdr e).
      split_and!; try done. split; [done|]. intros (Hcfg & Hlen & _).
      by destruct (valid_configuration_table Hcfg Hlen) as [Hv _]; congruence. }
  destruct Hgood as (Hf & _ & Hh & _ & _ & Hst & _ & _ & Hok); [done|].
  destruct Hf as [-> | ->].
  - exists true, w1. split_and!; try done. split; [intros _ | done].
    destruct (boot_check_true (boot hdr e) w1 Hle eq_refl Hrun) as (Hcfg & _ & _ & _).
    assert (Hlen : length (BUTTONS_CONFIGURATIONS hdr) = NUM_OF_BUTTONS hdr).
    { assert (Hperm : seq 0 (NUM_OF_BUTTONS hdr)
                      ≡ₚ BUTTON_ID <$> BUTTONS_CONFIGURATIONS hdr).
      { apply cover_Permutation; [|by rewrite length_fmap].
        intros i Hi. destruct (Hok eq_refl i Hi) as [[c Hc] _].
        apply config_of_Some in Hc as [Hc <-]. by apply list_elem_of_fmap_2. }
      apply Permutation_length in Hperm.
      by rewrite length_seq, length_fmap in Hperm. }
    split_and!; try done.
    specialize (Hfwd Hcfg Hlen). injection Hfwd as Hbd.
    symmetry in Hbd. by apply bool_decide_eq_true_1 in Hbd.
  - exists false, w1. split_and!; try done. split; [done|].
    intros (Hcfg & Hlen & Hfree). specialize (Hfwd Hcfg Hlen).
    rewrite bool_decide_eq_true_2 in Hfwd by done. discriminate Hfwd.
Qed.

(** X6: the first call of [init_BSP_button_module], on the table as
    declared.  It returns BSP_BUTTON_OK exactly when the configuration is
    valid, has one line per enumerator, the kernel can hold one more timer
    per button and the interrupt service installs; it returns
    BSP_BUTTON_INIT_ERR exactly when only the installation fails; in every
    other case, a shortage of timers included, it returns
    BSP_BUTTON_INVALID_BUTTONS_CONFIG_ERR.  The module flag is set exactly
    on BSP_BUTTON_OK. *)
Theorem init_BSP_button_module_first_call (e : environment) :
  (length (BUTTONS_CONFIGURATIONS hdr) ≤ NUM_OF_BUTTONS hdr)%nat →
  ∃ r w',
    init_BSP_button_module hdr (boot hdr e) = (Return r, w') ∧
    (r = BSP_BUTTON_OK ↔
     configuration_is_valid hdr ∧
     length (BUTTONS_CONFIGURATIONS hdr) = NUM_OF_BUTTONS hdr ∧
     (NUM_OF_BUTTONS hdr ≤ env_free_timers e)%nat ∧
     env_esp_status e (gpio_install_isr_service 0) = ESP_OK) ∧
    (r = BSP_BUTTON_INIT_ERR ↔
     configuration_is_valid hdr ∧
     length (BUTTONS_CONFIGURATIONS hdr) = NUM_OF_BUTTONS hdr ∧
     (NUM_OF_BUTTONS hdr ≤ env_free_timers e)%nat ∧
     env_esp_status e (gpio_install_isr_service 0) ≠ ESP_OK) ∧
    (r = BSP_BUTTON_INVALID_BUTTONS_CONFIG_ERR ↔
     ¬ (configuration_is_valid hdr ∧
        length (BUTTONS_CONFIGURATIONS hdr) = NUM_OF_BUTTONS hdr ∧
        (NUM_OF_BUTTONS hdr ≤ env_free_timers e)%nat)) ∧
    (button_module_was_initialized w' = true ↔ r = BSP_BUTTON_OK).
Proof.
  intros Hle. rewrite init_BSP_button_module_eq by done.
  destruct (first_call_facts e Hle) as (f & w1 & Hrun & Hst & _ & Hf).
  destruct (check_configurations_sort_and_init_spec (boot hdr e) _ w1
              initial_length Hrun) as [Hbad Hgood].
  assert (Hm1 : button_module_was_initialized w1 = false).
  { destruct (forallb (info_is_valid hdr) (system_buttons_infos (boot hdr e))).
    - by destruct Hgood as (_ & -> & _).
    - by destruct Hbad as [_ ->]. }
  rewrite Hrun. destruct f; simpl.
  - destruct Hf as [Hf _]. specialize (Hf eq_refl). rewrite Hst.
    case_bool_decide as Hi; eexists _, _; (split; [done|]); simpl;
      intuition congruence.
  - eexists _, _. split; [done|]. rewrite Hm1. intuition congruence.
Qed.

(** After a successful first call every declared button is at the position
    of its identifier and holds the timer of that number, which is the one
    its configuration line describes. *)
Lemma first_call_world (e : environment) (w' : world) :
  (length (BUTTONS_CONFIGURATIONS hdr) ≤ NUM_OF_BUTTONS hdr)%nat →
  init_BSP_button_module hdr (boot hdr e) = (Return BSP_BUTTON_OK, w') →
  button_module_was_initialized w' = true ∧
  isr_handlers w' = [] ∧
  esp_status w' = env_esp_status e ∧
  length (system_buttons_infos w') = NUM_OF_BUTTONS hdr ∧
  length (timers w') = NUM_OF_BUTTONS hdr ∧
  ∀ c, c ∈ BUTTONS_CONFIGURATIONS hdr →
    (BUTTON_ID c < NUM_OF_BUTTONS hdr)%nat ∧
    system_buttons_infos w' !! BUTTON_ID c
    = Some (set_debounce (Some (BUTTON_ID c)) (declared_info hdr c)) ∧
    timers w' !! BUTTON_ID c = Some (debounce_timer_of hdr c).
Proof.
  intros Hle H. rewrite init_BSP_button_module_eq in H by done.
  destruct (first_call_facts e Hle) as (f & w1 & Hrun & Hst & Hh & _).
  rewrite Hrun in H. destruct f; [|by simplify_eq].
  simpl in H. case_bool_decide; simplify_eq. simpl.
  destruct (boot_check_true (boot hdr e) w1 Hle eq_refl Hrun)
    as ((Hnd & Hpass) & _ & Hlen & Hpos).
  destruct (check_handles (boot hdr e) w1 initial_length Hrun)
    as (Hl & _ & Hall).
  simpl in Hl, Hall. split_and!; try done.
  intros c Hc. destruct (Hpass c Hc) as (Hid & _).
  apply check_button_ID_enumerator, check_button_ID_lt in Hid.
  destruct (Hall _ Hid) as (c' & b & Hc' & _ & Hb & Ht).
  rewrite (config_of_declared c Hnd Hc) in Hc'. simplify_eq.
  destruct (Hpos c' Hc) as [h Hh'].
  split_and!; try done.
  rewrite Hh'. rewrite Hh' in Hb.
  assert (Heq : Some h = Some (BUTTON_ID c'))
    by exact (f_equal (λ o : option system_button_info,
                         match o with Some x => debounce x | None => None end) Hb).
  by simplify_eq.
Qed.

(** X7: after the first call of [init_BSP_button_module] has returned
    BSP_BUTTON_OK, the table has one element per enumerator, the kernel
    holds one timer per button and no handler is installed; the button of
    every configuration line sits at the position of its identifier, not
    registered, and its debounce handle designates the timer of that number:
    a dormant timer named by the spelling of the identifier in the line.
    When the tick period is within 1 .. 2^32 - 1 and the [BOUNCE_TIME] of
    the line within 0 .. 2^32 - 1, the ranges in which the division of
    [TickType_t] neither wraps nor is undefined, the period of that timer is
    the integer quotient [BOUNCE_TIME / portTICK_PERIOD_MS]. *)
Theorem first_call_table_and_timers (e : environment) (w' : world) :
  (length (BUTTONS_CONFIGURATIONS hdr) ≤ NUM_OF_BUTTONS hdr)%nat →
  init_BSP_button_module hdr (boot hdr e) = (Return BSP_BUTTON_OK, w') →
  length (system_buttons_infos w') = NUM_OF_BUTTONS hdr ∧
  length (timers w') = NUM_OF_BUTTONS hdr ∧
  isr_handlers w' = [] ∧
  ∀ c, c ∈ BUTTONS_CONFIGURATIONS hdr →
    system_buttons_infos w' !! BUTTON_ID c
    = Some (set_debounce (Some (BUTTON_ID c)) (declared_info hdr c)) ∧
    ∃ t, timers w' !! BUTTON_ID c = Some t ∧
         pcTimerName t = BUTTON_ID_token c ∧
         timer_is_active t = false ∧
         (0 < portTICK_PERIOD_MS hdr < TICKTYPE_MODULUS →
          0 ≤ BOUNCE_TIME c < TICKTYPE_MODULUS →
          xTimerPeriodInTicks t = BOUNCE_TIME c / portTICK_PERIOD_MS hdr).
Proof.
  intros Hle H.
  destruct (first_call_world e w' Hle H) as (_ & Hh & _ & Hl & Hlt & Hall).
  split_and!; try done. intros c Hc. destruct (Hall c Hc) as (_ & Hb & Ht).
  split; [done|]. exists (debounce_timer_of hdr c). split_and!; try done.
  intros Htick Hbounce. simpl. unfold ticks_of_BOUNCE_TIME.
  by rewrite !Z.mod_small by lia.
Qed.

(** *** Further properties: a button from the start of the program *)

(** X8: the whole life of a button.  On a board whose configuration is
    valid, has one line per enumerator and spells each identifier by its
    enumerator, with every driver call succeeding and room for the timers:
    the module is initialized, the button of a configuration line is
    registered, and it is pressed and released N times (N within a
    [uint64_t]).  Both calls return BSP_BUTTON_OK, the run is defined, and
    [get_num_of_presses] then returns BSP_BUTTON_OK and stores N. *)
Theorem presses_counted_from_boot (e0 : environment) (c : button_config)
    (cycles : list (environment * environment)) :
  configuration_is_valid hdr →
  length (BUTTONS_CONFIGURATIONS hdr) = NUM_OF_BUTTONS hdr →
  NoDup (BUTTONS hdr) →
  c ∈ BUTTONS_CONFIGURATIONS hdr →
  BUTTONS hdr !! BUTTON_ID c = Some (BUTTON_ID_token c) →
  (NUM_OF_BUTTONS hdr ≤ env_free_timers e0)%nat →
  (∀ call, env_esp_status e0 call = ESP_OK) →
  Forall (λ cy, env_gpio_level cy.2 (BUTTON_GPIO_ID c) ≠ BUTTON_IS_PRESSED hdr)
    cycles →
  Z.of_nat (length cycles) < UINT64_MODULUS →
  ∃ hist w',
    exec hdr
      (Call_init_BSP_button_module :: Call_init_button (BUTTON_ID c)
         :: press_release_cycles (BUTTON_GPIO_ID c) (BUTTON_ID c) cycles)
      (boot hdr e0)
    = Some ((Call_init_BSP_button_module, Some BSP_BUTTON_OK)
              :: (Call_init_button (BUTTON_ID c), Some BSP_BUTTON_OK) :: hist, w') ∧
    get_num_of_presses hdr (BUTTON_ID c) w'
    = (Return BSP_BUTTON_OK,
       with_effect (Stored_num_of_presses (Z.of_nat (length cycles))) w').
Proof.
  intros Hcfg Hlen HndB Hc Htoken Hfree Hok Hrel Hn.
  assert (Hle : (length (BUTTONS_CONFIGURATIONS hdr) ≤ NUM_OF_BUTTONS hdr)%nat) by lia.
  (* the module is initialized *)
  assert (Hinit : ∃ w1, init_BSP_button_module hdr (boot hdr e0)
                        = (Return BSP_BUTTON_OK, w1)).
  { rewrite init_BSP_button_module_eq by done.
    destruct (first_call_facts e0 Hle) as (f & w1 & Hrun & Hst & _ & Hf).
    rewrite Hrun. destruct Hf as [_ Hf]. rewrite Hf by done.
    simpl. rewrite Hst, Hok. rewrite bool_decide_eq_true_2 by done. by eexists. }
  destruct Hinit as [w1 Hinit].
  destruct (first_call_world e0 w1 Hle Hinit) as (Hm1 & Hh1 & Hst1 & Hl1 & _ & Hall).
  destruct (Hall c Hc) as (Hlt & Hb1 & Ht1).
  (* the button is registered *)
  destruct (init_button_runs_calls (BUTTON_ID c) w1 _ Hm1
              (proj2 (check_button_ID_lt (BUTTON_ID c)) Hlt) Hb1 eq_refl)
    as (w2 & Hreg & _ & Hts2 & Hm2 & Hw2).
  assert (Hallok : all_succeed (esp_status w1)
                     (init_button_calls (BUTTON_ID c)
                        (set_debounce (Some (BUTTON_ID c)) (declared_info hdr c)))
                   = true).
  { rewrite Hst1. unfold all_succeed. apply forallb_forall. intros call _.
    by rewrite Hok, bool_decide_eq_true_2. }
  rewrite Hallok in Hreg, Hw2. destruct Hw2 as [Hi2 Hh2]. simpl in Hi2, Hh2.
  (* it is pressed and released *)
  destruct (press_release_cycles_run (BUTTON_GPIO_ID c) (BUTTON_ID c) (BUTTON_ID c)
              cycles (debounce_timer_of hdr c)
              (ID_of_timer_name_known _ _ HndB Htoken) eq_refl w2
              (set_debounce_timer_expired true
                 (set_was_initialized true
                    (set_debounce (Some (BUTTON_ID c)) (declared_info hdr c)))))
    as (hist & w' & b' & Hrun & Hm' & Hb' & Hcount & _ & _); try done.
  { rewrite Hh2. simpl. by rewrite bool_decide_eq_true_2. }
  { rewrite Hi2. apply list_lookup_insert_eq. by rewrite Hl1. }
  { by rewrite Hts2. }
  exists hist, w'. split.
  - simpl. unfold api. rewrite Hinit, Hreg. by rewrite Hrun.
  - rewrite (get_num_of_presses_eq (BUTTON_ID c) w' b');
      [ | congruence | by apply check_button_ID_lt | done ].
    rewrite Hcount. simpl. rewrite uint64_incr_iter by lia. by rewrite Z.add_0_l.
Qed.

(** *** Further properties: one button at a time *)

Lemma generic_button_CB_writes_one (args : nat) (w : world) (f : flow unit unit)
    (w' : world) (b0 : system_button_info) :
  generic_button_CB args w = (f, w') →
  system_buttons_infos w !! args = Some b0 →
  length (system_buttons_infos w') = length (system_buttons_infos w) ∧
  length (timers w') = length (timers w) ∧
  (∀ j, j ≠ ID b0 → system_buttons_infos w' !! j = system_buttons_infos w !! j) ∧
  (∀ b', system_buttons_infos w' !! ID b0 = Some b' →
     ∃ b, system_buttons_infos w !! ID b0 = Some b ∧
          ID b' = ID b ∧ was_initialized b' = was_initialized b ∧
          GPIO b' = GPIO b ∧ pull_mode b' = pull_mode b ∧
          interruption_type b' = interruption_type b ∧ debounce b' = debounce b).
Proof.
  intros H Hb0. unfold generic_button_CB in H. unfold_monad.
  rewrite Hb0 in H; simpl in H.
  assert (Hsame : (f, w') = (f, w') → system_buttons_infos w' = system_buttons_infos w →
            timers w' = timers w →
            length (system_buttons_infos w') = length (system_buttons_infos w) ∧
            length (timers w') = length (timers w) ∧
            (∀ j, j ≠ ID b0 →
               system_buttons_infos w' !! j = system_buttons_infos w !! j) ∧
            (∀ b', system_buttons_infos w' !! ID b0 = Some b' →
               ∃ b, system_buttons_infos w !! ID b0 = Some b ∧
                    ID b' = ID b ∧ was_initialized b' = was_initialized b ∧
                    GPIO b' = GPIO b ∧ pull_mode b' = pull_mode b ∧
                    interruption_type b' = interruption_type b ∧
                    debounce b' = debounce b)).
  { intros _ -> ->. split_and!; try done. intros b' Hb'. by exists b'. }
  destruct (system_buttons_infos w !! ID b0) as [b|] eqn:Hb; simpl in H;
    [|simplify_eq; by apply Hsame].
  assert (Hlt : (ID b0 < length (system_buttons_infos w))%nat)
    by (by eapply lookup_lt_Some).
  destruct (debounce b) as [h|] eqn:Hd; simpl in H; [|simplify_eq; by apply Hsame].
  destruct (timers w !! h) as [t|] eqn:Ht; simpl in H; [|simplify_eq; by apply Hsame].
  destruct (timer_is_active t) eqn:Ha; simpl in H; [simplify_eq; by apply Hsame|].
  rewrite Hb in H; simpl in H.
  destruct (debounce_timer_expired b) eqn:He; simpl in H;
    [|simplify_eq; by apply Hsame].
  rewrite Hb in H; simpl in H.
  repeat (rewrite list_lookup_insert_eq in H by (rewrite ?length_insert; done);
          simpl in H).
  rewrite Hd, Ht in H. simpl in H. simplify_eq. simpl.
  rewrite !list_insert_insert_eq, !length_insert. split_and!; try done.
  - intros j Hj. by rewrite list_lookup_insert_ne.
  - intros b' Hb'. rewrite list_lookup_insert_eq in Hb' by done. simplify_eq.
    by exists b.
Qed.

Lemma timer_CB_writes_one (n : nat) (w : world) (f : flow unit unit) (w' : world)
    (t : sw_timer) :
  timer_CB hdr (Some n) w = (f, w') →
  timers w !! n = Some t →
  length (system_buttons_infos w') = length (system_buttons_infos w) ∧
  length (timers w') = length (timers w) ∧
  (∀ j, j ≠ ID_of_timer_name hdr (pcTimerName t) →
     system_buttons_infos w' !! j = system_buttons_infos w !! j) ∧
  (∀ j b', system_buttons_infos w' !! j = Some b' →
     ∃ b, system_buttons_infos w !! j = Some b ∧
          set_debounce_timer_expired (debounce_timer_expired b) b' = b).
Proof.
  intros H Ht. unfold timer_CB in H. unfold_monad. simpl in H.
  rewrite Ht in H; simpl in H.
  assert (Hkeep : ∀ j b', system_buttons_infos w !! j = Some b' →
            ∃ b, system_buttons_infos w !! j = Some b ∧
                 set_debounce_timer_expired (debounce_timer_expired b) b' = b).
  { intros j b' Hb'. exists b'. split; [done|]. by destruct b'. }
  destruct (system_buttons_infos w !! ID_of_timer_name hdr (pcTimerName t))
    as [b|] eqn:Hb; simpl in H; [|by simplify_eq].
  case_bool_decide; simpl in H.
  - rewrite Hb in H; simpl in H.
    destruct (debounce b) as [h0|]; simpl in H; [|by simplify_eq].
    destruct (timers w !! h0); simpl in H; [|by simplify_eq].
    simplify_eq. simpl. by rewrite length_insert.
  - rewrite Hb in H; simpl in H. simplify_eq. simpl.
    rewrite length_insert. split_and!; try done.
    + intros j Hj. by rewrite list_lookup_insert_ne.
    + intros j b' Hb'.
      destruct (decide (ID_of_timer_name hdr (pcTimerName t) = j)) as [<-|Hne].
      * rewrite list_lookup_insert_eq in Hb' by (by eapply lookup_lt_Some).
        simplify_eq. exists b. split; [done|]. by destruct b.
      * rewrite list_lookup_insert_ne in Hb' by done. by apply Hkeep.
Qed.

Lemma init_button_writes_one (id : Button_ID) (w : world)
    (f : flow Button_return unit) (w' : world) :
  init_button hdr id w = (f, w') →
  ∀ j, j ≠ id → system_buttons_infos w' !! j = system_buttons_infos w !! j.
Proof.
  intros H j Hj. unfold init_button, ESP_error_check in H. unfold_monad.
  destruct (button_module_was_initialized w); simpl in H; [|by simplify_eq].
  destruct (check_button_ID hdr id); simpl in H; [|by simplify_eq].
  destruct (system_buttons_infos w !! id) as [b|] eqn:Hb; simpl in H;
    [|by simplify_eq].
  destruct (was_initialized b); simpl in H; [by simplify_eq|].
  repeat (case_match; simplify_eq/=); try done.
  all: by rewrite !list_lookup_insert_ne.
Qed.

(** X9: buttons do not interfere.  The edge detector writes only to the
    button its argument designates and leaves the descriptor, the timer
    handle and the registration flag of that button alone; the settle
    checker writes only to the button the name of its timer designates, and
    there only the flag [debounce_timer_expired]; [init_button] writes only
    to the button it registers.  All three hold however the call ends. *)
Theorem buttons_do_not_interfere :
  (∀ args w f w' b0,
     generic_button_CB args w = (f, w') →
     system_buttons_infos w !! args = Some b0 →
     (∀ j, j ≠ ID b0 → system_buttons_infos w' !! j = system_buttons_infos w !! j) ∧
     (∀ b', system_buttons_infos w' !! ID b0 = Some b' →
        ∃ b, system_buttons_infos w !! ID b0 = Some b ∧
             ID b' = ID b ∧ was_initialized b' = was_initialized b ∧
             GPIO b' = GPIO b ∧ pull_mode b' = pull_mode b ∧
             interruption_type b' = interruption_type b ∧
             debounce b' = debounce b)) ∧
  (∀ n w f w' t,
     timer_CB hdr (Some n) w = (f, w') →
     timers w !! n = Some t →
     (∀ j, j ≠ ID_of_timer_name hdr (pcTimerName t) →
        system_buttons_infos w' !! j = system_buttons_infos w !! j) ∧
     (∀ j b', system_buttons_infos w' !! j = Some b' →
        ∃ b, system_buttons_infos w !! j = Some b ∧
             set_debounce_timer_expired (debounce_timer_expired b) b' = b)) ∧
  (∀ id w f w',
     init_button hdr id w = (f, w') →
     ∀ j, j ≠ id → system_buttons_infos w' !! j = system_buttons_infos w !! j).
Proof.
  split_and!.
  - intros args w f w' b0 H Hb0.
    by destruct (generic_button_CB_writes_one args w f w' b0 H Hb0) as (_ & _ & ? & ?).
  - intros n w f w' t H Ht.
    by destruct (timer_CB_writes_one n w f w' t H Ht) as (_ & _ & ? & ?).
  - apply init_button_writes_one.
Qed.

(** *** Further properties: no handler leaves its tables *)

Lemma ID_of_timer_name_range (name : string) (names : list string) (k acc r : nat) :
  foldl (λ id (e : string * nat), if bool_decide (name = e.1) then e.2 else id) acc
    (imap (λ i n, (n, k + i)%nat) names) = r →
  r = acc ∨ (k ≤ r < k + length names)%nat.
Proof.
  revert k acc. induction names as [|n names IH]; intros k acc Hr; simpl in Hr;
    [by left|].
  assert (Hext : imap ((λ i n, (n, k + i)%nat) ∘ S) names
                 = imap (λ i n, (n, S k + i)%nat) names).
  { apply imap_ext. intros j x _. simpl. f_equal. lia. }
  rewrite Hext in Hr. apply IH in Hr as [Hr|Hr]; simpl in *.
  - case_bool_decide; [right; lia | by left].
  - right. lia.
Qed.

Lemma ID_of_timer_name_lt (name : string) :
  (0 < NUM_OF_BUTTONS hdr)%nat →
  (ID_of_timer_name hdr name < NUM_OF_BUTTONS hdr)%nat.
Proof.
  intros Hpos.
  assert (H : ID_of_timer_name hdr name = 0%nat ∨
              (0 ≤ ID_of_timer_name hdr name < 0 + length (BUTTONS hdr))%nat)
    by exact (ID_of_timer_name_range name (BUTTONS hdr) 0 0 _ eq_refl).
  unfold NUM_OF_BUTTONS in *. lia.
Qed.

Lemma handler_args_installed (pin : gpio_num_t) (handlers : list (gpio_num_t * nat))
    (args : nat) :
  handler_args pin handlers = Some args → ∃ p, (p, args) ∈ handlers.
Proof.
  induction handlers as [|[p a] handlers IH]; simpl; [done|].
  case_bool_decide.
  - intros [= ->]. exists p. by left.
  - intros Hrest. destruct (IH Hrest) as [p' Hp']. exists p'. by right.
Qed.

Lemma generic_button_CB_defined (args : nat) (w : world)
    (b0 b : system_button_info) (h : nat) (t : sw_timer) :
  system_buttons_infos w !! args = Some b0 →
  system_buttons_infos w !! ID b0 = Some b →
  debounce b = Some h →
  timers w !! h = Some t →
  ∃ w', generic_button_CB args w = (Next tt, w').
Proof.
  intros Hb0 Hb Hd Ht.
  assert (Hlt : (ID b0 < length (system_buttons_infos w))%nat)
    by (by eapply lookup_lt_Some).
  unfold generic_button_CB. unfold_monad.
  rewrite Hb0; simpl. rewrite Hb; simpl. rewrite Hd, Ht; simpl.
  destruct (timer_is_active t); simpl; [by eexists|].
  rewrite Hb; simpl. destruct (debounce_timer_expired b); simpl; [|by eexists].
  rewrite Hb; simpl.
  repeat (rewrite list_lookup_insert_eq by (rewrite ?length_insert; done); simpl).
  rewrite Hd, Ht. simpl. by eexists.
Qed.

Lemma timer_expires_defined (h : nat) (w : world) (t : sw_timer) :
  timers w !! h = Some t →
  (timer_is_active t = true →
   ∃ b h0, system_buttons_infos w !! ID_of_timer_name hdr (pcTimerName t) = Some b ∧
           debounce b = Some h0 ∧ (h0 < length (timers w))%nat) →
  ∃ w', timer_expires hdr h w = (Next tt, w').
Proof.
  intros Ht Hactive. unfold timer_expires.
  unfold bind at 1. unfold timer_at. rewrite Ht. unfold when.
  destruct (timer_is_active t) eqn:Ha; [|by eexists].
  destruct (Hactive eq_refl) as (b & h0 & Hb & Hd & Hh0).
  unfold bind at 1. unfold modify at 1. unfold call_void.
  set (w0 := with_timers _ _ w).
  assert (Ht0 : timers w0 !! h = Some (set_timer_active false t)).
  { subst w0; simpl. apply list_lookup_insert_eq. by eapply lookup_lt_Some. }
  rewrite (timer_CB_for _ h w0 b (set_timer_active false t) Ht0 eq_refl Hb).
  case_bool_decide; [|by eexists].
  assert (Hh0' : (h0 < length (timers w0))%nat)
    by (subst w0; simpl; by rewrite length_insert).
  destruct (lookup_lt_is_Some_2 _ _ Hh0') as [t0 Ht0'].
  unfold xTimerStartFromISR, timer_at, bind, modify. rewrite Hd, Ht0'.
  by eexists.
Qed.

Lemma within_bounds_ext (w w' : world) :
  button_module_was_initialized w' = button_module_was_initialized w →
  system_buttons_infos w' = system_buttons_infos w →
  timers w' = timers w →
  isr_handlers w' = isr_handlers w →
  within_bounds hdr w → within_bounds hdr w'.
Proof. unfold within_bounds. by intros -> -> -> ->. Qed.

Lemma within_bounds_kept (w w' : world) :
  button_module_was_initialized w = true →
  button_module_was_initialized w' = true →
  isr_handlers w' = isr_handlers w →
  length (timers w') = length (timers w) →
  length (system_buttons_infos w') = length (system_buttons_infos w) →
  (∀ j b', system_buttons_infos w' !! j = Some b' →
     ∃ b, system_buttons_infos w !! j = Some b ∧
          ID b' = ID b ∧ debounce b' = debounce b) →
  within_bounds hdr w → within_bounds hdr w'.
Proof.
  unfold within_bounds. intros -> -> -> Htimers -> Hfrom (Hlen & Hpos & Hentries & Hh).
  split_and!; try done.
  - destruct Hpos as [?|Hnil]; [by left|right].
    rewrite Hnil in Htimers. by apply nil_length_inv.
  - intros i b' Hb'. destruct (Hfrom i b' Hb') as (b & Hb & -> & ->).
    rewrite Htimers. by eapply Hentries.
Qed.

Lemma generic_button_CB_kept (args : nat) (w : world) (f : flow unit unit)
    (w' : world) :
  generic_button_CB args w = (f, w') →
  f ≠ Undefined →
  button_module_was_initialized w' = button_module_was_initialized w ∧
  isr_handlers w' = isr_handlers w ∧
  length (timers w') = length (timers w) ∧
  length (system_buttons_infos w') = length (system_buttons_infos w) ∧
  (∀ j b', system_buttons_infos w' !! j = Some b' →
     ∃ b, system_buttons_infos w !! j = Some b ∧
          ID b' = ID b ∧ debounce b' = debounce b).
Proof.
  intros H Hdef.
  destruct (generic_button_CB_frame args w f w' H Hdef) as (Hm & Hh & _).
  destruct (system_buttons_infos w !! args) as [b0|] eqn:Hb0.
  2:{ unfold generic_button_CB in H. unfold_monad. rewrite Hb0 in H.
      by simplify_eq. }
  destruct (generic_button_CB_writes_one args w f w' b0 H Hb0)
    as (Hlen & Htimers & Hother & Hown).
  split_and!; try done. intros j b' Hb'.
  destruct (decide (j = ID b0)) as [->|Hne].
  - destruct (Hown b' Hb') as (b & Hb & ? & _ & _ & _ & _ & ?). by exists b.
  - rewrite Hother in Hb' by done. by exists b'.
Qed.

Lemma timer_expires_kept (h : nat) (w : world) (f : flow unit unit) (w' : world) :
  timer_expires hdr h w = (f, w') →
  f ≠ Undefined →
  button_module_was_initialized w' = button_module_was_initialized w ∧
  isr_handlers w' = isr_handlers w ∧
  length (timers w') = length (timers w) ∧
  length (system_buttons_infos w') = length (system_buttons_infos w) ∧
  (∀ j b', system_buttons_infos w' !! j = Some b' →
     ∃ b, system_buttons_infos w !! j = Some b ∧
          ID b' = ID b ∧ debounce b' = debounce b).
Proof.
  intros H Hdef.
  destruct (timer_expires_frame h w f w' H Hdef) as (Hm & Hh & _).
  unfold timer_expires in H.
  unfold bind at 1 in H. unfold timer_at in H.
  destruct (timers w !! h) as [t|] eqn:Ht; [|by simplify_eq].
  unfold when in H. destruct (timer_is_active t) eqn:Ha.
  2:{ unfold ret in H. simplify_eq. split_and!; try done.
      intros j b' Hb'. by exists b'. }
  unfold bind, modify, call_void in H.
  match type of H with
  | context [timer_CB hdr (Some h) ?w0] =>
      destruct (timer_CB hdr (Some h) w0) as [f1 w1] eqn:Hcb
  end.
  assert (w' = w1) as -> by (by destruct f1; simplify_eq).
  apply (timer_CB_writes_one h _ f1 w1 (set_timer_active false t)) in Hcb
    as (Hlen & Htimers & _ & Hfrom); simpl in *.
  2:{ apply list_lookup_insert_eq. by eapply lookup_lt_Some. }
  rewrite length_insert in Htimers.
  split_and!; try done. intros j b' Hb'.
  destruct (Hfrom j b' Hb') as (b & Hb & Heq). exists b. split; [done|].
  split; [exact (f_equal ID Heq) | exact (f_equal debounce Heq)].
Qed.

Lemma init_BSP_button_module_within_bounds (w : world)
    (f : flow Button_return unit) (w' : world) :
  button_module_was_initialized w = false →
  init_BSP_button_module hdr w = (f, w') →
  within_bounds hdr w → within_bounds hdr w'.
Proof.
  intros Hm H (Hlen & Hpos & Hinv). rewrite Hm in Hinv. destruct Hinv as [Hnil Hdormant].
  rewrite init_BSP_button_module_eq in H by done.
  destruct (check_configurations_sort_and_init hdr w) as [f1 w1] eqn:Hrun.
  destruct (check_configurations_sort_and_init_spec w f1 w1 Hlen Hrun) as [Hbad Hgood].
  destruct (forallb (info_is_valid hdr) (system_buttons_infos w)) eqn:Hvalid.
  2:{ destruct Hbad as [-> ->]; [done|]. simplify_eq.
      split_and!; try done. by rewrite Hm. }
  destruct Hgood as (Hf1 & Hm1 & Hh1 & Hlen1 & _ & _ & (new & Hnew & Hnew_dormant) & _);
    [done|].
  assert (Hpos1 : (0 < NUM_OF_BUTTONS hdr)%nat ∨ timers w1 = []).
  { destruct (decide (0 < NUM_OF_BUTTONS hdr)%nat) as [?|Hzero]; [by left|right].
    destruct Hpos as [?|Hnone]; [done|].
    destruct (check_outcome w Hlen Hvalid) as [w1' Hrun'].
    { intros i Hi. lia. }
    rewrite Hrun in Hrun'. rewrite bool_decide_eq_true_2 in Hrun' by lia.
    simplify_eq.
    destruct (check_handles w w1' Hlen Hrun) as (Hcount & _).
    apply nil_length_inv. rewrite Hcount, Hnone. simpl. lia. }
  assert (Hdormant1 : Forall (λ t, timer_is_active t = false) (timers w1)).
  { rewrite Hnew. by apply Forall_app. }
  assert (Hclosed : within_bounds hdr w1).
  { split_and!; [congruence | done |]. rewrite Hm1, Hm. split; [congruence | done]. }
  destruct Hf1 as [-> | ->]; [|simplify_eq; done].
  destruct (check_handles w w1 Hlen Hrun) as (Hcount & _ & Hhandles).
  cbv zeta in H. case_bool_decide; simplify_eq.
  2:{ revert Hclosed. by apply within_bounds_ext. }
  split_and!; simpl; [congruence | done |]. split.
  2:{ rewrite Hh1, Hnil. constructor. }
  intros i b' Hb'.
  assert (Hi : (i < NUM_OF_BUTTONS hdr)%nat).
  { rewrite <- Hlen, <- Hlen1. by eapply lookup_lt_Some. }
  destruct (Hhandles i Hi) as (c & b & _ & Hsorted & Hat & _).
  rewrite Hat in Hb'. simplify_eq. simpl. split.
  - apply sorted_by_ID_from in Hsorted as [Hzero | Hin].
    + apply lookup_replicate in Hzero as [-> _]. simpl. lia.
    + rewrite forallb_forall in Hvalid. 
      apply list_elem_of_In, Hvalid in Hin. unfold info_is_valid in Hin.
      apply andb_prop in Hin as [Hin _]. apply andb_prop in Hin as [Hin _].
      by apply check_button_ID_lt.
  - eexists. split; [done|]. lia.
Qed.

Lemma step_within_bounds (ev : event) (w : world) (r : option Button_return)
    (w' : world) :
  within_bounds hdr w → step hdr ev w = Some (r, w') → within_bounds hdr w'.
Proof.
  intros Hw H. pose proof Hw as (Hlen & Hpos & Hinv).
  destruct ev as [|id|id|id|id|pin|h|e]; simpl in H.
  - unfold api in H.
    destruct (init_BSP_button_module hdr w) as [f w1] eqn:Hrun.
    destruct (button_module_was_initialized w) eqn:Hm.
    + rewrite init_BSP_button_module_again in Hrun by done. by simplify_eq.
    + assert (w' = w1) as -> by (by destruct f; simplify_eq).
      by eapply init_BSP_button_module_within_bounds.
  - unfold api in H. destruct (init_button hdr id w) as [f w1] eqn:Hrun.
    destruct (init_button_frame id w f w1 Hlen Hrun) as (r0 & -> & Hm & Ht & _ & Hrej).
    simplify_eq.
    destruct (decide (r0 = BSP_BUTTON_OK)) as [->|Hne].
    2:{ destruct (Hrej Hne) as [Hi Hh]. revert Hw. by apply within_bounds_ext. }
    apply init_button_OK_inv in Hrun
      as (Hm0 & Hc & b & Hb & _ & Hm' & Hi & _ & Hh).
    rewrite Hm0 in Hinv. destruct Hinv as [Hentries Hhandlers].
    unfold within_bounds. rewrite Hm', Hi, Ht, Hh, length_insert.
    split_and!; try done.
    + intros j b' Hb'. destruct (decide (id = j)) as [<-|Hj].
      * rewrite list_lookup_insert_eq in Hb' by (by eapply lookup_lt_Some).
        simplify_eq. simpl. by apply (Hentries id b).
      * rewrite list_lookup_insert_ne in Hb' by done. by eapply Hentries.
    + constructor; [|done]. simpl. by apply check_button_ID_lt.
  - unfold api in H. destruct (de_init_button hdr id w) as [f w1] eqn:Hrun.
    destruct (de_init_button_frame id w f w1 Hlen Hrun) as (r0 & -> & ? & ? & ? & ? & _).
    simplify_eq. revert Hw. by apply within_bounds_ext.
  - unfold api in H. destruct (read_button_state hdr id w) as [f w1] eqn:Hrun.
    destruct (accessors_frame id w f w1 Hlen (or_introl Hrun))
      as (r0 & -> & ? & ? & ? & ? & _).
    simplify_eq. revert Hw. by apply within_bounds_ext.
  - unfold api in H. destruct (get_num_of_presses hdr id w) as [f w1] eqn:Hrun.
    destruct (accessors_frame id w f w1 Hlen (or_intror Hrun))
      as (r0 & -> & ? & ? & ? & ? & _).
    simplify_eq. revert Hw. by apply within_bounds_ext.
  - unfold handler in H. destruct (gpio_isr_dispatch pin w) as [f w1] eqn:Hrun.
    assert (Hdef : f ≠ Undefined) by (by destruct f).
    assert (w' = w1) as -> by (by destruct f; simplify_eq).
    pose proof (gpio_isr_dispatch_frame pin w f w1 Hrun Hdef) as Hframe.
    unfold gpio_isr_dispatch in Hrun. unfold bind, gets, call_void, ret in Hrun.
    destruct (handler_args pin (isr_handlers w)) as [args|] eqn:Hargs;
      [|by subst].
    destruct (button_module_was_initialized w) eqn:Hm.
    2:{ destruct Hinv as [Hnil _]. rewrite Hnil in Hargs. done. }
    destruct (generic_button_CB args w) as [f1 w2] eqn:Hcb.
    assert (f1 ≠ Undefined ∧ w2 = w1) as [Hdef1 ->] by (by destruct f1; simplify_eq).
    destruct (generic_button_CB_kept args w f1 w1 Hcb Hdef1)
      as (Hm' & Hh & Htimers & Hlen' & Hfrom).
    apply (within_bounds_kept w w1); try done. congruence.
  - unfold handler in H. destruct (timer_expires hdr h w) as [f w1] eqn:Hrun.
    assert (Hdef : f ≠ Undefined) by (by destruct f).
    assert (w' = w1) as -> by (by destruct f; simplify_eq).
    destruct (button_module_was_initialized w) eqn:Hm.
    + destruct (timer_expires_kept h w f w1 Hrun Hdef)
        as (Hm' & Hh & Htimers & Hlen' & Hfrom).
      apply (within_bounds_kept w w1); try done. congruence.
    + destruct Hinv as [_ Hdormant].
      destruct (timer_expires_frame h w f w1 Hrun Hdef) as (_ & _ & _ & Hsame).
      by rewrite (Hsame Hdormant).
  - simplify_eq. revert Hw. by apply within_bounds_ext.
Qed.

Lemma step_defined (ev : event) (w : world) :
  within_bounds hdr w →
  (∀ h, ev = Timer_expiry h → (h < length (timers w))%nat) →
  is_Some (step hdr ev w).
Proof.
  intros (Hlen & Hpos & Hinv) Hev. destruct ev as [|id|id|id|id|pin|h|e]; simpl.
  - unfold api. destruct (init_BSP_button_module hdr w) as [f w1] eqn:Hrun.
    destruct (button_module_was_initialized w) eqn:Hm.
    + rewrite init_BSP_button_module_again in Hrun by done. by simplify_eq.
    + by destruct (init_BSP_button_module_frame w f w1 Hlen Hm Hrun) as (r & -> & _).
  - unfold api. destruct (init_button hdr id w) as [f w1] eqn:Hrun.
    by destruct (init_button_frame id w f w1 Hlen Hrun) as (r & -> & _).
  - unfold api. destruct (de_init_button hdr id w) as [f w1] eqn:Hrun.
    by destruct (de_init_button_frame id w f w1 Hlen Hrun) as (r & -> & _).
  - unfold api. destruct (read_button_state hdr id w) as [f w1] eqn:Hrun.
    by destruct (accessors_frame id w f w1 Hlen (or_introl Hrun)) as (r & -> & _).
  - unfold api. destruct (get_num_of_presses hdr id w) as [f w1] eqn:Hrun.
    by destruct (accessors_frame id w f w1 Hlen (or_intror Hrun)) as (r & -> & _).
  - unfold handler, gpio_isr_dispatch. unfold bind, gets, call_void, ret.
    destruct (handler_args pin (isr_handlers w)) as [args|] eqn:Hargs; [|done].
    destruct (button_module_was_initialized w) eqn:Hm.
    2:{ destruct Hinv as [Hnil _]. rewrite Hnil in Hargs. done. }
    destruct Hinv as [Hentries Hhandlers].
    apply handler_args_installed in Hargs as [p Hp].
    rewrite Forall_forall in Hhandlers. apply Hhandlers in Hp. simpl in Hp.
    rewrite <- Hlen in Hp. destruct (lookup_lt_is_Some_2 _ _ Hp) as [b0 Hb0].
    destruct (Hentries _ _ Hb0) as [Hid0 _]. rewrite <- Hlen in Hid0.
    destruct (lookup_lt_is_Some_2 _ _ Hid0) as [b Hb].
    destruct (Hentries _ _ Hb) as [_ (h & Hd & Hh)].
    destruct (lookup_lt_is_Some_2 _ _ Hh) as [t Ht].
    by destruct (generic_button_CB_defined args w b0 b h t Hb0 Hb Hd Ht) as [w1 ->].
  - unfold handler. specialize (Hev h eq_refl).
    destruct (lookup_lt_is_Some_2 _ _ Hev) as [t Ht].
    destruct (timer_expires_defined h w t Ht) as [w1 ->]; [|done].
    intros Ha. destruct (button_module_was_initialized w) eqn:Hm.
    2:{ destruct Hinv as [_ Hdormant]. rewrite Forall_lookup in Hdormant.
        specialize (Hdormant h t Ht). simpl in Hdormant. congruence. }
    destruct Hinv as [Hentries _].
    assert (Hnum : (0 < NUM_OF_BUTTONS hdr)%nat).
    { destruct Hpos as [?|Hnil]; [done|]. by rewrite Hnil in Ht. }
    pose proof (ID_of_timer_name_lt (pcTimerName t) Hnum) as Hid.
    rewrite <- Hlen in Hid. destruct (lookup_lt_is_Some_2 _ _ Hid) as [b Hb].
    destruct (Hentries _ _ Hb) as [_ (h0 & Hd & Hh0)]. by exists b, h0.
  - done.
Qed.

Lemma exec_within_bounds (evs : list event) (w : world)
    (hist : list (event * option Button_return)) (w' : world) :
  within_bounds hdr w → exec hdr evs w = Some (hist, w') → within_bounds hdr w'.
Proof.
  revert w hist. induction evs as [|ev evs IH]; intros w hist Hw H; simpl in H.
  - by simplify_eq.
  - destruct (step hdr ev w) as [[r w1]|] eqn:Hstep; [|done].
    destruct (exec hdr evs w1) as [[hist' w2]|] eqn:Hrest; [|done].
    simplify_eq. eapply IH; [|done]. by eapply step_within_bounds.
Qed.

Lemma boot_within_bounds (e : environment) : within_bounds hdr (boot hdr e).
Proof.
  split_and!; simpl; [apply initial_length | by right |]. split; constructor.
Qed.

(** X10: no run from boot leads the module outside its tables.  Whatever the
    application called, whatever edges and expiries arrived and however the
    environment changed, the next event has a defined behaviour: no index
    into [system_buttons_infos] is out of range and no timer handle is NULL
    or stale.  Only an expiry is required to name a timer that exists. *)
Theorem runs_stay_defined (e : environment) (evs : list event)
    (hist : list (event * option Button_return)) (w : world) (ev : event) :
  exec hdr evs (boot hdr e) = Some (hist, w) →
  (∀ h, ev = Timer_expiry h → (h < length (timers w))%nat) →
  ∃ r w', step hdr ev w = Some (r, w').
Proof.
  intros Hrun Hev.
  destruct (step_defined ev w) as [[r w'] Hstep]; [|done|by exists r, w'].
  eapply exec_within_bounds; [apply boot_within_bounds | done].
Qed.

(** *** Further properties: a call turned down for want of timers *)

(** The second loop when the kernel cannot hold a timer for every index: it
    stops at the first timer it cannot create, with every timer the kernel
    could hold created. *)
Lemma copy_and_init_shortage (indices : list nat)
    (buttons_info : list system_button_info) (w : world) :
  (∀ i, i ∈ indices →
     (i < length buttons_info)%nat ∧ (i < length (system_buttons_infos w))%nat) →
  (∀ i, i ∈ indices → is_Some (config_of hdr i)) →
  (free_timers w < length indices)%nat →
  ∃ w', copy_and_init hdr indices buttons_info w = (Return false, w') ∧
        length (timers w') = (length (timers w) + free_timers w)%nat ∧
        free_timers w' = 0%nat ∧
        (∀ j t, timers w !! j = Some t → timers w' !! j = Some t) ∧
        button_module_was_initialized w' = button_module_was_initialized w ∧
        isr_handlers w' = isr_handlers w ∧
        driver_calls (effects w') = driver_calls (effects w).
Proof.
  revert w. induction indices as [|i rest IH]; intros w Hin Hcfg Hshort.
  - simpl in Hshort. lia.
  - destruct (Hin i) as [Hlt1 Hlt2]; [left|].
    destruct (lookup_lt_is_Some_2 _ _ Hlt1) as [b Hb].
    destruct (Hcfg i) as [c Hc]; [left|].
    simpl. rewrite Hb. rewrite bind_assoc.
    unfold bind at 1. rewrite copy_and_init_turn by done. rewrite Hc.
    destruct (free_timers w) as [|n] eqn:Hn.
    { eexists. split; [done|]. simpl. by split_and!. }
    match goal with
    | |- context [copy_and_init hdr rest buttons_info ?w0] =>
        destruct (IH w0) as (w' & Hrun & Hcount & Hfree & Hkeep & Hm & Hh & Hd)
    end.
    + intros j Hj. destruct (Hin j) as [? ?]; [by right|].
      split; [done|]. simpl. by rewrite length_insert.
    + intros j Hj. apply Hcfg. by right.
    + simpl in *. lia.
    + exists w'. rewrite Hrun. simpl in *. split_and!; try done.
      * rewrite Hcount, length_app. simpl. lia.
      * intros j t Hj. apply Hkeep. by apply lookup_app_l_Some.
Qed.

(** X11: a first call of [init_BSP_button_module] on a valid configuration
    when the kernel cannot hold one timer per button.  The call returns
    BSP_BUTTON_INVALID_BUTTONS_CONFIG_ERR and leaves the module
    uninitialized, without a driver call; every timer the kernel could still
    hold has been created, none is deleted, and the kernel can hold no
    more. *)
Theorem shortage_of_timers_is_a_configuration_error (e : environment) :
  configuration_is_valid hdr →
  length (BUTTONS_CONFIGURATIONS hdr) = NUM_OF_BUTTONS hdr →
  (env_free_timers e < NUM_OF_BUTTONS hdr)%nat →
  ∃ w',
    init_BSP_button_module hdr (boot hdr e)
    = (Return BSP_BUTTON_INVALID_BUTTONS_CONFIG_ERR, w') ∧
    button_module_was_initialized w' = false ∧
    length (timers w') = env_free_timers e ∧
    Forall (λ t, timer_is_active t = false) (timers w') ∧
    free_timers w' = 0%nat ∧
    isr_handlers w' = [] ∧
    driver_calls (effects w') = [].
Proof.
  intros Hcfg Hlen Hshort. rewrite init_BSP_button_module_eq by done.
  destruct (valid_configuration_table Hcfg Hlen) as [Hvalid Hcover].
  unfold check_configurations_sort_and_init.
  pose proof (check_and_sort_eq (system_buttons_infos (boot hdr e)) 0
                (replicate (NUM_OF_BUTTONS hdr) zero_button_info) (boot hdr e)
                (λ j b Hj, Hj)) as Hfirst.
  simpl in Hfirst. rewrite initial_length, Hvalid in Hfirst.
  unfold bind at 1. rewrite Hfirst. unfold bind at 1.
  destruct (copy_and_init_shortage (seq 0 (NUM_OF_BUTTONS hdr))
              (sorted_by_ID (initial_system_buttons_infos hdr)
                 (replicate (NUM_OF_BUTTONS hdr) zero_button_info)) (boot hdr e))
    as (w' & Hrun & Hcount & Hfree & _ & Hm & Hh & Hd).
  - intros i Hi. apply elem_of_seq in Hi. simpl.
    rewrite sorted_by_ID_length, length_replicate, initial_length. lia.
  - intros i Hi. apply elem_of_seq in Hi. apply Hcover. lia.
  - simpl. by rewrite length_seq.
  - rewrite Hrun. exists w'. simpl in *. split_and!; try done.
    destruct (check_configurations_sort_and_init_spec (boot hdr e) (Return false) w'
                initial_length) as [_ Hgood].
    { unfold check_configurations_sort_and_init.
      unfold bind at 1. simpl. rewrite Hfirst. unfold bind at 1. by rewrite Hrun. }
    destruct (Hgood Hvalid) as (_ & _ & _ & _ & _ & _ & (new & Hnew & Hdormant) & _).
    simpl in Hnew. by rewrite Hnew.
Qed.

(** *** A second start-up after one turned down for want of timers *)

(** A turn of the second loop that finds the kernel unable to hold a timer
    gives up with the element already copied. *)
Lemma copy_and_init_no_timer (i : nat) (rest : list nat)
    (buttons_info : list system_button_info) (w : world)
    (b : system_button_info) (c : button_config) :
  buttons_info !! i = Some b →
  (i < length (system_buttons_infos w))%nat →
  config_of hdr i = Some c →
  free_timers w = 0%nat →
  copy_and_init hdr (i :: rest) buttons_info w
  = (Return false,
     with_infos (<[i := set_debounce None b]> (system_buttons_infos w))
       (with_effect (TimerCreated (BUTTON_ID_token c) None) w)).
Proof.
  intros Hb Hlt Hc Hfree. simpl. rewrite Hb. rewrite bind_assoc.
  unfold bind at 1. rewrite copy_and_init_turn by done. by rewrite Hc, Hfree.
Qed.

(** The first call when the kernel can hold no timer: button 0 has been
    copied to the front of the table when the call gives up, over the
    button that was declared there. *)
Lemma first_call_without_timers (e : environment) (c : button_config) :
  configuration_is_valid hdr →
  length (BUTTONS_CONFIGURATIONS hdr) = NUM_OF_BUTTONS hdr →
  c ∈ BUTTONS_CONFIGURATIONS hdr →
  BUTTON_ID c = 0%nat →
  env_free_timers e = 0%nat →
  ∃ w1,
    init_BSP_button_module hdr (boot hdr e)
    = (Return BSP_BUTTON_INVALID_BUTTONS_CONFIG_ERR, w1) ∧
    button_module_was_initialized w1 = false ∧
    timers w1 = [] ∧
    isr_handlers w1 = [] ∧
    system_buttons_infos w1
    = <[0%nat := declared_info hdr c]> (initial_system_buttons_infos hdr).
Proof.
  intros Hcfg Hlen Hc Hid He. pose proof Hcfg as [Hnd Hpass].
  rewrite init_BSP_button_module_eq by done.
  destruct (valid_configuration_table Hcfg Hlen) as [Hvalid Hcover].
  assert (Hpos : (0 < NUM_OF_BUTTONS hdr)%nat).
  { rewrite <- Hlen. destruct (BUTTONS_CONFIGURATIONS hdr); [inversion Hc | simpl; lia]. }
  assert (Hsorted : sorted_by_ID (initial_system_buttons_infos hdr)
                      (replicate (NUM_OF_BUTTONS hdr) zero_button_info) !! 0%nat
                    = Some (declared_info hdr c)).
  { rewrite <- Hid.
    apply (sorted_by_ID_lookup _ _ (declared_info hdr c)).
    - rewrite initial_exact by done. by rewrite <- list_fmap_compose.
    - rewrite initial_exact by done. by apply list_elem_of_fmap_2.
    - simpl. rewrite length_replicate. lia. }
  assert (Hconfig : config_of hdr 0 = Some c).
  { rewrite <- Hid. by apply config_of_declared. }
  unfold check_configurations_sort_and_init.
  pose proof (check_and_sort_eq (system_buttons_infos (boot hdr e)) 0
                (replicate (NUM_OF_BUTTONS hdr) zero_button_info) (boot hdr e)
                (λ j b Hj, Hj)) as Hfirst.
  simpl in Hfirst. rewrite initial_length, Hvalid in Hfirst.
  unfold bind at 1. rewrite Hfirst. unfold bind at 1.
  assert (Hseq : seq 0 (NUM_OF_BUTTONS hdr) = 0%nat :: seq 1 (NUM_OF_BUTTONS hdr - 1)).
  { destruct (NUM_OF_BUTTONS hdr) as [|n]; [lia|]. simpl. by rewrite Nat.sub_0_r. }
  rewrite Hseq.
  rewrite (copy_and_init_no_timer 0 _ _ (boot hdr e) (declared_info hdr c) c);
    [| done | simpl; rewrite initial_length; lia | done | done].
  eexists. split; [reflexivity|]. by split_and!.
Qed.

(** C5 (what the code does): the second loop of
    [check_configurations_sort_and_init] writes the sorted copy into the
    table element by element and gives up, without undoing what it wrote,
    when a timer cannot be created.  On a board with a valid configuration,
    one line per enumerator, whose first line declares a button other than
    button 0: a call of [init_BSP_button_module] while the kernel can hold no
    timer returns BSP_BUTTON_INVALID_BUTTONS_CONFIG_ERR, and the next call,
    with room for the timers and the interrupt service installing, returns
    BSP_BUTTON_OK on a table that no longer holds the button of that first
    line: the element at the position of its identifier is a zeroed one,
    whose identifier and pin are 0, so the table is not indexed by
    identifier. *)
Theorem retry_after_shortage_loses_a_button (e e' : environment) (c0 : button_config) :
  configuration_is_valid hdr →
  length (BUTTONS_CONFIGURATIONS hdr) = NUM_OF_BUTTONS hdr →
  BUTTONS_CONFIGURATIONS hdr !! 0%nat = Some c0 →
  BUTTON_ID c0 ≠ 0%nat →
  env_free_timers e = 0%nat →
  (NUM_OF_BUTTONS hdr ≤ env_free_timers e')%nat →
  env_esp_status e' (gpio_install_isr_service 0) = ESP_OK →
  ∃ w,
    exec hdr [Call_init_BSP_button_module; Environment_change e';
              Call_init_BSP_button_module] (boot hdr e)
    = Some ([(Call_init_BSP_button_module, Some BSP_BUTTON_INVALID_BUTTONS_CONFIG_ERR);
             (Environment_change e', None);
             (Call_init_BSP_button_module, Some BSP_BUTTON_OK)], w) ∧
    button_module_was_initialized w = true ∧
    system_buttons_infos w !! BUTTON_ID c0
    = Some (set_debounce (Some (BUTTON_ID c0)) zero_button_info) ∧
    (∀ i b, system_buttons_infos w !! i = Some b → ID b ≠ BUTTON_ID c0) ∧
    ¬ indexed_by_ID (system_buttons_infos w).
Proof.
  intros Hcfg Hlen Hc0 Hj He He' Hinst. pose proof Hcfg as [Hnd Hpass].
  destruct (valid_configuration_table Hcfg Hlen) as [Hvalid Hcover].
  assert (Hc0in : c0 ∈ BUTTONS_CONFIGURATIONS hdr)
    by (apply list_elem_of_lookup; by exists 0%nat).
  assert (Hjlt : (BUTTON_ID c0 < NUM_OF_BUTTONS hdr)%nat).
  { destruct (Hpass c0 Hc0in) as (Hid & _).
    by apply check_button_ID_enumerator, check_button_ID_lt in Hid. }
  assert (Hpos : (0 < NUM_OF_BUTTONS hdr)%nat) by lia.
  destruct (Hcover 0%nat Hpos) as [c Hc]. apply config_of_Some in Hc as [Hcin Hcid].
  destruct (first_call_without_timers e c Hcfg Hlen Hcin Hcid He)
    as (w1 & Hrun1 & Hm1 & Ht1 & Hh1 & Hi1).
  set (w1' := with_environment e' w1).
  assert (Hfrom : ∀ b, b ∈ system_buttons_infos w1' →
            ID b ≠ BUTTON_ID c0 ∧ b ∈ initial_system_buttons_infos hdr).
  { intros b Hb. simpl in Hb. rewrite Hi1 in Hb.
    apply list_elem_of_lookup in Hb as [i Hb].
    assert (Hdecl : declared_info hdr c ∈ initial_system_buttons_infos hdr).
    { rewrite initial_exact by done. by apply list_elem_of_fmap_2. }
    destruct (decide (i = 0%nat)) as [->|Hi].
    - rewrite list_lookup_insert_eq in Hb by (rewrite initial_length; lia).
      simplify_eq. simpl. split; [congruence | done].
    - rewrite list_lookup_insert_ne in Hb by done. split.
      + rewrite initial_exact in Hb by done. rewrite list_lookup_fmap in Hb.
        destruct (BUTTONS_CONFIGURATIONS hdr !! i) as [c'|] eqn:Hc'; [|done].
        simpl in Hb. simplify_eq. simpl. intros Heq. apply Hi.
        apply (NoDup_lookup _ i 0%nat (BUTTON_ID c0) Hnd).
        * by rewrite list_lookup_fmap, Hc', <- Heq.
        * by rewrite list_lookup_fmap, Hc0.
      + apply list_elem_of_lookup. by exists i. }
  assert (Hlen1 : length (system_buttons_infos w1') = NUM_OF_BUTTONS hdr).
  { simpl. by rewrite Hi1, length_insert, initial_length. }
  assert (Hvalid1 : forallb (info_is_valid hdr) (system_buttons_infos w1') = true).
  { apply forallb_forall. intros b Hb. apply list_elem_of_In, Hfrom in Hb as [_ Hb].
    rewrite forallb_forall in Hvalid. by apply Hvalid, list_elem_of_In. }
  destruct (check_outcome w1' Hlen1 Hvalid1 Hcover) as [w2 Hrun2].
  rewrite bool_decide_eq_true_2 in Hrun2 by done.
  destruct (check_handles w1' w2 Hlen1 Hrun2) as (_ & _ & Hall).
  destruct (check_configurations_sort_and_init_spec w1' _ w2 Hlen1 Hrun2) as [_ Hgood].
  destruct (Hgood Hvalid1) as (_ & _ & _ & Hl2 & _ & Hst2 & _).
  assert (Hrun : init_BSP_button_module hdr w1'
                 = (Return BSP_BUTTON_OK,
                    with_module_flag true
                      (with_effect (Driver (gpio_install_isr_service 0) ESP_OK) w2))).
  { rewrite init_BSP_button_module_eq by done. rewrite Hrun2. cbv zeta.
    rewrite Hst2. simpl. rewrite Hinst. by rewrite bool_decide_eq_true_2. }
  assert (Hzero : system_buttons_infos w2 !! BUTTON_ID c0
                  = Some (set_debounce (Some (BUTTON_ID c0)) zero_button_info)).
  { destruct (Hall _ Hjlt) as (c' & b & _ & Hsorted & Hat & _).
    rewrite sorted_by_ID_other in Hsorted.
    - apply lookup_replicate in Hsorted as [-> _]. rewrite Hat. simpl. by rewrite Ht1.
    - intros Hin. apply list_elem_of_fmap in Hin as (b' & Hid & Hb').
      by destruct (Hfrom b' Hb') as [Hne _]. }
  eexists. split.
  { cbn [exec step]. unfold api. rewrite Hrun1. fold w1'. by rewrite Hrun. }
  simpl. split_and!; try done.
  - intros i b Hb.
    assert (Hi : (i < NUM_OF_BUTTONS hdr)%nat).
    { rewrite <- Hlen1, <- Hl2. by eapply lookup_lt_Some. }
    destruct (Hall i Hi) as (c' & b' & _ & Hsorted & Hat & _).
    rewrite Hat in Hb. simplify_eq. simpl.
    apply sorted_by_ID_from in Hsorted as [Hrep | Hin].
    + apply lookup_replicate in Hrep as [-> _]. simpl. congruence.
    + by destruct (Hfrom b' Hin).
  - intros Hidx. specialize (Hidx _ _ Hzero). simpl in Hidx. congruence.
Qed.

End Properties.

(** ** The demo board at work *)

Ltac by_computation := vm_compute; reflexivity.
Ltac by_decision :=
  match goal with
  | |- ?P => apply (@bool_decide_unpack P _); vm_compute; exact I
  end.

Lemma init_button_twice_witness :
  init_button demo_board 0%nat demo_initialized
  = (Return BSP_BUTTON_OK, demo_registered) ∧
  init_button demo_board 0%nat demo_registered
  = (Return BSP_BUTTON_WAS_INITIALIZED_ERR, demo_registered).
Proof.
  assert (H : init_button demo_board 0%nat demo_initialized
              = (Return BSP_BUTTON_OK, demo_registered)) by by_computation.
  split; [exact H|].
  exact (init_button_twice demo_board 0%nat demo_initialized demo_registered H).
Defined.

Lemma outside_enumeration_does_not_exist_witness :
  init_button demo_board 7%nat demo_initialized
  = (Return BSP_BUTTON_DOES_NOT_EXIST_ERR, demo_initialized) ∧
  de_init_button demo_board 7%nat demo_initialized
  = (Return BSP_BUTTON_DOES_NOT_EXIST_ERR, demo_initialized) ∧
  read_button_state demo_board 7%nat demo_initialized
  = (Return BSP_BUTTON_DOES_NOT_EXIST_ERR, demo_initialized) ∧
  get_num_of_presses demo_board 7%nat demo_initialized
  = (Return BSP_BUTTON_DOES_NOT_EXIST_ERR, demo_initialized).
Proof.
  apply (outside_enumeration_does_not_exist demo_board 7%nat demo_initialized).
  - by_computation.
  - by_decision.
Defined.

Lemma init_button_after_de_init_button_witness :
  de_init_button demo_board 0%nat demo_registered
  = (Return BSP_BUTTON_OK, demo_run [Call_init_BSP_button_module;
                                     Call_init_button 0%nat;
                                     Call_de_init_button 0%nat]) ∧
  init_button demo_board 0%nat
    (demo_run [Call_init_BSP_button_module; Call_init_button 0%nat;
               Call_de_init_button 0%nat])
  = (Return BSP_BUTTON_WAS_INITIALIZED_ERR,
     demo_run [Call_init_BSP_button_module; Call_init_button 0%nat;
               Call_de_init_button 0%nat]).
Proof.
  assert (H : de_init_button demo_board 0%nat demo_registered
              = (Return BSP_BUTTON_OK,
                 demo_run [Call_init_BSP_button_module; Call_init_button 0%nat;
                           Call_de_init_button 0%nat])) by by_computation.
  split; [exact H|].
  exact (init_button_after_de_init_button demo_board 0%nat _ _ H).
Defined.

(** C1 on the demo board: module initialized, button A registered, then
    de-registered; the next registration of button A is turned down. *)
Example register_deregister_register :
  demo_history [Call_init_BSP_button_module; Call_init_button 0%nat;
                Call_de_init_button 0%nat; Call_init_button 0%nat]
  = [(Call_init_BSP_button_module, Some BSP_BUTTON_OK);
     (Call_init_button 0%nat, Some BSP_BUTTON_OK);
     (Call_de_init_button 0%nat, Some BSP_BUTTON_OK);
     (Call_init_button 0%nat, Some BSP_BUTTON_WAS_INITIALIZED_ERR)].
Proof. by_computation. Qed.

(** C2 refuted: button A was registered, pressed and released; its
    de-registration succeeds and resets none of the three members. *)
Lemma de_init_button_resets_nothing :
  ¬ de_init_button_resets_runtime_state demo_board 0%nat demo_released ∧
  ∃ w', de_init_button demo_board 0%nat demo_released = (Return BSP_BUTTON_OK, w') ∧
        system_buttons_infos w' !! 0%nat
        = Some (demo_button_A true (BUTTON_IS_PRESSED demo_board) true 1).
Proof.
  assert (H : de_init_button demo_board 0%nat demo_released
              = (Return BSP_BUTTON_OK,
                 (de_init_button demo_board 0%nat demo_released).2))
    by by_computation.
  split.
  - intros Hreset. destruct (Hreset _ H) as (b & b' & _ & Hb' & _ & Hlevel & _).
    vm_compute in Hb'. injection Hb' as <-. discriminate Hlevel.
  - eexists. split; [exact H | by_computation].
Qed.

Lemma de_init_button_keeps_buttons_witness :
  de_init_button demo_board 0%nat demo_released
  = (Return BSP_BUTTON_OK, (de_init_button demo_board 0%nat demo_released).2) ∧
  ∀ i b, system_buttons_infos demo_released !! i = Some b →
    ∃ b', system_buttons_infos (de_init_button demo_board 0%nat demo_released).2 !! i
          = Some b' ∧
          ID b' = ID b ∧ GPIO b' = GPIO b ∧ pull_mode b' = pull_mode b ∧
          interruption_type b' = interruption_type b ∧
          debounce b' = debounce b ∧
          state b' = state b ∧
          debounce_timer_expired b' = debounce_timer_expired b ∧
          num_of_presses b' = num_of_presses b.
Proof.
  assert (H : de_init_button demo_board 0%nat demo_released
              = (Return BSP_BUTTON_OK,
                 (de_init_button demo_board 0%nat demo_released).2))
    by by_computation.
  split; [exact H|].
  exact (proj2 (proj2 (de_init_button_keeps_buttons demo_board 0%nat _ _ H))).
Defined.

Lemma one_press_per_debounce_window_witness :
  ∃ h hist1 w1 hist w' b',
    exec demo_board (edges 4 [calm 0]) demo_registered = Some (hist1, w1) ∧
    exec demo_board (edges 4 [calm 0; calm 1; calm 0; calm 1]) demo_registered
    = Some (hist, w') ∧
    w' = drift [calm 1; calm 0; calm 1] w1 ∧
    debounce (demo_button_A true 1 true 0) = Some h ∧
    effects w' = TimerStarted h :: button_CB 0%nat :: effects demo_registered ∧
    system_buttons_infos w' !! 0%nat = Some b' ∧
    num_of_presses b' = uint64_incr 0 ∧
    (0 ≤ 0 < UINT64_MODULUS - 1 → num_of_presses b' = 0 + 1) ∧
    phase_of 0%nat w' = Some Debouncing.
Proof.
  apply (one_press_per_debounce_window demo_board 4 0%nat demo_registered
           (demo_button_A true 1 true 0) (calm 0) [calm 1; calm 0; calm 1]);
    by_computation.
Defined.

Lemma settle_check_at_expiry_witness :
  ∃ w', timer_expires demo_board 0%nat demo_pressed = (Next tt, w') ∧
    (gpio_level demo_pressed 4 = BUTTON_IS_PRESSED demo_board →
     w' = with_effect (TimerStarted 0%nat) demo_pressed ∧
     phase_of 0%nat w' = Some Debouncing) ∧
    (gpio_level demo_pressed 4 ≠ BUTTON_IS_PRESSED demo_board →
     w' = with_infos (<[0%nat := set_debounce_timer_expired true
                                   (demo_button_A true 0 false 1)]>
                        (system_buttons_infos demo_pressed))
            (with_timers (<[0%nat := set_timer_active false (demo_timer_A true)]>
                            (timers demo_pressed))
               (free_timers demo_pressed) demo_pressed) ∧
     phase_of 0%nat w' = Some Quiescent).
Proof.
  apply (settle_check_at_expiry demo_board 0%nat 0%nat demo_pressed
           (demo_button_A true 0 false 1) (demo_timer_A true));
    try by_computation.
  by_decision.
Defined.

Lemma init_BSP_button_module_validates_witness :
  (length (BUTTONS_CONFIGURATIONS demo_board) ≤ NUM_OF_BUTTONS demo_board)%nat ∧
  ∃ r w',
    init_BSP_button_module demo_board (boot demo_board (calm 1)) = (Return r, w') ∧
    ((∃ c, c ∈ BUTTONS_CONFIGURATIONS demo_board ∧ ¬ config_passes_checks demo_board c) →
     r = BSP_BUTTON_INVALID_BUTTONS_CONFIG_ERR ∧ w' = boot demo_board (calm 1)) ∧
    (¬ configuration_is_valid demo_board → r = BSP_BUTTON_INVALID_BUTTONS_CONFIG_ERR) ∧
    (r = BSP_BUTTON_INVALID_BUTTONS_CONFIG_ERR →
     button_module_was_initialized w' = false ∧
     driver_calls (effects w') = [] ∧
     isr_handlers w' = [] ∧
     Forall (λ b, was_initialized b = false) (system_buttons_infos w')) ∧
    (r = BSP_BUTTON_OK →
     configuration_is_valid demo_board ∧
     button_module_was_initialized w' = true ∧
     length (system_buttons_infos w') = NUM_OF_BUTTONS demo_board ∧
     ∀ c, c ∈ BUTTONS_CONFIGURATIONS demo_board →
       ∃ h, system_buttons_infos w' !! BUTTON_ID c
            = Some (set_debounce (Some h) (declared_info demo_board c))).
Proof.
  assert (Hle : (length (BUTTONS_CONFIGURATIONS demo_board)
                 ≤ NUM_OF_BUTTONS demo_board)%nat) by (vm_compute; lia).
  split; [exact Hle|].
  exact (init_BSP_button_module_validates demo_board (calm 1) Hle).
Defined.

(** The demo board is accepted and its two buttons, declared B then A, end
    in the order of their identifiers. *)
Example demo_board_is_sorted :
  init_BSP_button_module demo_board (boot demo_board (calm 1))
  = (Return BSP_BUTTON_OK, demo_initialized) ∧
  system_buttons_infos demo_initialized
  = [set_debounce (Some 0%nat)
       (declared_info demo_board (BUTTON_CONFIG "BUTTON_A" 0%nat 4 GPIO_PULLUP_ONLY 2 50));
     set_debounce (Some 1%nat)
       (declared_info demo_board (BUTTON_CONFIG "BUTTON_B" 1%nat 5 GPIO_PULLUP_ONLY 2 50))].
Proof. split; by_computation. Qed.

Lemma accessors_of_unregistered_button_witness :
  get_num_of_presses demo_board 1%nat demo_pressed
  = (Return BSP_BUTTON_OK, with_effect (Stored_num_of_presses 0) demo_pressed) ∧
  read_button_state demo_board 1%nat demo_pressed
  = (Return BSP_BUTTON_WAS_NOT_INITIALIZED_ERR, demo_pressed).
Proof.
  apply (accessors_of_unregistered_button demo_board (calm 1)
           [Call_init_BSP_button_module; Call_init_button 0%nat;
            Environment_change (calm 0); Edge_interrupt 4]
           (demo_history [Call_init_BSP_button_module; Call_init_button 0%nat;
                          Environment_change (calm 0); Edge_interrupt 4])
           demo_pressed 1%nat).
  - vm_compute. lia.
  - by_computation.
  - by_computation.
  - vm_compute. intros H.
    repeat (apply elem_of_cons in H as [H|H]; [discriminate H|]).
    inversion H.
  - vm_compute. intros H.
    repeat (apply elem_of_cons in H as [H|H]; [discriminate H|]).
    inversion H.
  - by_decision.
Defined.

Lemma init_BSP_button_module_idempotent_witness :
  init_BSP_button_module demo_board demo_registered
  = (Return BSP_BUTTON_OK, demo_registered) ∧
  init_button demo_board 0%nat (boot demo_board (calm 1))
  = (Return BSP_BUTTON_MODULE_WAS_NOT_INIT_ERR, boot demo_board (calm 1)).
Proof.
  split.
  - apply (init_BSP_button_module_idempotent demo_board (calm 1)
             [Call_init_BSP_button_module; Call_init_button 0%nat]
             (demo_history [Call_init_BSP_button_module; Call_init_button 0%nat])
             demo_registered).
    + by_computation.
    + vm_compute. left.
  - apply (init_BSP_button_module_idempotent demo_board (calm 1) [] []
             (boot demo_board (calm 1))).
    + by_computation.
    + intros H. inversion H.
Defined.

Lemma timer_CB_unknown_name_witness :
  timer_CB numbered_board (Some 1%nat) numbered_initialized
  = (Next tt,
     with_infos (<[0%nat := set_debounce_timer_expired true
                               (set_debounce (Some 0%nat)
                                  (declared_info numbered_board
                                     (BUTTON_CONFIG "0" 0%nat 4 GPIO_PULLUP_ONLY 2 50)))]>
                   (system_buttons_infos numbered_initialized))
       numbered_initialized).
Proof.
  apply (timer_CB_unknown_name numbered_board 1%nat numbered_initialized
           {| pcTimerName := "1"; xTimerPeriodInTicks := 5; timer_is_active := false |}
           (set_debounce (Some 0%nat)
              (declared_info numbered_board
                 (BUTTON_CONFIG "0" 0%nat 4 GPIO_PULLUP_ONLY 2 50)))).
  - by_computation.
  - by_decision.
  - by_computation.
  - vm_compute. discriminate.
Defined.

(** A second call after a call that was turned down for want of timers:
    the first call had already moved button A to the front of the table, so
    the second finds button A twice and button B nowhere; it succeeds and
    leaves a zeroed element, whose identifier is 0, at position 1. *)
Example retry_after_rejection :
  ∃ w, exec demo_board
         [Call_init_BSP_button_module; Environment_change (calm 1);
          Call_init_BSP_button_module]
         (boot demo_board (short_of_timers 0))
       = Some ([(Call_init_BSP_button_module,
                 Some BSP_BUTTON_INVALID_BUTTONS_CONFIG_ERR);
                (Environment_change (calm 1), None);
                (Call_init_BSP_button_module, Some BSP_BUTTON_OK)], w) ∧
       system_buttons_infos w !! 1%nat
       = Some (set_debounce (Some 1%nat) zero_button_info).
Proof. eexists. split; by_computation. Qed.

(** ** The further properties on the demo board *)

Lemma init_button_outcome_witness :
  ∃ w',
    init_button demo_board 0%nat demo_initialized
    = (Return (if all_succeed (esp_status demo_initialized)
                    (init_button_calls 0%nat (demo_button_A false 1 false 0))
               then BSP_BUTTON_OK else BSP_BUTTON_INIT_ERR), w') ∧
    effects w'
    = driver_record (esp_status demo_initialized)
        (init_button_calls 0%nat (demo_button_A false 1 false 0))
      ++ effects demo_initialized ∧
    timers w' = timers demo_initialized ∧
    button_module_was_initialized w' = true ∧
    (if all_succeed (esp_status demo_initialized)
          (init_button_calls 0%nat (demo_button_A false 1 false 0))
     then system_buttons_infos w'
          = <[0%nat := set_debounce_timer_expired true
                         (set_was_initialized true (demo_button_A false 1 false 0))]>
              (system_buttons_infos demo_initialized) ∧
          isr_handlers w' = (GPIO (demo_button_A false 1 false 0), 0%nat)
                              :: isr_handlers demo_initialized
     else system_buttons_infos w' = system_buttons_infos demo_initialized ∧
          isr_handlers w' = isr_handlers demo_initialized).
Proof.
  apply (init_button_outcome demo_board 0%nat demo_initialized
           (demo_button_A false 1 false 0)); by_computation.
Defined.

Lemma de_init_button_outcome_witness :
  ∃ w',
    de_init_button demo_board 0%nat demo_registered
    = (Return (if was_initialized (demo_button_A true 1 true 0)
               then if all_succeed (esp_status demo_registered)
                         (de_init_button_calls (demo_button_A true 1 true 0))
                    then BSP_BUTTON_OK else BSP_BUTTON_DE_INIT_ERR
               else BSP_BUTTON_WAS_NOT_INITIALIZED_ERR), w') ∧
    effects w'
    = (if was_initialized (demo_button_A true 1 true 0)
       then driver_record (esp_status demo_registered)
              (de_init_button_calls (demo_button_A true 1 true 0))
       else [])
      ++ effects demo_registered ∧
    system_buttons_infos w' = system_buttons_infos demo_registered ∧
    timers w' = timers demo_registered ∧
    isr_handlers w' = isr_handlers demo_registered ∧
    button_module_was_initialized w' = true.
Proof.
  apply (de_init_button_outcome demo_board 0%nat demo_registered
           (demo_button_A true 1 true 0)); by_computation.
Defined.

Lemma press_release_cycles_count_witness :
  ∃ hist w' b',
    exec demo_board
      (press_release_cycles 4 0%nat [(calm 0, calm 1); (calm 0, calm 1); (calm 0, calm 1)])
      demo_registered = Some (hist, w') ∧
    system_buttons_infos w' !! 0%nat = Some b' ∧
    num_of_presses b' = Nat.iter 3 uint64_incr 0 ∧
    (0 ≤ 0 → 0 + Z.of_nat 3 < UINT64_MODULUS → num_of_presses b' = 0 + Z.of_nat 3) ∧
    effects w'
    = mjoin (replicate 3 [TimerStarted 0%nat; button_CB 0%nat])
      ++ effects demo_registered ∧
    phase_of 0%nat w' = Some Quiescent.
Proof.
  apply (press_release_cycles_count demo_board 4 0%nat 0%nat
           [(calm 0, calm 1); (calm 0, calm 1); (calm 0, calm 1)] demo_registered
           (demo_button_A true 1 true 0) (demo_timer_A false));
    try by_computation.
  repeat constructor; vm_compute; discriminate.
Defined.

Lemma accessors_after_release_witness :
  ∃ hist w',
    exec demo_board (press_release_cycles 4 0%nat [(calm 0, calm 1)]) demo_registered
    = Some (hist, w') ∧
    read_button_state demo_board 0%nat w'
    = (Return BSP_BUTTON_OK, with_effect (Stored_state 0) w') ∧
    get_num_of_presses demo_board 0%nat w'
    = (Return BSP_BUTTON_OK, with_effect (Stored_num_of_presses (uint64_incr 0)) w').
Proof.
  apply (accessors_after_release demo_board 4 0%nat 0%nat demo_registered
           (demo_button_A true 1 true 0) (demo_timer_A false) (calm 0) (calm 1));
    try by_computation.
  vm_compute. discriminate.
Defined.

Lemma held_button_is_not_counted_again_witness :
  ∃ hist w',
    exec demo_board (held_rounds 4 0%nat [(calm 0, calm 1); (calm 0, calm 0)])
      demo_pressed = Some (hist, w') ∧
    system_buttons_infos w' = system_buttons_infos demo_pressed ∧
    timers w' = timers demo_pressed ∧
    isr_handlers w' = isr_handlers demo_pressed ∧
    effects w' = replicate 2 (TimerStarted 0%nat) ++ effects demo_pressed.
Proof.
  apply (held_button_is_not_counted_again demo_board 4 0%nat 0%nat
           [(calm 0, calm 1); (calm 0, calm 0)] demo_pressed
           (demo_button_A true 0 false 1) (demo_timer_A true));
    try by_computation.
  repeat constructor; by_computation.
Defined.

Lemma init_BSP_button_module_first_call_witness :
  ∃ r w',
    init_BSP_button_module demo_board (boot demo_board (calm 1)) = (Return r, w') ∧
    (r = BSP_BUTTON_OK ↔
     configuration_is_valid demo_board ∧
     length (BUTTONS_CONFIGURATIONS demo_board) = NUM_OF_BUTTONS demo_board ∧
     (NUM_OF_BUTTONS demo_board ≤ env_free_timers (calm 1))%nat ∧
     env_esp_status (calm 1) (gpio_install_isr_service 0) = ESP_OK) ∧
    (r = BSP_BUTTON_INIT_ERR ↔
     configuration_is_valid demo_board ∧
     length (BUTTONS_CONFIGURATIONS demo_board) = NUM_OF_BUTTONS demo_board ∧
     (NUM_OF_BUTTONS demo_board ≤ env_free_timers (calm 1))%nat ∧
     env_esp_status (calm 1) (gpio_install_isr_service 0) ≠ ESP_OK) ∧
    (r = BSP_BUTTON_INVALID_BUTTONS_CONFIG_ERR ↔
     ¬ (configuration_is_valid demo_board ∧
        length (BUTTONS_CONFIGURATIONS demo_board) = NUM_OF_BUTTONS demo_board ∧
        (NUM_OF_BUTTONS demo_board ≤ env_free_timers (calm 1))%nat)) ∧
    (button_module_was_initialized w' = true ↔ r = BSP_BUTTON_OK).
Proof.
  apply (init_BSP_button_module_first_call demo_board (calm 1)).
  vm_compute. lia.
Defined.

Lemma first_call_table_and_timers_witness :
  length (system_buttons_infos demo_initialized) = NUM_OF_BUTTONS demo_board ∧
  length (timers demo_initialized) = NUM_OF_BUTTONS demo_board ∧
  isr_handlers demo_initialized = [] ∧
  ∀ c, c ∈ BUTTONS_CONFIGURATIONS demo_board →
    system_buttons_infos demo_initialized !! BUTTON_ID c
    = Some (set_debounce (Some (BUTTON_ID c)) (declared_info demo_board c)) ∧
    ∃ t, timers demo_initialized !! BUTTON_ID c = Some t ∧
         pcTimerName t = BUTTON_ID_token c ∧
         timer_is_active t = false ∧
         (0 < portTICK_PERIOD_MS demo_board < TICKTYPE_MODULUS →
          0 ≤ BOUNCE_TIME c < TICKTYPE_MODULUS →
          xTimerPeriodInTicks t = BOUNCE_TIME c / portTICK_PERIOD_MS demo_board).
Proof.
  apply (first_call_table_and_timers demo_board (calm 1) demo_initialized).
  - vm_compute. lia.
  - by_computation.
Defined.

Lemma demo_board_is_valid : configuration_is_valid demo_board.
Proof.
  split; [by_decision|]. intros c Hc.
  repeat (apply elem_of_cons in Hc as [->|Hc];
          [split_and!; [by_decision | by_computation | by_computation]|]).
  inversion Hc.
Qed.

Lemma presses_counted_from_boot_witness :
  ∃ hist w',
    exec demo_board
      (Call_init_BSP_button_module :: Call_init_button 0%nat
         :: press_release_cycles 4 0%nat [(calm 0, calm 1); (calm 0, calm 1)])
      (boot demo_board (calm 1))
    = Some ((Call_init_BSP_button_module, Some BSP_BUTTON_OK)
              :: (Call_init_button 0%nat, Some BSP_BUTTON_OK) :: hist, w') ∧
    get_num_of_presses demo_board 0%nat w'
    = (Return BSP_BUTTON_OK, with_effect (Stored_num_of_presses (Z.of_nat 2)) w').
Proof.
  apply (presses_counted_from_boot demo_board (calm 1)
           (BUTTON_CONFIG "BUTTON_A" 0%nat 4 GPIO_PULLUP_ONLY 2 50)
           [(calm 0, calm 1); (calm 0, calm 1)]).
  - exact demo_board_is_valid.
  - by_computation.
  - by_decision.
  - apply elem_of_cons; right. apply elem_of_cons; by left.
  - by_computation.
  - vm_compute. lia.
  - intros call. reflexivity.
  - repeat constructor; vm_compute; discriminate.
  - by_computation.
Defined.

Lemma buttons_do_not_interfere_witness :
  system_buttons_infos demo_pressed !! 1%nat
  = system_buttons_infos demo_registered !! 1%nat.
Proof.
  destruct (buttons_do_not_interfere demo_board) as (Hedge & _ & _).
  destruct (Hedge 0%nat (with_environment (calm 0) demo_registered) (Next tt)
              demo_pressed (demo_button_A true 1 true 0)) as [Hother _];
    [by_computation | by_computation |].
  exact (Hother 1%nat ltac:(vm_compute; discriminate)).
Defined.

Lemma runs_stay_defined_witness :
  ∃ r w',
    step demo_board (Timer_expiry 0%nat) demo_pressed = Some (r, w').
Proof.
  apply (runs_stay_defined demo_board (calm 1)
           [Call_init_BSP_button_module; Call_init_button 0%nat;
            Environment_change (calm 0); Edge_interrupt 4]
           (demo_history [Call_init_BSP_button_module; Call_init_button 0%nat;
                          Environment_change (calm 0); Edge_interrupt 4])
           demo_pressed (Timer_expiry 0%nat)).
  - by_computation.
  - intros h Hh. injection Hh as <-. vm_compute. lia.
Defined.

Lemma shortage_of_timers_is_a_configuration_error_witness :
  ∃ w',
    init_BSP_button_module demo_board (boot demo_board (short_of_timers 1))
    = (Return BSP_BUTTON_INVALID_BUTTONS_CONFIG_ERR, w') ∧
    button_module_was_initialized w' = false ∧
    length (timers w') = env_free_timers (short_of_timers 1) ∧
    Forall (λ t, timer_is_active t = false) (timers w') ∧
    free_timers w' = 0%nat ∧
    isr_handlers w' = [] ∧
    driver_calls (effects w') = [].
Proof.
  apply (shortage_of_timers_is_a_configuration_error demo_board (short_of_timers 1)).
  - exact demo_board_is_valid.
  - by_computation.
  - vm_compute. lia.
Defined.

(** C5 on the demo board, whose first line declares button B: the call
    without room for a timer is turned down, the next one succeeds, and
    button B is gone from the table. *)
Lemma retry_after_shortage_loses_a_button_witness :
  ∃ w,
    exec demo_board
      [Call_init_BSP_button_module; Environment_change (calm 1);
       Call_init_BSP_button_module] (boot demo_board (short_of_timers 0))
    = Some ([(Call_init_BSP_button_module, Some BSP_BUTTON_INVALID_BUTTONS_CONFIG_ERR);
             (Environment_change (calm 1), None);
             (Call_init_BSP_button_module, Some BSP_BUTTON_OK)], w) ∧
    button_module_was_initialized w = true ∧
    system_buttons_infos w
      !! BUTTON_ID (BUTTON_CONFIG "BUTTON_B" 1%nat 5 GPIO_PULLUP_ONLY 2 50)
    = Some (set_debounce
              (Some (BUTTON_ID (BUTTON_CONFIG "BUTTON_B" 1%nat 5 GPIO_PULLUP_ONLY 2 50)))
              zero_button_info) ∧
    (∀ i b, system_buttons_infos w !! i = Some b →
       ID b ≠ BUTTON_ID (BUTTON_CONFIG "BUTTON_B" 1%nat 5 GPIO_PULLUP_ONLY 2 50)) ∧
    ¬ indexed_by_ID (system_buttons_infos w).
Proof.
  apply (retry_after_shortage_loses_a_button demo_board (short_of_timers 0) (calm 1)
           (BUTTON_CONFIG "BUTTON_B" 1%nat 5 GPIO_PULLUP_ONLY 2 50)).
  - exact demo_board_is_valid.
  - by_computation.
  - by_computation.
  - vm_compute. discriminate.
  - by_computation.
  - vm_compute. lia.
  - by_computation.
Defined.

(** What the lost button costs: after the two calls above, registering
    button B programs pin 0, the pin of the zeroed element, and installs the
    handler there; pin 5, the pin declared for button B, is not touched. *)
Example retry_then_register_programs_pin_0 :
  ∃ w, exec demo_board
         [Call_init_BSP_button_module; Environment_change (calm 1);
          Call_init_BSP_button_module; Call_init_button 1%nat]
         (boot demo_board (short_of_timers 0))
       = Some ([(Call_init_BSP_button_module,
                 Some BSP_BUTTON_INVALID_BUTTONS_CONFIG_ERR);
                (Environment_change (calm 1), None);
                (Call_init_BSP_button_module, Some BSP_BUTTON_OK);
                (Call_init_button 1%nat, Some BSP_BUTTON_OK)], w) ∧
       isr_handlers w = [(0, 1%nat)] ∧
       driver_calls (effects w)
       = [Driver (gpio_isr_handler_add 0 1%nat) ESP_OK;
          Driver (gpio_set_intr_type 0 0) ESP_OK;
          Driver (gpio_set_pull_mode 0 0) ESP_OK;
          Driver (gpio_set_direction 0 GPIO_MODE_INPUT) ESP_OK;
          Driver (gpio_reset_pin 0) ESP_OK;
          Driver (gpio_install_isr_service 0) ESP_OK].
Proof. eexists. split_and!; by_computation. Qed.

(** The period of a timer whose [BOUNCE_TIME] is negative: the conversion
    to [TickType_t] wraps it around before the division. *)
Example negative_BOUNCE_TIME_wraps : ticks_of_BOUNCE_TIME (-55) 10 = 429496724.
Proof. reflexivity. Qed.
